(** * wireless-dev-cli: the discovery sweep, the bridge listing parser,
      the preference store, the functions on a device and the commands

    A shallow embedding of [src/index.ts].  JavaScript strings are sequences
    of UTF-16 code units, so a string is a list of code units ([N]); the
    child processes ([adb ...]) are an oracle of the world, indexed by the
    number of processes started before; mutable program state (the config
    object, the config file, the console) is threaded explicitly; what the
    user answers at a prompt is a parameter of the command. *)

From Stdlib Require Import String Ascii DecimalString DecimalNat.
From Stdlib Require Import NArith ZArith Arith Lia Bool Permutation List.
Import ListNotations.
Local Open Scope list_scope.

Set Implicit Arguments.
Set Warnings "-register-all".

(* ================================================================== *)
(** * Part I: the program *)
(* ================================================================== *)

(** ** Strings *)

(** A code unit, and a string. *)
Abbreviation char16 := N (only parsing).
Abbreviation jstring := (list N) (only parsing).

(** A literal of the source, as code units. *)
Definition str (s : string) : jstring :=
  map N_of_ascii (list_ascii_of_string s).
Arguments str s%_string.

Fixpoint jeqb (a b : jstring) : bool :=
  match a, b with
  | [], [] => true
  | x :: a', y :: b' => N.eqb x y && jeqb a' b'
  | _, _ => false
  end.

(** [String.prototype.startsWith] *)
Fixpoint startsWith (s p : jstring) {struct p} : bool :=
  match p, s with
  | [], _ => true
  | _ :: _, [] => false
  | y :: p', x :: s' => N.eqb x y && startsWith s' p'
  end.

(** [String.prototype.includes] *)
Fixpoint includes (s p : jstring) : bool :=
  startsWith s p ||
  match s with
  | [] => false
  | _ :: s' => includes s' p
  end.

(** The code units that [\s] matches and [trim] strips: WhiteSpace and
    LineTerminator of ECMAScript. *)
Definition isSpace (c : char16) : bool :=
  ((9 <=? c) && (c <=? 13) || (c =? 32) || (c =? 160) || (c =? 5760)
   || (8192 <=? c) && (c <=? 8202) || (c =? 8232) || (c =? 8233)
   || (c =? 8239) || (c =? 8287) || (c =? 12288) || (c =? 65279))%N.

Definition notSpace (c : char16) : bool := negb (isSpace c).

Fixpoint takeWhile (p : char16 -> bool) (s : jstring) : jstring :=
  match s with
  | [] => []
  | c :: s' => if p c then c :: takeWhile p s' else []
  end.

Fixpoint dropWhile (p : char16 -> bool) (s : jstring) : jstring :=
  match s with
  | [] => []
  | c :: s' => if p c then dropWhile p s' else s
  end.

(** [String.prototype.trim] *)
Definition trim (s : jstring) : jstring :=
  rev (dropWhile isSpace (rev (dropWhile isSpace s))).

(** [String.prototype.split] with a separator of one code unit. *)
Fixpoint split (sep : char16) (s : jstring) : list jstring :=
  match s with
  | [] => [[]]
  | c :: s' =>
      if N.eqb c sep then [] :: split sep s'
      else match split sep s' with
           | piece :: rest => (c :: piece) :: rest
           | [] => [[c]]
           end
  end.

(** [String.prototype.lastIndexOf] with a pattern of one code unit;
    -1 when it does not occur. *)
Fixpoint lastIndexOf_from (c : char16) (s : jstring) (i found : Z) : Z :=
  match s with
  | [] => found
  | x :: s' => lastIndexOf_from c s' (i + 1) (if N.eqb x c then i else found)
  end.

Definition lastIndexOf (s : jstring) (c : char16) : Z :=
  lastIndexOf_from c s 0 (-1).

(** [String.prototype.substring]: both ends are clamped to the string and
    swapped when out of order. *)
Definition substring (s : jstring) (a b : Z) : jstring :=
  let len := Z.of_nat (length s) in
  let a' := Z.min (Z.max a 0) len in
  let b' := Z.min (Z.max b 0) len in
  let from := Z.min a' b' in
  let to := Z.max a' b' in
  firstn (Z.to_nat (to - from)) (skipn (Z.to_nat from) s).

(** Number to string, for the non-negative integers of the loop counter. *)
Definition toString (n : nat) : jstring :=
  str (NilEmpty.string_of_uint (Nat.to_uint n)).

Definition dot : char16 := 46%N.
Definition newline : char16 := 10%N.

(** ** Data model *)

Module DeviceInfo.
Record t := mk {
  id : jstring;
  status : jstring;
  model : option jstring;
  androidVersion : option jstring;
  manufacturer : option jstring;
  wireless : option bool
}.
End DeviceInfo.

Module DiscoveredDevice.
Record t := mk { ip : jstring; status : jstring }.
End DiscoveredDevice.

Module KnownDevice.
Record t := mk {
  id : jstring;
  ip : jstring;
  model : jstring;
  lastConnected : jstring
}.
End KnownDevice.

Record ConfigType := { knownDevices : option (list KnownDevice.t) }.

(** The list a reader of the store sees: an absent key is the empty list
    ([config.knownDevices && ...], [if (!config.knownDevices) ... = []]). *)
Definition knownDevicesList (c : ConfigType) : list KnownDevice.t :=
  match knownDevices c with
  | Some l => l
  | None => []
  end.

(** ** The bridge listing parser *)

(** [line.match(/^(\S+)\s+(\S+)/)]: the three quantifiers are greedy and
    each is followed by its complement class, so the only match takes the
    longest run each time. *)
Definition matchDeviceLine (line : jstring) : option (jstring * jstring) :=
  let id := takeWhile notSpace line in
  let rest1 := dropWhile notSpace line in
  let gap := takeWhile isSpace rest1 in
  let rest2 := dropWhile isSpace rest1 in
  let status := takeWhile notSpace rest2 in
  match id, gap, status with
  | _ :: _, _ :: _, _ :: _ => Some (id, status)
  | _, _, _ => None
  end.

(** [stdout.split('\n').slice(1)] *)
Definition listingLines (stdout : jstring) : list jstring :=
  tl (split newline stdout).

(** ** JSON *)

Definition quote : char16 := 34%N.
Definition backslash : char16 := 92%N.

Inductive JSON :=
| JNull
| JBool (b : bool)
| JNum (literal : jstring)
| JStr (s : jstring)
| JArr (elements : list JSON)
| JObj (members : list (jstring * JSON)).

Definition isHighSurrogate (c : char16) : bool :=
  ((55296 <=? c) && (c <=? 56319))%N.
Definition isLowSurrogate (c : char16) : bool :=
  ((56320 <=? c) && (c <=? 57343))%N.

Definition hexDigit (n : N) : char16 :=
  (if n <? 10 then 48 + n else 87 + n)%N.

(** [\uXXXX] with lower-case digits, as QuoteJSONString writes it. *)
Definition unicodeEscape (c : char16) : jstring :=
  [backslash; 117%N;
   hexDigit ((c / 4096) mod 16); hexDigit ((c / 256) mod 16);
   hexDigit ((c / 16) mod 16); hexDigit (c mod 16)].

(** The characters of a string between the quotes (QuoteJSONString): the
    quote, the backslash and the control characters are escaped, a
    surrogate without its partner is escaped, all else is copied. *)
Fixpoint quoteChars (s : jstring) : jstring :=
  match s with
  | [] => []
  | c :: r =>
      if N.eqb c quote then backslash :: quote :: quoteChars r
      else if N.eqb c backslash then backslash :: backslash :: quoteChars r
      else if N.eqb c 8 then backslash :: 98%N :: quoteChars r
      else if N.eqb c 12 then backslash :: 102%N :: quoteChars r
      else if N.eqb c 10 then backslash :: 110%N :: quoteChars r
      else if N.eqb c 13 then backslash :: 114%N :: quoteChars r
      else if N.eqb c 9 then backslash :: 116%N :: quoteChars r
      else if N.ltb c 32 then unicodeEscape c ++ quoteChars r
      else if isHighSurrogate c then
        match r with
        | d :: r' =>
            if isLowSurrogate d then c :: d :: quoteChars r'
            else unicodeEscape c ++ quoteChars r
        | [] => unicodeEscape c
        end
      else if isLowSurrogate c then unicodeEscape c ++ quoteChars r
      else c :: quoteChars r
  end.

Definition quoteJSONString (s : jstring) : jstring :=
  quote :: quoteChars s ++ [quote].

Fixpoint join (sep : jstring) (pieces : list jstring) : jstring :=
  match pieces with
  | [] => []
  | [p] => p
  | p :: pieces' => p ++ sep ++ join sep pieces'
  end.

(** [JSON.stringify(value, null, 2)] at the indentation [indent]. *)
Fixpoint stringify (indent : jstring) (j : JSON) : jstring :=
  let inner := indent ++ str "  " in
  match j with
  | JNull => str "null"
  | JBool true => str "true"
  | JBool false => str "false"
  | JNum literal => literal
  | JStr s => quoteJSONString s
  | JArr [] => str "[]"
  | JArr elements =>
      str "[" ++ newline :: inner
      ++ join (str "," ++ newline :: inner) (map (stringify inner) elements)
      ++ newline :: indent ++ str "]"
  | JObj [] => str "{}"
  | JObj members =>
      str "{" ++ newline :: inner
      ++ join (str "," ++ newline :: inner)
           (map (fun kv => quoteJSONString (fst kv) ++ str ": "
                           ++ stringify inner (snd kv)) members)
      ++ newline :: indent ++ str "}"
  end.

(** The white space of the JSON grammar: space, tab, line feed, carriage
    return. *)
Definition isJSONSpace (c : char16) : bool :=
  ((c =? 32) || (c =? 9) || (c =? 10) || (c =? 13))%N.

Definition isDigit (c : char16) : bool := ((48 <=? c) && (c <=? 57))%N.

Definition hexValue (c : char16) : option N :=
  (if (48 <=? c) && (c <=? 57) then Some (c - 48)
   else if (97 <=? c) && (c <=? 102) then Some (c - 87)
   else if (65 <=? c) && (c <=? 70) then Some (c - 55)
   else None)%N.

(** The characters of a JSON string up to its closing quote. *)
Fixpoint parseChars (s : jstring) : option (jstring * jstring) :=
  let cons c r := match r with
                  | Some (body, rest) => Some (c :: body, rest)
                  | None => None
                  end in
  match s with
  | [] => None
  | c :: r =>
      if N.eqb c quote then Some ([], r)
      else if N.eqb c backslash then
        match r with
        | [] => None
        | e :: r' =>
            if N.eqb e quote then cons quote (parseChars r')
            else if N.eqb e backslash then cons backslash (parseChars r')
            else if N.eqb e 47 then cons 47%N (parseChars r')
            else if N.eqb e 98 then cons 8%N (parseChars r')
            else if N.eqb e 102 then cons 12%N (parseChars r')
            else if N.eqb e 110 then cons 10%N (parseChars r')
            else if N.eqb e 114 then cons 13%N (parseChars r')
            else if N.eqb e 116 then cons 9%N (parseChars r')
            else if N.eqb e 117 then
              match r' with
              | h1 :: h2 :: h3 :: h4 :: r'' =>
                  match hexValue h1, hexValue h2, hexValue h3, hexValue h4 with
                  | Some a, Some b, Some c', Some d =>
                      cons (a * 4096 + b * 256 + c' * 16 + d)%N (parseChars r'')
                  | _, _, _, _ => None
                  end
              | _ => None
              end
            else None
        end
      else if N.ltb c 32 then None
      else cons c (parseChars r)
  end.

(** A JSON number: an optional minus; a zero, or a digit other than zero
    and any digits; optionally a point and digits; optionally [e] or [E],
    a sign and digits.  The literal is kept as written. *)
Definition parseNumber (s : jstring) : option (jstring * jstring) :=
  let negative := startsWith s [45%N] in
  let s1 := if negative then tl s else s in
  let int := if startsWith s1 [48%N] then [48%N] else takeWhile isDigit s1 in
  let s2 := skipn (length int) s1 in
  let hasFrac := startsWith s2 [46%N] in
  let fracDigits := takeWhile isDigit (tl s2) in
  let s3 := if hasFrac then dropWhile isDigit (tl s2) else s2 in
  let hasExp := startsWith s3 [101%N] || startsWith s3 [69%N] in
  let hasSign := startsWith (tl s3) [43%N] || startsWith (tl s3) [45%N] in
  let s4 := if hasSign then tl (tl s3) else tl s3 in
  let expDigits := takeWhile isDigit s4 in
  match int with
  | [] => None
  | _ :: _ =>
      if hasFrac && (length fracDigits =? 0) then None
      else if hasExp && (length expDigits =? 0) then None
      else
        Some ((if negative then [45%N] else [])
              ++ int
              ++ (if hasFrac then 46%N :: fracDigits else [])
              ++ (if hasExp
                  then firstn 1 s3
                       ++ (if hasSign then firstn 1 (tl s3) else [])
                       ++ expDigits
                  else []),
              if hasExp then dropWhile isDigit s4 else s3)
  end.

(** The JSON grammar by recursive descent.  Each call on a smaller [fuel]
    comes after at most one call that read no character, so twice the
    length of the text is enough fuel. *)
Fixpoint parseValue (fuel : nat) (s : jstring) : option (JSON * jstring) :=
  match fuel with
  | 0 => None
  | S fuel' =>
    match dropWhile isJSONSpace s with
    | [] => None
    | c :: r =>
      if N.eqb c quote then
        match parseChars r with
        | Some (body, rest) => Some (JStr body, rest)
        | None => None
        end
      else if N.eqb c 91 then
        if startsWith (dropWhile isJSONSpace r) [93%N]
        then Some (JArr [], tl (dropWhile isJSONSpace r))
        else match parseElements fuel' r with
             | Some (elements, rest) => Some (JArr elements, rest)
             | None => None
             end
      else if N.eqb c 123 then
        if startsWith (dropWhile isJSONSpace r) [125%N]
        then Some (JObj [], tl (dropWhile isJSONSpace r))
        else match parseMembers fuel' r with
             | Some (members, rest) => Some (JObj members, rest)
             | None => None
             end
      else if startsWith (c :: r) (str "true")
        then Some (JBool true, skipn 4 (c :: r))
      else if startsWith (c :: r) (str "false")
        then Some (JBool false, skipn 5 (c :: r))
      else if startsWith (c :: r) (str "null")
        then Some (JNull, skipn 4 (c :: r))
      else match parseNumber (c :: r) with
           | Some (literal, rest) => Some (JNum literal, rest)
           | None => None
           end
    end
  end

with parseElements (fuel : nat) (s : jstring) : option (list JSON * jstring) :=
  match fuel with
  | 0 => None
  | S fuel' =>
    match parseValue fuel' s with
    | None => None
    | Some (v, rest) =>
      match dropWhile isJSONSpace rest with
      | c :: rest' =>
          if N.eqb c 44 then
            match parseElements fuel' rest' with
            | Some (vs, rest'') => Some (v :: vs, rest'')
            | None => None
            end
          else if N.eqb c 93 then Some ([v], rest')
          else None
      | [] => None
      end
    end
  end

with parseMembers (fuel : nat) (s : jstring)
  : option (list (jstring * JSON) * jstring) :=
  match fuel with
  | 0 => None
  | S fuel' =>
    if negb (startsWith (dropWhile isJSONSpace s) [quote]) then None else
    match parseChars (tl (dropWhile isJSONSpace s)) with
    | None => None
    | Some (key, rest) =>
      if negb (startsWith (dropWhile isJSONSpace rest) [58%N]) then None else
      match parseValue fuel' (tl (dropWhile isJSONSpace rest)) with
      | None => None
      | Some (v, rest2) =>
        match dropWhile isJSONSpace rest2 with
        | c :: rest3 =>
            if N.eqb c 44 then
              match parseMembers fuel' rest3 with
              | Some (ms, rest4) => Some ((key, v) :: ms, rest4)
              | None => None
              end
            else if N.eqb c 125 then Some ([(key, v)], rest3)
            else None
        | [] => None
        end
      end
    end
  end.

(** An object holds a key once.  Defining a property that the object has
    already gives it the new value and leaves it where it was; a new
    property comes last.  (An object lists the keys that are array
    indices before the others; here they stay where they are written: no
    key of a config is one.) *)
Fixpoint defineProperty (key : jstring) (v : JSON)
    (members : list (jstring * JSON)) : list (jstring * JSON) :=
  match members with
  | [] => [(key, v)]
  | (key', v') :: members' =>
      if jeqb key' key then (key', v) :: members'
      else (key', v') :: defineProperty key v members'
  end.

(** The value of a text: the members of an object are defined on it one
    after the other, as they are written, so that of a key written twice
    the last value is kept. *)
Fixpoint valueOf (j : JSON) : JSON :=
  match j with
  | JArr elements => JArr (map valueOf elements)
  | JObj members =>
      JObj ((fix define (members object : list (jstring * JSON)) :=
               match members with
               | [] => object
               | (key, v) :: members' =>
                   define members' (defineProperty key (valueOf v) object)
               end) members [])
  | _ => j
  end.

(** [JSON.parse(text)]; [None] is the SyntaxError. *)
Definition JSONparse (text : jstring) : option JSON :=
  match parseValue (2 * length text + 2) text with
  | Some (j, rest) =>
      match dropWhile isJSONSpace rest with
      | [] => Some (valueOf j)
      | _ :: _ => None
      end
  | None => None
  end.

(** *** The config object as a JSON value *)

Definition knownDeviceJSON (d : KnownDevice.t) : JSON :=
  JObj [(str "id", JStr (KnownDevice.id d));
        (str "ip", JStr (KnownDevice.ip d));
        (str "model", JStr (KnownDevice.model d));
        (str "lastConnected", JStr (KnownDevice.lastConnected d))].

Definition configJSON (c : ConfigType) : JSON :=
  match knownDevices c with
  | None => JObj []
  | Some l => JObj [(str "knownDevices", JArr (map knownDeviceJSON l))]
  end.

Definition asKnownDevice (j : JSON) : option KnownDevice.t :=
  match j with
  | JObj [(k1, JStr id); (k2, JStr ip); (k3, JStr model);
          (k4, JStr lastConnected)] =>
      if jeqb k1 (str "id") && jeqb k2 (str "ip") && jeqb k3 (str "model")
         && jeqb k4 (str "lastConnected")
      then Some (KnownDevice.mk id ip model lastConnected)
      else None
  | _ => None
  end.

Fixpoint asKnownDevices (l : list JSON) : option (list KnownDevice.t) :=
  match l with
  | [] => Some []
  | j :: l' =>
      match asKnownDevice j, asKnownDevices l' with
      | Some d, Some ds => Some (d :: ds)
      | _, _ => None
      end
  end.

(** The parsed values that are a [ConfigType] as the program itself writes
    it: the keys of [saveConfig], in its order, with string values.  On any
    other value (other keys or another order of them, values of another
    type) the model does not follow the program. *)
Definition asConfig (j : JSON) : option ConfigType :=
  match j with
  | JObj [] => Some {| knownDevices := None |}
  | JObj [(k, JArr l)] =>
      if jeqb k (str "knownDevices") then
        match asKnownDevices l with
        | Some ds => Some {| knownDevices := Some ds |}
        | None => None
        end
      else None
  | _ => None
  end.

(** What a file holds after a string is written to it as UTF-8 and read
    back as UTF-8: a surrogate without its partner comes back as U+FFFD. *)
Fixpoint utf8Text (s : jstring) : jstring :=
  match s with
  | [] => []
  | c :: r =>
      if isHighSurrogate c then
        match r with
        | d :: r' =>
            if isLowSurrogate d then c :: d :: utf8Text r'
            else 65533%N :: utf8Text r
        | [] => [65533%N]
        end
      else if isLowSurrogate c then 65533%N :: utf8Text r
      else c :: utf8Text r
  end.

(** [parseInt(s)] without a radix: leading white space, a sign, [0x] for
    base sixteen, then the longest run of digits; [None] is NaN.  The
    value is the exact integer (the program only compares it with 11). *)
Definition digitValue (radix : N) (c : char16) : option N :=
  match hexValue c with
  | Some v => if N.ltb v radix then Some v else None
  | None => None
  end.

Fixpoint readDigits (radix : N) (s : jstring) (acc : option N) : option N :=
  match s with
  | [] => acc
  | c :: r =>
      match digitValue radix c with
      | Some v =>
          readDigits radix r
            (Some (match acc with Some a => a * radix + v | None => v end)%N)
      | None => acc
      end
  end.

Definition parseInt (s : jstring) : option Z :=
  let s1 := dropWhile isSpace s in
  let (negative, s2) := match s1 with
                        | 45%N :: r => (true, r)
                        | 43%N :: r => (false, r)
                        | _ => (false, s1)
                        end in
  let (radix, s3) := match s2 with
                     | 48%N :: x :: r =>
                         if N.eqb x 120 || N.eqb x 88 then (16%N, r)
                         else (10%N, s2)
                     | _ => (10%N, s2)
                     end in
  match readDigits radix s3 None with
  | Some v => Some (if negative then - Z.of_N v else Z.of_N v)%Z
  | None => None
  end.

(** ** The world *)

(** How a child process ends: [execPromise] fulfils with its standard
    output, or rejects (missing executable, non-zero exit, timeout). *)
Inductive ExecResult := Fulfilled (stdout : jstring) | Rejected.

Module NetworkInterfaceInfo.
Record t := mk { address : jstring; family : jstring; internal : bool }.
End NetworkInterfaceInfo.

(** The config file: absent, there but not readable, or holding a text. *)
Inductive FileState :=
| FileAbsent
| FileUnreadable
| FileText (text : jstring).

(** Everything the program reads from outside.  The answers of the bridge
    may change as time passes and as the program acts, so they are asked by
    the number of child processes started before (the [clock] below).
    [dateNow] is [new Date().toISOString()]; [writeFailure] says whether
    [fs.writeFileSync] throws, and what it then leaves of the file. *)
Record World := {
  networkInterfaces : list (jstring * option (list NetworkInterfaceInfo.t));
  execResult : nat -> jstring -> ExecResult;
  dateNow : nat -> jstring;
  writeFailure : nat -> option FileState
}.

(** What the program prints.  [chalk] only colours a text and is left
    out, and so is the error value that [console.error] prints after its
    message. *)
Inductive ConsoleLine :=
| ConsoleLog (text : jstring)
| ConsoleError (text : jstring)
| SpinnerStart (text : jstring)
| SpinnerSucceed (text : jstring)
| SpinnerFail (text : jstring).

(** The mutable state of the process. *)
Record Machine := {
  clock : nat;
  log : list jstring;
  console : list ConsoleLine;
  config : ConfigType;
  configFile : FileState
}.

Definition started (cmd : jstring) (m : Machine) : Machine :=
  {| clock := S (clock m); log := log m ++ [cmd]; console := console m;
     config := config m; configFile := configFile m |}.

Definition printed (line : ConsoleLine) (m : Machine) : Machine :=
  {| clock := clock m; log := log m; console := console m ++ [line];
     config := config m; configFile := configFile m |}.

Definition withConfig (c : ConfigType) (m : Machine) : Machine :=
  {| clock := clock m; log := log m; console := console m;
     config := c; configFile := configFile m |}.

Definition withConfigFile (f : FileState) (m : Machine) : Machine :=
  {| clock := clock m; log := log m; console := console m;
     config := config m; configFile := f |}.

(** ** A state and exception monad for the sequential code *)

Inductive Outcome (A : Type) := Returned (a : A) | Thrown.
Arguments Thrown {A}.

Definition M (A : Type) := Machine -> Outcome A * Machine.

Definition ret {A} (a : A) : M A := fun m => (Returned a, m).

Definition bind {A B} (c : M A) (k : A -> M B) : M B :=
  fun m => match c m with
           | (Returned a, m') => k a m'
           | (Thrown, m') => (Thrown, m')
           end.

Definition tryCatch {A} (body handler : M A) : M A :=
  fun m => match body m with
           | (Returned a, m') => (Returned a, m')
           | (Thrown, m') => handler m'
           end.

Definition throw {A} : M A := fun m => (Thrown, m).

Definition consoleLog (text : jstring) : M unit :=
  fun m => (Returned tt, printed (ConsoleLog text) m).

Definition consoleError (text : jstring) : M unit :=
  fun m => (Returned tt, printed (ConsoleError text) m).

Declare Scope m_scope.
Delimit Scope m_scope with m.
Notation "x <- c ;; k" := (bind c (fun x => k))
  (at level 61, c at next level, right associativity) : m_scope.
Notation "c ;;; k" := (bind c (fun _ => k))
  (at level 61, right associativity) : m_scope.

Section Program.

Variable w : World.

(** [await execPromise(cmd)] *)
Definition execPromise (cmd : jstring) : M jstring :=
  fun m => match execResult w (clock m) cmd with
           | Fulfilled stdout => (Returned stdout, started cmd m)
           | Rejected => (Thrown, started cmd m)
           end.

(** ** getLocalIpAddress *)

Fixpoint firstExternalIPv4 (l : list NetworkInterfaceInfo.t) : option jstring :=
  match l with
  | [] => None
  | net :: l' =>
      if jeqb (NetworkInterfaceInfo.family net) (str "IPv4")
         && negb (NetworkInterfaceInfo.internal net)
      then Some (NetworkInterfaceInfo.address net)
      else firstExternalIPv4 l'
  end.

Fixpoint scanInterfaces
    (nets : list (jstring * option (list NetworkInterfaceInfo.t))) : option jstring :=
  match nets with
  | [] => None
  | (_, None) :: nets' => scanInterfaces nets'
  | (_, Some networkInterface) :: nets' =>
      match firstExternalIPv4 networkInterface with
      | Some a => Some a
      | None => scanInterfaces nets'
      end
  end.

Definition getLocalIpAddress : jstring :=
  match scanInterfaces (networkInterfaces w) with
  | Some a => a
  | None => str "127.0.0.1"
  end.

(** ** getConnectedDevices *)

Definition getpropCmd (id prop : jstring) : jstring :=
  str "adb -s " ++ id ++ str " shell getprop " ++ prop.

(** The inner [try]: the three property queries in turn; a rejection
    leaves the fields assigned so far and skips the rest. *)
Definition describeDevice (d : DeviceInfo.t) : M DeviceInfo.t :=
  fun m =>
    let id := DeviceInfo.id d in
    match execPromise (getpropCmd id (str "ro.product.model")) m with
    | (Thrown, m1) => (Returned d, m1)
    | (Returned model, m1) =>
      let d1 := DeviceInfo.mk id (DeviceInfo.status d) (Some (trim model))
                  None None None in
      match execPromise (getpropCmd id (str "ro.build.version.release")) m1 with
      | (Thrown, m2) => (Returned d1, m2)
      | (Returned version, m2) =>
        let d2 := DeviceInfo.mk id (DeviceInfo.status d) (Some (trim model))
                    (Some (trim version)) None None in
        match execPromise (getpropCmd id (str "ro.product.manufacturer")) m2 with
        | (Thrown, m3) => (Returned d2, m3)
        | (Returned manufacturer, m3) =>
          (Returned (DeviceInfo.mk id (DeviceInfo.status d) (Some (trim model))
                       (Some (trim version)) (Some (trim manufacturer))
                       (Some (includes id (str ":")))), m3)
        end
      end
    end.

(** The [for (const line of lines)] loop. *)
Fixpoint parseDevices (lines : list jstring) (devices : list DeviceInfo.t)
  : M (list DeviceInfo.t) :=
  match lines with
  | [] => ret devices
  | line :: lines' =>
      match matchDeviceLine line with
      | None => parseDevices lines' devices
      | Some (id, status) =>
          let deviceInfo := DeviceInfo.mk id status None None None None in
          (deviceInfo' <- (if jeqb status (str "device")
                           then describeDevice deviceInfo
                           else ret deviceInfo) ;;
           parseDevices lines' (devices ++ [deviceInfo']))%m
      end
  end.

Definition getConnectedDevices : M (list DeviceInfo.t) :=
  tryCatch
    (stdout <- execPromise (str "adb devices") ;;
     parseDevices (listingLines stdout) [])%m
    (consoleError (str "Error getting devices:") ;;; ret [])%m.

(** ** discoverDevices *)

(** A probe in flight: [execPromise(`adb connect ${ip}:5555`, {timeout:
    500}).then(push).catch(ignore)], whose child process has been started
    and whose promise has not settled yet. *)
Record Probe := { probeIp : jstring; probeResult : ExecResult }.

(** What one turn of the loop saw and did (kept for the proofs only; no
    step reads it). *)
Record Round := {
  roundIndex : nat;
  roundIp : jstring;
  roundListing : list DeviceInfo.t;
  roundProbe : option ExecResult
}.

Inductive Phase :=
| Looping (i : nat)
| Joining
| Finished (result : list DiscoveredDevice.t).

Record Sweep := {
  machine : Machine;
  phase : Phase;
  discoveredDevices : list DiscoveredDevice.t;
  promises : list Probe;
  rounds : list Round
}.

Definition localIp : jstring := getLocalIpAddress.

Definition ipBase : jstring :=
  substring localIp 0 (lastIndexOf localIp dot + 1).

Definition candidate (i : nat) : jstring := ipBase ++ toString i.

Definition connectCmd (ip : jstring) : jstring :=
  str "adb connect " ++ ip ++ str ":5555".

Definition connected : jstring := str "connected".
Definition discoverable : jstring := str "discoverable".

Definition isAlreadyConnected (connectedDevices : list DeviceInfo.t)
    (ip : jstring) : bool :=
  existsb (fun device => includes (DeviceInfo.id device) ip
                         || startsWith (DeviceInfo.id device) ip)
          connectedDevices.

(** After [ora(...).start()] and the two constants, before the loop. *)
Definition start (m : Machine) : Sweep :=
  {| machine := printed (SpinnerStart (str "Discovering devices on network...")) m;
     phase := Looping 1;
     discoveredDevices := [];
     promises := [];
     rounds := [] |}.

(** The [catch] of [discoverDevices]. *)
Definition failed (m : Machine) (s : Sweep) : Sweep :=
  {| machine := printed (ConsoleError (str "Error discovering devices:"))
                  (printed (SpinnerFail (str "Device discovery failed")) m);
     phase := Finished [];
     discoveredDevices := discoveredDevices s;
     promises := promises s;
     rounds := rounds s |}.

(** The body of the loop for counter [i], then [i++]. *)
Definition iteration (i : nat) (s : Sweep) : Sweep :=
  let ip := candidate i in
  match getConnectedDevices (machine s) with
  | (Thrown, m1) => failed m1 s
  | (Returned connectedDevices, m1) =>
      if isAlreadyConnected connectedDevices ip then
        {| machine := m1;
           phase := Looping (S i);
           discoveredDevices :=
             discoveredDevices s ++ [DiscoveredDevice.mk ip connected];
           promises := promises s;
           rounds := rounds s ++ [Build_Round i ip connectedDevices None] |}
      else if jeqb ip localIp then
        {| machine := m1;
           phase := Looping (S i);
           discoveredDevices := discoveredDevices s;
           promises := promises s;
           rounds := rounds s ++ [Build_Round i ip connectedDevices None] |}
      else
        let outcome := execResult w (clock m1) (connectCmd ip) in
        {| machine := started (connectCmd ip) m1;
           phase := Looping (S i);
           discoveredDevices := discoveredDevices s;
           promises := promises s ++ [Build_Probe ip outcome];
           rounds := rounds s
                     ++ [Build_Round i ip connectedDevices (Some outcome)] |}
  end.

(** The loop condition fails: on to [await Promise.allSettled(promises)]. *)
Definition leave (s : Sweep) : Sweep :=
  {| machine := machine s;
     phase := Joining;
     discoveredDevices := discoveredDevices s;
     promises := promises s;
     rounds := rounds s |}.

(** A probe settles, [others] staying in flight: [then] pushes the host,
    [catch] does nothing. *)
Definition settle (p : Probe) (others : list Probe) (s : Sweep) : Sweep :=
  {| machine := machine s;
     phase := phase s;
     discoveredDevices :=
       match probeResult p with
       | Fulfilled _ =>
           discoveredDevices s ++ [DiscoveredDevice.mk (probeIp p) discoverable]
       | Rejected => discoveredDevices s
       end;
     promises := others;
     rounds := rounds s |}.

(** All promises have settled: [spinner.succeed] and [return
    discoveredDevices]. *)
Definition finish (s : Sweep) : Sweep :=
  {| machine := printed (SpinnerSucceed (str "Device discovery completed"))
                  (machine s);
     phase := Finished (discoveredDevices s);
     discoveredDevices := discoveredDevices s;
     promises := promises s;
     rounds := rounds s |}.

(** The sweep as a transition system.  The loop awaits the listing on
    every turn, so a probe in flight may settle between any two turns, in
    any order; the join waits until none is left. *)
Inductive step : Sweep -> Sweep -> Prop :=
| step_iteration s i :
    phase s = Looping i -> i < 255 -> step s (iteration i s)
| step_leave s i :
    phase s = Looping i -> ~ i < 255 -> step s (leave s)
| step_settle s before p after :
    promises s = before ++ p :: after ->
    step s (settle p (before ++ after) s)
| step_finish s :
    phase s = Joining -> promises s = [] -> step s (finish s).

Inductive reaches (m : Machine) : Sweep -> Prop :=
| reaches_start : reaches m (start m)
| reaches_step s s' : reaches m s -> step s s' -> reaches m s'.

(** [discoverDevices], called in the machine [m], returns [result], in
    the final state [s]. *)
Definition discoverDevicesReturns (m : Machine)
    (result : list DiscoveredDevice.t) (s : Sweep) : Prop :=
  reaches m s /\ phase s = Finished result.

(** *** The sweep under a given scheduler *)

Fixpoint removeNth {A} (n : nat) (l : list A) : list A :=
  match n, l with
  | _, [] => []
  | 0, _ :: l' => l'
  | S n', x :: l' => x :: removeNth n' l'
  end.

(** Settle the probes in flight at the given positions, one after the
    other (a position beyond the end settles nothing). *)
Fixpoint settleSome (picks : list nat) (s : Sweep) : Sweep :=
  match picks with
  | [] => s
  | n :: picks' =>
      settleSome picks'
        (match nth_error (promises s) n with
         | Some p => settle p (removeNth n (promises s)) s
         | None => s
         end)
  end.

(** The next step of the function itself; at the join, the oldest probe
    in flight settles. *)
Definition advance (s : Sweep) : Sweep :=
  match phase s with
  | Looping i => if i <? 255 then iteration i s else leave s
  | Joining =>
      match promises s with
      | [] => finish s
      | p :: others => settle p others s
      end
  | Finished _ => s
  end.

Fixpoint run (sched : nat -> list nat) (fuel k : nat) (s : Sweep) : Sweep :=
  match fuel with
  | 0 => s
  | S fuel' => run sched fuel' (S k) (advance (settleSome (sched k) s))
  end.

(** 254 turns, the exit of the loop, at most 254 probes to settle at the
    join, and the return. *)
Definition sweepFuel : nat := 510.

Definition discoverDevicesRun (sched : nat -> list nat) (m : Machine) : Sweep :=
  run sched sweepFuel 0 (start m).

Definition discoverDevices (sched : nat -> list nat) (m : Machine)
  : list DiscoveredDevice.t :=
  match phase (discoverDevicesRun sched m) with
  | Finished result => result
  | _ => []
  end.

(** ** The preference store *)

Definition emptyConfig : ConfigType := {| knownDevices := None |}.

(** [fs.existsSync(CONFIG_FILE)] *)
Definition existsSync : M bool :=
  fun m => (Returned (match configFile m with
                      | FileAbsent => false
                      | _ => true
                      end), m).

(** [fs.readFileSync(CONFIG_FILE, 'utf8')] *)
Definition readFileSync : M jstring :=
  fun m => match configFile m with
           | FileText text => (Returned text, m)
           | _ => (Thrown, m)
           end.

(** The value of [config] after the block that loads it. *)
Inductive Loaded :=
| Typed (c : ConfigType)
| Untyped (j : JSON).

(** [let config = {}; try { if (exists) config = JSON.parse(read) }
    catch (err) { console.error(...) }] *)
Definition loadConfig : M Loaded :=
  tryCatch
    (present <- existsSync ;;
     if present then
       (text <- readFileSync ;;
        match JSONparse text with
        | None => throw
        | Some j => ret (match asConfig j with
                         | Some c => Typed c
                         | None => Untyped j
                         end)
        end)
     else ret (Typed emptyConfig))%m
    (consoleError (str "Error loading config:") ;;; ret (Typed emptyConfig))%m.

(** [fs.writeFileSync(CONFIG_FILE, JSON.stringify(config, null, 2))] *)
Definition saveConfig : M unit :=
  fun m => match writeFailure w (clock m) with
           | Some remains => (Thrown, withConfigFile remains m)
           | None =>
               (Returned tt,
                withConfigFile
                  (FileText (utf8Text (stringify [] (configJSON (config m)))))
                  m)
           end.

(** ** enableWirelessDebugging *)

Definition truthy (b : option bool) : bool :=
  match b with
  | Some true => true
  | _ => false
  end.

(** [device.model || 'Unknown'] *)
Definition modelOrUnknown (model : option jstring) : jstring :=
  match model with
  | Some (c :: s) => c :: s
  | _ => str "Unknown"
  end.

(** [androidVersion >= 11], false on NaN *)
Definition atLeast11 (androidVersion : option Z) : bool :=
  match androidVersion with
  | Some v => (11 <=? v)%Z
  | None => false
  end.

Definition ipRouteCmd (deviceId : jstring) : jstring :=
  str "adb -s " ++ deviceId
  ++ str " shell ip route | grep wlan0 | awk '{print $9}'".

Definition ipAddrCmd (deviceId : jstring) : jstring :=
  str "adb -s " ++ deviceId ++ str " shell ip addr show wlan0 | grep "
  ++ [quote] ++ str "inet " ++ [quote]
  ++ str " | cut -d' ' -f6 | cut -d/ -f1".

Definition tcpipCmd (deviceId : jstring) : jstring :=
  str "adb -s " ++ deviceId ++ str " tcpip 5555".

Definition wifiNotEnabled : jstring :=
  str "Failed to get device IP address. Make sure Wi-Fi is enabled.".

(** [if (!config.knownDevices) config.knownDevices = [];
    config.knownDevices.push({...})] *)
Definition rememberDevice (deviceId ip : jstring) (device : DeviceInfo.t)
  : M unit :=
  fun m =>
    let entry := KnownDevice.mk deviceId (ip ++ str ":5555")
                   (modelOrUnknown (DeviceInfo.model device))
                   (dateNow w (clock m)) in
    (Returned tt,
     withConfig {| knownDevices := Some (knownDevicesList (config m) ++ [entry]) |}
       m).

(** What both branches do once the query for the address is chosen. *)
Definition switchToTcp (deviceId : jstring) (device : DeviceInfo.t)
    (query : jstring) : M bool :=
  (wifiIp <- execPromise query ;;
   let ip := trim wifiIp in
   match ip with
   | [] => consoleError wifiNotEnabled ;;; ret false
   | _ :: _ =>
       execPromise (tcpipCmd deviceId) ;;;
       consoleLog (str "Wireless debugging enabled. Device IP: " ++ ip) ;;;
       consoleLog (str "Wait a few seconds and then connect with: adb connect "
                   ++ ip ++ str ":5555") ;;;
       rememberDevice deviceId ip device ;;;
       saveConfig ;;;
       ret true
   end)%m.

Definition enableWirelessDebugging (deviceId : jstring) : M bool :=
  tryCatch
    (devices <- getConnectedDevices ;;
     match find (fun d => jeqb (DeviceInfo.id d) deviceId) devices with
     | None =>
         consoleError (str "Device " ++ deviceId ++ str " not found") ;;;
         ret false
     | Some device =>
         if truthy (DeviceInfo.wireless device) then
           consoleLog (str "Device " ++ deviceId
                       ++ str " is already connected wirelessly") ;;;
           ret true
         else
           version <- execPromise
                        (getpropCmd deviceId (str "ro.build.version.release")) ;;
           let androidVersion := parseInt (hd [] (split dot (trim version))) in
           if atLeast11 androidVersion then
             consoleLog (str "Using Android 11+ wireless debugging...") ;;;
             switchToTcp deviceId device (ipRouteCmd deviceId)
           else
             consoleLog (str "Using legacy wireless debugging for Android 10 and below...") ;;;
             switchToTcp deviceId device (ipAddrCmd deviceId)
     end)%m
    (consoleError (str "Error enabling wireless debugging:") ;;; ret false)%m.

(** ** checkAdbInstalled *)

(** [execSync('adb version', { stdio: 'ignore' })] in a [try]: a child
    process like the others, waited for on the spot. *)
Definition checkAdbInstalled : M bool :=
  tryCatch (execPromise (str "adb version") ;;; ret true)%m (ret false).

(** ** connectToDevice *)

(** [Array.prototype.findIndex]; [None] is -1. *)
Fixpoint findIndex {A} (p : A -> bool) (l : list A) : option nat :=
  match l with
  | [] => None
  | x :: l' =>
      if p x then Some 0
      else match findIndex p l' with
           | Some n => Some (S n)
           | None => None
           end
  end.

(** [knownDevices[deviceIndex].lastConnected = now] *)
Fixpoint setLastConnected (deviceIndex : nat) (now : jstring)
    (l : list KnownDevice.t) : list KnownDevice.t :=
  match l, deviceIndex with
  | [], _ => []
  | d :: l', 0 =>
      KnownDevice.mk (KnownDevice.id d) (KnownDevice.ip d)
        (KnownDevice.model d) now :: l'
  | d :: l', S n => d :: setLastConnected n now l'
  end.

Definition getConfig : M ConfigType := fun m => (Returned (config m), m).

(** [if (config.knownDevices) { const deviceIndex = ...findIndex(d =>
    d.ip === ipAndPort); if (deviceIndex !== -1) { ...lastConnected = new
    Date().toISOString(); saveConfig(); } }] *)
Definition touchKnownDevice (ipAndPort : jstring) : M unit :=
  (conf <- getConfig ;;
   match knownDevices conf with
   | None => ret tt
   | Some l =>
       match findIndex (fun d => jeqb (KnownDevice.ip d) ipAndPort) l with
       | None => ret tt
       | Some deviceIndex =>
           (fun m =>
              (Returned tt,
               withConfig
                 {| knownDevices :=
                      Some (setLastConnected deviceIndex
                              (dateNow w (clock m)) l) |} m)) ;;;
           saveConfig
       end
   end)%m.

Definition connectToDevice (ipAndPort : jstring) : M bool :=
  tryCatch
    (stdout <- execPromise (str "adb connect " ++ ipAndPort) ;;
     consoleLog (trim stdout) ;;;
     if includes stdout (str "connected") then
       touchKnownDevice ipAndPort ;;;
       ret true
     else ret false)%m
    (consoleError (str "Error connecting to device:") ;;; ret false)%m.

(** ** disconnectDevice *)

Definition disconnectDevice (ipAndPort : jstring) : M bool :=
  tryCatch
    (stdout <- execPromise (str "adb disconnect " ++ ipAndPort) ;;
     consoleLog (trim stdout) ;;;
     ret true)%m
    (consoleError (str "Error disconnecting from device:") ;;; ret false)%m.

(** ** getRunningServices *)

Definition servicesCmd (deviceId : jstring) : jstring :=
  str "adb -s " ++ deviceId ++ str " shell " ++ [quote]
  ++ str "ps | grep -E 'app_process|react|expo|metro'" ++ [quote].

Definition getRunningServices (deviceId : jstring) : M (list jstring) :=
  tryCatch
    (stdout <- execPromise (servicesCmd deviceId) ;;
     ret (filter (fun line => negb (jeqb (trim line) []))
            (split newline stdout)))%m
    (ret []).

(** ** The commands *)

(** [/^\d{1,3}\.\d{1,3}\.\d{1,3}\.\d{1,3}(:\d+)?$/.test(input)], as the
    backtracking matcher runs it: each piece of the pattern tries its
    longest match first and a shorter one when what follows, the
    continuation [k], does not match. *)

(** [\d{n}] *)
Fixpoint digitsThen (n : nat) (s : jstring) (k : jstring -> bool) : bool :=
  match n with
  | 0 => k s
  | S n' =>
      match s with
      | c :: r => isDigit c && digitsThen n' r k
      | [] => false
      end
  end.

(** [\d{1,3}] *)
Definition octetThen (s : jstring) (k : jstring -> bool) : bool :=
  digitsThen 3 s k || digitsThen 2 s k || digitsThen 1 s k.

(** One given character. *)
Definition charThen (c : char16) (s : jstring) (k : jstring -> bool) : bool :=
  match s with
  | x :: r => N.eqb x c && k r
  | [] => false
  end.

(** [\d+] *)
Fixpoint digitsPlusThen (s : jstring) (k : jstring -> bool) : bool :=
  match s with
  | c :: r => isDigit c && (digitsPlusThen r k || k r)
  | [] => false
  end.

(** [(:\d+)?] *)
Definition portThen (s : jstring) (k : jstring -> bool) : bool :=
  charThen 58%N s (fun r => digitsPlusThen r k) || k s.

(** [$] *)
Definition atEnd (s : jstring) : bool :=
  match s with
  | [] => true
  | _ :: _ => false
  end.

(** The [validate] of the prompt for an address: [true] when it returns
    [true], [false] when it returns its message. *)
Definition validate (input : jstring) : bool :=
  octetThen input (fun s1 => charThen dot s1 (fun s2 =>
  octetThen s2 (fun s3 => charThen dot s3 (fun s4 =>
  octetThen s4 (fun s5 => charThen dot s5 (fun s6 =>
  octetThen s6 (fun s7 => portThen s7 atEnd))))))).

(** What the user answers at the prompts of [inquirer]: at a list, the
    [value] of the choice taken, given the choices as pairs of [name] and
    [value]; at the input for an address, the text entered once the
    [validate] of the prompt has accepted it.  A prompt may also reject. *)
Record User := {
  picks : list (jstring * jstring) -> Outcome jstring;
  enters : Outcome jstring
}.

Definition prompt (answer : Outcome jstring) : M jstring :=
  fun m => (answer, m).

Definition spinnerStart (text : jstring) : M unit :=
  fun m => (Returned tt, printed (SpinnerStart text) m).

Definition spinnerSucceed (text : jstring) : M unit :=
  fun m => (Returned tt, printed (SpinnerSucceed text) m).

Definition spinnerFail (text : jstring) : M unit :=
  fun m => (Returned tt, printed (SpinnerFail text) m).

Definition adbMissing : jstring :=
  str "ADB is not installed or not in PATH. Please install Android SDK and add ADB to your PATH.".

(** A choice of a list: [{ name: `${model || 'Unknown'} (${value})`,
    value }] *)
Definition choice (model : option jstring) (value : jstring)
  : jstring * jstring :=
  (modelOrUnknown model ++ str " (" ++ value ++ str ")", value).

(** [wireless-dev connect [-i <ip>]] *)
Definition connectCommand (user : User) (optionsIp : option jstring)
  : M unit :=
  (installed <- checkAdbInstalled ;;
   if negb installed then consoleError adbMissing
   else
     tryCatch
       (ipAndPort <-
          match optionsIp with
          | Some (c :: s) => ret (c :: s)
          | _ =>
              conf <- getConfig ;;
              match knownDevices conf with
              | Some (d :: l) =>
                  prompt (picks user
                            (map (fun device =>
                                    choice (Some (KnownDevice.model device))
                                      (KnownDevice.ip device))
                               (d :: l)))
              | _ => prompt (enters user)
              end
          end ;;
        let ipAndPort' := if includes ipAndPort (str ":") then ipAndPort
                          else ipAndPort ++ str ":5555" in
        spinnerStart (str "Connecting to " ++ ipAndPort' ++ str "...") ;;;
        isConnected <- connectToDevice ipAndPort' ;;
        if isConnected
        then spinnerSucceed (str "Connected to " ++ ipAndPort')
        else spinnerFail (str "Failed to connect to " ++ ipAndPort'))
       (consoleError (str "Error connecting to device:")))%m.

(** [wireless-dev disconnect [-i <ip>]]; the address is [None] after the
    early [return]. *)
Definition disconnectCommand (user : User) (optionsIp : option jstring)
  : M unit :=
  (installed <- checkAdbInstalled ;;
   if negb installed then consoleError adbMissing
   else
     tryCatch
       (target <-
          match optionsIp with
          | Some (c :: s) => ret (Some (c :: s))
          | _ =>
              devices <- getConnectedDevices ;;
              let wirelessDevices :=
                filter (fun device => truthy (DeviceInfo.wireless device))
                  devices in
              match wirelessDevices with
              | [] =>
                  consoleLog (str "No wireless devices connected.") ;;;
                  ret None
              | _ :: _ =>
                  device <- prompt (picks user
                                      (map (fun device =>
                                              choice (DeviceInfo.model device)
                                                (DeviceInfo.id device))
                                         wirelessDevices)) ;;
                  ret (Some device)
              end
          end ;;
        match target with
        | None => ret tt
        | Some ipAndPort =>
            spinnerStart (str "Disconnecting from " ++ ipAndPort ++ str "...") ;;;
            disconnected <- disconnectDevice ipAndPort ;;
            if disconnected
            then spinnerSucceed (str "Disconnected from " ++ ipAndPort)
            else spinnerFail (str "Failed to disconnect from " ++ ipAndPort)
        end)
       (consoleError (str "Error disconnecting from device:")))%m.

(** [wireless-dev enable-wireless [-d <deviceId>]] *)
Definition enableWirelessCommand (user : User) (optionsDevice : option jstring)
  : M unit :=
  (installed <- checkAdbInstalled ;;
   if negb installed then consoleError adbMissing
   else
     tryCatch
       (target <-
          match optionsDevice with
          | Some (c :: s) => ret (Some (c :: s))
          | _ =>
              devices <- getConnectedDevices ;;
              let usbDevices :=
                filter (fun device =>
                          negb (truthy (DeviceInfo.wireless device))
                          && jeqb (DeviceInfo.status device) (str "device"))
                  devices in
              match usbDevices with
              | [] =>
                  consoleLog (str "No USB devices connected. Connect a device via USB first.") ;;;
                  ret None
              | _ :: _ =>
                  device <- prompt (picks user
                                      (map (fun device =>
                                              choice (DeviceInfo.model device)
                                                (DeviceInfo.id device))
                                         usbDevices)) ;;
                  ret (Some device)
              end
          end ;;
        match target with
        | None => ret tt
        | Some deviceId =>
            spinnerStart (str "Enabling wireless debugging on " ++ deviceId
                          ++ str "...") ;;;
            enabled <- enableWirelessDebugging deviceId ;;
            if enabled
            then spinnerSucceed (str "Wireless debugging enabled on "
                                 ++ deviceId)
            else spinnerFail (str "Failed to enable wireless debugging on "
                              ++ deviceId)
        end)
       (consoleError (str "Error enabling wireless debugging:")))%m.

Definition qrNote1 : jstring :=
  newline :: str "Note: On your device, you need a QR scanner app that can handle "
  ++ quote :: str "adbwireless://" ++ quote :: str " protocol.".

Definition qrNote2 : jstring :=
  str "For some devices, you may need to connect manually with the command shown above.".

(** [wireless-dev qr [-d <deviceId>]]: the two seconds of [setTimeout]
    pass, and [getLocalIpAddress()] is called for a constant that nothing
    reads. *)
Definition qrCommand (optionsDevice : option jstring) : M unit :=
  (installed <- checkAdbInstalled ;;
   if negb installed then consoleError adbMissing
   else
     tryCatch
       (match optionsDevice with
        | Some (c :: s) => enableWirelessDebugging (c :: s) ;;; ret tt
        | _ => ret tt
        end ;;;
        consoleLog qrNote1 ;;;
        consoleLog qrNote2)
       (consoleError (str "Error generating QR code:")))%m.

(** The rows of the table of [discover]. *)
Definition tableRows (devices : list DiscoveredDevice.t)
  : list (jstring * jstring) :=
  map (fun device =>
         (DiscoveredDevice.ip device,
          if jeqb (DiscoveredDevice.status device) connected
          then str "Connected" else str "Discoverable"))
      devices.

Definition noneDiscoverable : jstring :=
  str "No devices discoverable on the network. Make sure they have wireless debugging enabled.".

(** [wireless-dev discover]: the sweep, behind the check of the bridge.
    The probes of the sweep settle as [sched] has it.  The table is drawn
    by [cli-table3]: [table] gives its text for the rows. *)
Definition discoverCommand (table : list (jstring * jstring) -> jstring)
    (sched : nat -> list nat) : M unit :=
  (installed <- checkAdbInstalled ;;
   if negb installed then consoleError adbMissing
   else
     tryCatch
       (devices <- (fun m => (Returned (discoverDevices sched m),
                              machine (discoverDevicesRun sched m))) ;;
        match devices with
        | [] => consoleLog noneDiscoverable
        | _ :: _ => consoleLog (table (tableRows devices))
        end)
       (consoleError (str "Error discovering devices:")))%m.

End Program.

(* ================================================================== *)
(** * Part II: the vocabulary of the properties *)
(* ================================================================== *)

Unset Implicit Arguments.

(** ** Strings and listing lines *)

(** [p] occurs in [s]: some text before, [p], some text after. *)
Definition occursIn (p s : jstring) : Prop :=
  exists before after, s = before ++ p ++ after.

(** [line] read as an identifier, a gap, a status and a rest: the ways
    in which the pattern [^(\S+)\s+(\S+)] can match it. *)
Definition matchesAs (line id gap status rest : jstring) : Prop :=
  line = id ++ gap ++ status ++ rest
  /\ id <> [] /\ Forall (fun c => notSpace c = true) id
  /\ gap <> [] /\ Forall (fun c => isSpace c = true) gap
  /\ status <> [] /\ Forall (fun c => notSpace c = true) status.

(** ** Bridge commands and console lines *)

Definition isConnectCmd (cmd : jstring) : bool :=
  startsWith cmd (str "adb connect ").

Definition listingError : ConsoleLine :=
  ConsoleError (str "Error getting devices:").

(** What a computation that only lists devices may change: it starts
    child processes other than [adb connect], and prints nothing but the
    listing error. *)
Definition quiet (m m' : Machine) : Prop :=
  config m' = config m /\ configFile m' = configFile m /\
  (exists l, log m' = log m ++ l /\ Forall (fun c => isConnectCmd c = false) l) /\
  (exists c, console m' = console m ++ c /\ Forall (fun x => x = listingError) c).

(** The identifiers of the lines that match, in order: what the parser
    emits whatever the property queries answer. *)
Fixpoint lineIds (lines : list jstring) : list jstring :=
  match lines with
  | [] => []
  | line :: lines' =>
      match matchDeviceLine line with
      | Some (id, _) => id :: lineIds lines'
      | None => lineIds lines'
      end
  end.

(** ** The turns of the sweep and its invariant *)

Definition roundConnected (r : Round) : bool :=
  isAlreadyConnected (roundListing r) (roundIp r).

(** The hosts a turn of the loop adds to the result, at once or when its
    probe settles. *)
Definition hostsOf (r : Round) : list DiscoveredDevice.t :=
  if roundConnected r then [DiscoveredDevice.mk (roundIp r) connected]
  else match roundProbe r with
       | Some (Fulfilled _) => [DiscoveredDevice.mk (roundIp r) discoverable]
       | _ => []
       end.

Definition pendingHosts (p : Probe) : list DiscoveredDevice.t :=
  match probeResult p with
  | Fulfilled _ => [DiscoveredDevice.mk (probeIp p) discoverable]
  | Rejected => []
  end.

Definition probedIp (r : Round) : list jstring :=
  match roundProbe r with
  | Some _ => [roundIp r]
  | None => []
  end.

Definition startLine : ConsoleLine :=
  SpinnerStart (str "Discovering devices on network...").
Definition successLine : ConsoleLine :=
  SpinnerSucceed (str "Device discovery completed").
Definition failureLine : ConsoleLine :=
  SpinnerFail (str "Device discovery failed").

Definition roundOk (w : World) (r : Round) : Prop :=
  roundIp r = candidate w (roundIndex r)
  /\ (roundProbe r = None
      <-> roundConnected r = true \/ roundIp r = localIp w).

Record Inv (w : World) (m : Machine) (s : Sweep) : Prop := {
  inv_indices : map roundIndex (rounds s) = seq 1 (length (rounds s));
  inv_phase :
    match phase s with
    | Looping i => 1 <= i <= 255 /\ length (rounds s) = i - 1
    | Joining => length (rounds s) = 254
    | Finished result =>
        length (rounds s) = 254 /\ result = discoveredDevices s
        /\ promises s = []
    end;
  inv_rounds : Forall (roundOk w) (rounds s);
  inv_hosts :
    Permutation (discoveredDevices s ++ flat_map pendingHosts (promises s))
                (flat_map hostsOf (rounds s));
  inv_log :
    exists l, log (machine s) = log m ++ l
              /\ filter isConnectCmd l
                 = map connectCmd (flat_map probedIp (rounds s));
  inv_console :
    exists c, console (machine s)
              = console m ++ startLine :: c
                ++ match phase s with
                   | Finished _ => [successLine]
                   | _ => []
                   end
              /\ Forall (fun x => x = listingError) c;
  inv_config :
    config (machine s) = config m /\ configFile (machine s) = configFile m
}.

Definition sweepMeasure (s : Sweep) : nat :=
  match phase s with
  | Looping i => 2 * (255 - i) + length (promises s) + 2
  | Joining => length (promises s) + 1
  | Finished _ => 0
  end.

(** The child processes the sweep itself started, oldest first. *)
Definition sweepCommands (m : Machine) (s : Sweep) : list jstring :=
  skipn (length (log m)) (log (machine s)).

(** The lines the sweep itself printed. *)
Definition sweepConsole (m : Machine) (s : Sweep) : list ConsoleLine :=
  skipn (length (console m)) (console (machine s)).

(** The turn of the loop for the counter [i]. *)
Definition roundOf (s : Sweep) (i : nat) : option Round :=
  nth_error (rounds s) (i - 1).

(** The listing that the turn for [i] obtained from [getConnectedDevices]. *)
Definition listingAt (s : Sweep) (i : nat) : list DeviceInfo.t :=
  match roundOf s i with
  | Some r => roundListing r
  | None => []
  end.

(** A world whose bridge answers a command the same way at all times. *)
Definition steady (w : World) : Prop :=
  forall k k' cmd, execResult w k cmd = execResult w k' cmd.

(** ** Worlds and machines to run the program in *)

Definition homeInterfaces
  : list (jstring * option (list NetworkInterfaceInfo.t)) :=
  [(str "lo", Some [NetworkInterfaceInfo.mk (str "127.0.0.1") (str "IPv4") true]);
   (str "wlan0",
    Some [NetworkInterfaceInfo.mk (str "fe80::1") (str "IPv6") false;
          NetworkInterfaceInfo.mk (str "192.168.1.5") (str "IPv4") false])].

(** The host is 192.168.1.5; the bridge lists one wireless device,
    192.168.1.12:5555, and one USB device; 192.168.1.77 answers a probe. *)
Definition homeNetwork : World :=
  {| networkInterfaces := homeInterfaces;
     execResult := fun _ cmd =>
       if jeqb cmd (str "adb devices") then
         Fulfilled (str "List of devices attached" ++ newline
                    :: str "192.168.1.12:5555	device" ++ newline
                    :: str "R58M12345	device" ++ [newline; newline])
       else if includes cmd (str "getprop") then Fulfilled (str "Pixel" ++ [newline])
       else if jeqb cmd (str "adb connect 192.168.1.77:5555")
         then Fulfilled (str "connected to 192.168.1.77:5555")
       else Rejected;
     dateNow := fun _ => str "2024-05-01T10:00:00.000Z";
     writeFailure := fun _ => None |}.

(** The same host when every command of the bridge fails. *)
Definition deadBridge : World :=
  {| networkInterfaces := homeInterfaces;
     execResult := fun _ _ => Rejected;
     dateNow := fun _ => str "2024-05-01T10:00:00.000Z";
     writeFailure := fun _ => None |}.

(** The same host when the bridge is installed and its server fails:
    [adb version] answers, every other command is rejected. *)
Definition brokenListing : World :=
  {| networkInterfaces := homeInterfaces;
     execResult := fun _ cmd =>
       if jeqb cmd (str "adb version")
         then Fulfilled (str "Android Debug Bridge version 1.0.41" ++ [newline])
       else Rejected;
     dateNow := fun _ => str "2024-05-01T10:00:00.000Z";
     writeFailure := fun _ => None |}.


Definition freshMachine : Machine :=
  {| clock := 0; log := []; console := []; config := emptyConfig;
     configFile := FileAbsent |}.

(** Probes settle at the join, oldest first. *)
Definition atTheJoin : nat -> list nat := fun _ => [].

(** Every probe settles during the turn after its launch. *)
Definition atOnce : nat -> list nat := fun _ => [0].

(** The bridge lists the same serial twice. *)
Definition twinSerials : World :=
  {| networkInterfaces := homeInterfaces;
     execResult := fun _ cmd =>
       if jeqb cmd (str "adb devices") then
         Fulfilled (str "List of devices attached" ++ newline
                    :: str "0123456789ABCDEF	device" ++ newline
                    :: str "0123456789ABCDEF	unauthorized" ++ [newline])
       else Rejected;
     dateNow := fun _ => str "2024-05-01T10:00:00.000Z";
     writeFailure := fun _ => None |}.

(** ** enable-wireless *)

Definition versionCmd (deviceId : jstring) : jstring :=
  getpropCmd deviceId (str "ro.build.version.release").

(** The query for the Wi-Fi address that the platform version selects. *)
Definition wifiQuery (deviceId version : jstring) : jstring :=
  if atLeast11 (parseInt (hd [] (split dot (trim version))))
  then ipRouteCmd deviceId
  else ipAddrCmd deviceId.

Definition branchLine (version : jstring) : ConsoleLine :=
  if atLeast11 (parseInt (hd [] (split dot (trim version))))
  then ConsoleLog (str "Using Android 11+ wireless debugging...")
  else ConsoleLog (str "Using legacy wireless debugging for Android 10 and below...").

(** A device on USB whose Wi-Fi is off: the route table names no
    address. *)
Definition wifiOff : World :=
  {| networkInterfaces := homeInterfaces;
     execResult := fun _ cmd =>
       if jeqb cmd (str "adb devices") then
         Fulfilled (str "List of devices attached" ++ newline
                    :: str "R58M12345	device" ++ [newline; newline])
       else if includes cmd (str "ro.build.version.release")
         then Fulfilled (str "11" ++ [newline])
       else if includes cmd (str "getprop") then Fulfilled (str "Pixel" ++ [newline])
       else if includes cmd (str "ip route") then Fulfilled [newline]
       else Rejected;
     dateNow := fun _ => str "2024-05-01T10:00:00.000Z";
     writeFailure := fun _ => None |}.

Definition oneKnownDevice : ConfigType :=
  {| knownDevices :=
       Some [KnownDevice.mk (str "emulator-5554") (str "10.0.0.9:5555")
               (str "Pixel") (str "2024-04-30T09:00:00.000Z")] |}.

Definition usedMachine : Machine :=
  {| clock := 0; log := []; console := []; config := oneKnownDevice;
     configFile := FileText (stringify [] (configJSON oneKnownDevice)) |}.

(** ** The preference store and the text of a config *)

Definition loadError : ConsoleLine := ConsoleError (str "Error loading config:").

Definition truncatedFile : jstring :=
  str "{" ++ newline :: str "  " ++ quote :: str "knownDevices" ++ quote
  :: str ": [".

(** A text with the key of the list twice. *)
Definition repeatedKey : jstring :=
  str "{" ++ quote :: str "knownDevices" ++ quote :: str ": 1, "
  ++ quote :: str "knownDevices" ++ quote :: str ": []}".

Definition consChar (c : char16) (r : option (jstring * jstring))
  : option (jstring * jstring) :=
  match r with
  | Some (body, rest) => Some (c :: body, rest)
  | None => None
  end.

Definition prependChars (u : jstring) (r : option (jstring * jstring))
  : option (jstring * jstring) :=
  fold_right consChar r u.

(** A piece [X] that [quoteChars] writes for the code units [u]:
    [parseChars] reads [u] back from it, and the file keeps it as it is. *)
Definition Emits (u X : jstring) : Prop :=
  (forall t, parseChars (X ++ t) = prependChars u (parseChars t))
  /\ (forall t, utf8Text (X ++ t) = X ++ utf8Text t).

Definition spaces (ws : jstring) : Prop :=
  Forall (fun c => isJSONSpace c = true) ws.

(** The text of a member, then the text [vtext] of its value and what
    follows. *)
Definition memberText (key vtext : jstring) : jstring :=
  quote :: quoteChars key ++ quote :: 58%N :: 32%N :: vtext.

Definition stringText (val k : jstring) : jstring :=
  quote :: quoteChars val ++ quote :: k.

(** A line break and the indentation. *)
Definition lineBreak (ind : jstring) : jstring := newline :: ind.

Definition recordText (ind : jstring) (d : KnownDevice.t) (k : jstring)
  : jstring :=
  123%N :: lineBreak (ind ++ str "  ")
  ++ memberText (str "id") (stringText (KnownDevice.id d)
       (44%N :: lineBreak (ind ++ str "  ")
  ++ memberText (str "ip") (stringText (KnownDevice.ip d)
       (44%N :: lineBreak (ind ++ str "  ")
  ++ memberText (str "model") (stringText (KnownDevice.model d)
       (44%N :: lineBreak (ind ++ str "  ")
  ++ memberText (str "lastConnected")
       (stringText (KnownDevice.lastConnected d)
          (lineBreak ind ++ 125%N :: k)))))))).

Ltac flatten :=
  repeat (rewrite <- app_assoc || rewrite <- app_comm_cons
          || rewrite app_nil_l).

(** The records of an array after the first, each after a comma and a
    line break, then [k]. *)
Fixpoint moreText (ind : jstring) (l : list KnownDevice.t) (k : jstring)
  : jstring :=
  match l with
  | [] => k
  | d :: l' => 44%N :: lineBreak ind ++ recordText ind d (moreText ind l' k)
  end.

(** The text of the array of the records, then [k]. *)
Definition arrayText (ind : jstring) (l : list KnownDevice.t) (k : jstring)
  : jstring :=
  match l with
  | [] => 91%N :: 93%N :: k
  | d :: l' =>
      91%N :: lineBreak (ind ++ str "  ")
      ++ recordText (ind ++ str "  ") d
           (moreText (ind ++ str "  ") l' (lineBreak ind ++ 93%N :: k))
  end.

(** The text that [saveConfig] writes. *)
Definition configText (c : ConfigType) : jstring :=
  match knownDevices c with
  | None => [123%N; 125%N]
  | Some l =>
      123%N :: lineBreak (str "  ")
      ++ memberText (str "knownDevices")
           (arrayText (str "  ") l (lineBreak [] ++ [125%N]))
  end.

(** Two records, one with a quote, a backslash, a line feed, a control
    character, a surrogate pair, two lone surrogates and a letter beyond
    ASCII in its model. *)
Definition twoKnownDevices : list KnownDevice.t :=
  [KnownDevice.mk (str "R58M12345") (str "192.168.1.12:5555") (str "Pixel 7")
     (str "2024-05-01T10:00:00.000Z");
   KnownDevice.mk (str "emulator-5554") (str "10.0.0.9:5555")
     [34; 92; 10; 1; 55357; 56832; 55357; 65; 56832; 233]%N
     (str "2024-04-30T09:00:00.000Z")].

(** ** Vocabulary for the other functions and the commands *)

(** ** The host's interfaces *)

(** [net.family === 'IPv4' && !net.internal] *)
Definition isExternalIPv4 (net : NetworkInterfaceInfo.t) : bool :=
  jeqb (NetworkInterfaceInfo.family net) (str "IPv4")
  && negb (NetworkInterfaceInfo.internal net).

(** The addresses of all interfaces, in the order of the two loops. *)
Definition addressesOf
    (nets : list (jstring * option (list NetworkInterfaceInfo.t)))
  : list NetworkInterfaceInfo.t :=
  flat_map (fun entry => match snd entry with
                         | Some networkInterface => networkInterface
                         | None => []
                         end) nets.

(** ** The cost of a listing *)

Definition isListingCmd (cmd : jstring) : bool := jeqb cmd (str "adb devices").

Definition isGetpropCmd (cmd : jstring) : bool :=
  startsWith cmd (str "adb -s ") && includes cmd (str " shell getprop ").

(** The property queries started for an entry of the listing: none unless
    its status is [device], and none after the first that is rejected. *)
Definition queries (d : DeviceInfo.t) : nat :=
  if jeqb (DeviceInfo.status d) (str "device") then
    match DeviceInfo.model d, DeviceInfo.androidVersion d with
    | None, _ => 1
    | Some _, None => 2
    | Some _, Some _ => 3
    end
  else 0.

(** The optional fields of an entry are filled in the order of the
    queries, for the status [device] only, and the wireless flag comes
    with the last. *)
Definition wellDescribed (d : DeviceInfo.t) : Prop :=
  (DeviceInfo.status d <> str "device" -> DeviceInfo.model d = None)
  /\ (DeviceInfo.model d = None -> DeviceInfo.androidVersion d = None)
  /\ (DeviceInfo.androidVersion d = None -> DeviceInfo.manufacturer d = None)
  /\ DeviceInfo.wireless d
     = match DeviceInfo.manufacturer d with
       | Some _ => Some (includes (DeviceInfo.id d) (str ":"))
       | None => None
       end.

(** ** The sweep, whatever the order in which its probes settle *)

(** The child processes of a sweep: listings, property queries, probes. *)
Definition isSweepCmd (cmd : jstring) : bool :=
  isListingCmd cmd || isGetpropCmd cmd || isConnectCmd cmd.

(** The sweep after [k] turns of the loop when no probe has settled. *)
Fixpoint afterTurns (w : World) (m : Machine) (k : nat) : Sweep :=
  match k with
  | 0 => start m
  | S k' => iteration w (S k') (afterTurns w m k')
  end.

(** The bridge answers a probe of 192.168.1.77 and lists, after it in
    the range, the wireless device 192.168.1.200:5555. *)
Definition lateDevice : World :=
  {| networkInterfaces := homeInterfaces;
     execResult := fun _ cmd =>
       if jeqb cmd (str "adb devices") then
         Fulfilled (str "List of devices attached" ++ newline
                    :: str "192.168.1.200:5555	offline" ++ [newline])
       else if jeqb cmd (str "adb connect 192.168.1.77:5555")
         then Fulfilled (str "connected to 192.168.1.77:5555")
       else Rejected;
     dateNow := fun _ => str "2024-05-01T10:00:00.000Z";
     writeFailure := fun _ => None |}.

(** Two hosts that answer a probe at one time only: 192.168.1.3 when the
    sixth child process of the run is started, which is its probe in a
    sweep that starts the run, and 192.168.1.4 when the first is, which is
    never its probe.  The bridge lists no device. *)
Definition briefHosts : World :=
  {| networkInterfaces := homeInterfaces;
     execResult := fun k cmd =>
       if jeqb cmd (str "adb devices") then
         Fulfilled (str "List of devices attached" ++ [newline])
       else if jeqb cmd (str "adb connect 192.168.1.3:5555") && Nat.eqb k 5
         then Fulfilled (str "connected to 192.168.1.3:5555")
       else if jeqb cmd (str "adb connect 192.168.1.4:5555") && Nat.eqb k 0
         then Fulfilled (str "connected to 192.168.1.4:5555")
       else Rejected;
     dateNow := fun _ => str "2024-05-01T10:00:00.000Z";
     writeFailure := fun _ => None |}.

(** No interface but the loopback. *)
Definition offline : World :=
  {| networkInterfaces :=
       [(str "lo",
         Some [NetworkInterfaceInfo.mk (str "127.0.0.1") (str "IPv4") true;
               NetworkInterfaceInfo.mk (str "::1") (str "IPv6") true])];
     execResult := fun _ _ => Rejected;
     dateNow := fun _ => str "2024-05-01T10:00:00.000Z";
     writeFailure := fun _ => None |}.

(** ** enable-wireless and the known devices *)

(** The text that [saveConfig] writes for a config. *)
Definition savedText (c : ConfigType) : FileState :=
  FileText (utf8Text (stringify [] (configJSON c))).

(** What [enableWirelessDebugging] prints for a device that is wireless
    already. *)
Definition alreadyWireless (deviceId : jstring) : ConsoleLine :=
  ConsoleLog (str "Device " ++ deviceId ++ str " is already connected wirelessly").

(** From [m] to [m'] one record was pushed: [deviceId] at an address
    that is not empty, with the port 5555, the model of the listing and
    the time of the push. *)
Definition remembered (w : World) (deviceId : jstring) (device : DeviceInfo.t)
    (m m' : Machine) : Prop :=
  exists ip,
    ip <> []
    /\ config m'
       = {| knownDevices :=
              Some (knownDevicesList (config m)
                    ++ [KnownDevice.mk deviceId (ip ++ str ":5555")
                          (modelOrUnknown (DeviceInfo.model device))
                          (dateNow w (clock m'))]) |}.

(** A device on USB whose Wi-Fi is on, at 192.168.1.40. *)
Definition wifiOn : World :=
  {| networkInterfaces := homeInterfaces;
     execResult := fun _ cmd =>
       if jeqb cmd (str "adb devices") then
         Fulfilled (str "List of devices attached" ++ newline
                    :: str "R58M12345	device" ++ [newline; newline])
       else if includes cmd (str "ro.build.version.release")
         then Fulfilled (str "13" ++ [newline])
       else if includes cmd (str "getprop") then Fulfilled (str "Pixel 7" ++ [newline])
       else if includes cmd (str "ip route")
         then Fulfilled (str "192.168.1.40" ++ [newline])
       else if includes cmd (str "tcpip")
         then Fulfilled (str "restarting in TCP mode port: 5555" ++ [newline])
       else if includes cmd (str "adb connect 192.168.1.40:5555")
         then Fulfilled (str "connected to 192.168.1.40:5555" ++ [newline])
       else if jeqb cmd (str "adb version")
         then Fulfilled (str "Android Debug Bridge version 1.0.41" ++ [newline])
       else Rejected;
     dateNow := fun k => str "2024-05-01T10:00:0" ++ toString k ++ str ".000Z";
     writeFailure := fun _ => None |}.

(** The same device when the config file cannot be written, and the
    attempt leaves it empty. *)
Definition diskFull : World :=
  {| networkInterfaces := homeInterfaces;
     execResult := execResult wifiOn;
     dateNow := dateNow wifiOn;
     writeFailure := fun _ => Some (FileText []) |}.

(** ** connect and the known devices *)

Definition connectTo (ipAndPort : jstring) : jstring :=
  str "adb connect " ++ ipAndPort.

(** [d] with a new time of connection. *)
Definition seenAt (now : jstring) (d : KnownDevice.t) : KnownDevice.t :=
  KnownDevice.mk (KnownDevice.id d) (KnownDevice.ip d) (KnownDevice.model d) now.

(** From [m] to [m'] the first known device at [ipAndPort], and no
    other, got the time [now]. *)
Definition touched (ipAndPort now : jstring) (m m' : Machine) : Prop :=
  exists before d after,
    knownDevices (config m) = Some (before ++ d :: after)
    /\ Forall (fun x => KnownDevice.ip x <> ipAndPort) before
    /\ KnownDevice.ip d = ipAndPort
    /\ knownDevices (config m') = Some (before ++ seenAt now d :: after).

(** The machine after a successful [enable-wireless] of the device on
    USB. *)
Definition enabledMachine : Machine :=
  snd (enableWirelessDebugging wifiOn (str "R58M12345") usedMachine).

(** ** The services of a device *)

(** [line.trim() !== ''] *)
Definition notBlank (line : jstring) : bool := negb (jeqb (trim line) []).

(** A device that runs Metro. *)
Definition metroRunning : World :=
  {| networkInterfaces := homeInterfaces;
     execResult := fun _ cmd =>
       if includes cmd (str "ps | grep") then
         Fulfilled (str "u0_a123 4012 com.app react" ++ newline
                    :: str "  " ++ newline
                    :: str "u0_a124 4400 metro" ++ [newline])
       else Rejected;
     dateNow := fun _ => str "2024-05-01T10:00:00.000Z";
     writeFailure := fun _ => None |}.

(** ** The address entered at the prompt *)

Definition digits (s : jstring) : Prop := Forall (fun c => isDigit c = true) s.

(** One to three digits. *)
Definition octet (s : jstring) : Prop := digits s /\ 1 <= length s <= 3.

(** Four runs of one to three digits with dots between them, then
    nothing, or a colon and at least one digit. *)
Definition dottedQuad (input : jstring) : Prop :=
  exists a b c d port,
    input = a ++ dot :: b ++ dot :: c ++ dot :: d ++ port
    /\ octet a /\ octet b /\ octet c /\ octet d
    /\ (port = [] \/ exists p, port = 58%N :: p /\ p <> [] /\ digits p).

(** [`${a}.${b}.${c}.${d}`] *)
Definition quad (a b c d : nat) : jstring :=
  toString a ++ dot :: toString b ++ dot :: toString c ++ dot :: toString d.

(** ** The commands *)

Definition versionCheck : jstring := str "adb version".

(** The address that [connect] works on: the option when it is given,
    else the answer to the prompt, which is a list when devices are known
    and an input when none is. *)
Definition chosenAddress (user : User) (optionsIp : option jstring)
    (m : Machine) (address : jstring) : Prop :=
  (optionsIp = Some address /\ address <> [])
  \/ ((optionsIp = None \/ optionsIp = Some [])
      /\ match knownDevicesList (config m) with
         | [] => enters user = Returned address
         | d :: l =>
             picks user
               (map (fun device =>
                       choice (Some (KnownDevice.model device))
                         (KnownDevice.ip device))
                  (d :: l))
             = Returned address
         end).

(** The last line of [connect]. *)
Definition connectVerdict (isConnected : bool) (target : jstring) : ConsoleLine :=
  if isConnected then SpinnerSucceed (str "Connected to " ++ target)
  else SpinnerFail (str "Failed to connect to " ++ target).

(** A user who enters 192.168.1.40 at the prompt for an address. *)
Definition typist : User :=
  {| picks := fun _ => Thrown;
     enters := Returned (str "192.168.1.40") |}.

Definition disconnectFrom (ipAndPort : jstring) : jstring :=
  str "adb disconnect " ++ ipAndPort.

(** The last line of [disconnect]. *)
Definition disconnectVerdict (disconnected : bool) (target : jstring)
  : ConsoleLine :=
  if disconnected then SpinnerSucceed (str "Disconnected from " ++ target)
  else SpinnerFail (str "Failed to disconnect from " ++ target).

(** A user takes one of the choices of a list. *)
Definition picksAChoice (user : User) : Prop :=
  forall choices value,
    picks user choices = Returned value -> In value (map snd choices).

(** A user who takes the first choice of a list. *)
Definition firstPick : User :=
  {| picks := fun choices => match choices with
                             | (_, value) :: _ => Returned value
                             | [] => Thrown
                             end;
     enters := Thrown |}.

(** The bridge of [homeNetwork] with its version and a disconnection. *)
Definition homeBridge : World :=
  {| networkInterfaces := homeInterfaces;
     execResult := fun k cmd =>
       if jeqb cmd (str "adb version")
         then Fulfilled (str "Android Debug Bridge version 1.0.41" ++ [newline])
       else if jeqb cmd (str "adb disconnect 192.168.1.12:5555")
         then Fulfilled (str "disconnected 192.168.1.12:5555" ++ [newline])
       else execResult homeNetwork k cmd;
     dateNow := dateNow homeNetwork;
     writeFailure := writeFailure homeNetwork |}.

(** What the bridge of [homeNetwork] lists. *)
Definition homeListing : list DeviceInfo.t :=
  [DeviceInfo.mk (str "192.168.1.12:5555") (str "device") (Some (str "Pixel"))
     (Some (str "Pixel")) (Some (str "Pixel")) (Some true);
   DeviceInfo.mk (str "R58M12345") (str "device") (Some (str "Pixel"))
     (Some (str "Pixel")) (Some (str "Pixel")) (Some false)].

(** An entry given by its fields is well described. *)
Ltac wd :=
  unfold wellDescribed;
  cbn [DeviceInfo.id DeviceInfo.status DeviceInfo.model
       DeviceInfo.androidVersion DeviceInfo.manufacturer DeviceInfo.wireless];
  repeat split; intros; congruence.

(** ** The platform version *)

(** A device on USB that runs Android 10, with its Wi-Fi on. *)
Definition android10 : World :=
  {| networkInterfaces := homeInterfaces;
     execResult := fun _ cmd =>
       if jeqb cmd (str "adb devices") then
         Fulfilled (str "List of devices attached" ++ newline
                    :: str "R58M12345	device" ++ [newline; newline])
       else if includes cmd (str "ro.build.version.release")
         then Fulfilled (str "10" ++ [newline])
       else if includes cmd (str "getprop") then Fulfilled (str "Pixel 3" ++ [newline])
       else if includes cmd (str "ip addr show wlan0")
         then Fulfilled (str "192.168.1.41" ++ [newline])
       else if includes cmd (str "tcpip")
         then Fulfilled (str "restarting in TCP mode port: 5555" ++ [newline])
       else Rejected;
     dateNow := fun _ => str "2024-05-01T10:00:00.000Z";
     writeFailure := fun _ => None |}.

(* ================================================================== *)
(** * Part III: properties *)
(* ================================================================== *)

(** ** Strings *)

Lemma jeqb_eq (a b : jstring) : jeqb a b = true <-> a = b.
Proof.
  revert b; induction a as [|x a IH]; intros [|y b]; simpl;
    try (split; [discriminate | congruence]); try tauto.
  rewrite andb_true_iff, N.eqb_eq, IH. split.
  - intros [-> ->]; reflexivity.
  - intros H; injection H; auto.
Qed.

Lemma jeqb_refl (a : jstring) : jeqb a a = true.
Proof. apply jeqb_eq; reflexivity. Qed.

Lemma jeqb_neq (a b : jstring) : jeqb a b = false <-> a <> b.
Proof.
  rewrite <- jeqb_eq. destruct (jeqb a b); split; congruence.
Qed.

Lemma startsWith_spec (s p : jstring) :
  startsWith s p = true <-> exists after, s = p ++ after.
Proof.
  revert s; induction p as [|y p IH]; intros s; simpl.
  - split; [exists s; reflexivity | reflexivity].
  - destruct s as [|x s].
    + split; [discriminate | intros [a H]; discriminate].
    + rewrite andb_true_iff, N.eqb_eq, IH. split.
      * intros [-> [a ->]]; exists a; reflexivity.
      * intros [a H]; injection H as -> ->; split; [reflexivity | eauto].
Qed.

Lemma includes_spec (s p : jstring) : includes s p = true <-> occursIn p s.
Proof.
  unfold occursIn. induction s as [|x s IH].
  - simpl. rewrite orb_false_r, startsWith_spec. split.
    + intros [a H]; exists [], a; exact H.
    + intros [b [a H]]. destruct b; [exists a; exact H | discriminate].
  - change (includes (x :: s) p)
      with (startsWith (x :: s) p || includes s p).
    rewrite orb_true_iff, startsWith_spec, IH. split.
    + intros [[a H] | [b [a H]]].
      * exists [], a; exact H.
      * exists (x :: b), a; rewrite H; reflexivity.
    + intros [[|y b] [a H]].
      * left; exists a; exact H.
      * right; injection H as _ H; exists b, a; exact H.
Qed.


Lemma str_inj (a b : string) : str a = str b -> a = b.
Proof.
  unfold str. revert b; induction a as [|x a IH]; intros [|y b]; simpl;
    try discriminate; try reflexivity.
  intros H; injection H as Hx Hab.
  f_equal; [| apply IH; exact Hab].
  rewrite <- (ascii_N_embedding x), <- (ascii_N_embedding y), Hx; reflexivity.
Qed.

Lemma toString_inj (a b : nat) : toString a = toString b -> a = b.
Proof.
  unfold toString; intros H. apply str_inj in H.
  assert (E : Nat.to_uint a = Nat.to_uint b).
  { pose proof (NilEmpty.usu (Nat.to_uint a)) as Ha.
    pose proof (NilEmpty.usu (Nat.to_uint b)) as Hb.
    rewrite H in Ha; congruence. }
  apply (f_equal Nat.of_uint) in E.
  rewrite !Unsigned.of_to in E; exact E.
Qed.

Lemma app_inv_tail_str (a b t : jstring) : a ++ t = b ++ t -> a = b.
Proof. apply app_inv_tail. Qed.

(** ** Bridge commands *)

Section BridgeFacts.

Variable w : World.

Lemma connectCmd_isConnectCmd ip : isConnectCmd (connectCmd ip) = true.
Proof. reflexivity. Qed.

Lemma getpropCmd_not_connect id prop : isConnectCmd (getpropCmd id prop) = false.
Proof. reflexivity. Qed.

Lemma connectCmd_inj a b : connectCmd a = connectCmd b -> a = b.
Proof.
  unfold connectCmd; intros H.
  apply app_inv_head in H. apply app_inv_tail in H. exact H.
Qed.

Lemma quiet_refl m : quiet m m.
Proof.
  repeat split; [exists [] | exists []]; rewrite app_nil_r; auto.
Qed.

Lemma quiet_trans m1 m2 m3 : quiet m1 m2 -> quiet m2 m3 -> quiet m1 m3.
Proof.
  intros (C1 & F1 & (l1 & L1 & A1) & (c1 & K1 & B1))
         (C2 & F2 & (l2 & L2 & A2) & (c2 & K2 & B2)).
  repeat split; try congruence.
  - exists (l1 ++ l2). rewrite L2, L1, app_assoc. split; [reflexivity|].
    apply Forall_app; auto.
  - exists (c1 ++ c2). rewrite K2, K1, app_assoc. split; [reflexivity|].
    apply Forall_app; auto.
Qed.

Lemma execPromise_quiet cmd m r m' :
  isConnectCmd cmd = false -> execPromise w cmd m = (r, m') -> quiet m m'.
Proof.
  unfold execPromise; intros Hc H.
  assert (m' = started cmd m) as ->
    by (destruct (execResult w (clock m) cmd); congruence).
  repeat split; simpl.
  - exists [cmd]; split; [reflexivity | constructor; auto].
  - exists []; rewrite app_nil_r; auto.
Qed.

Lemma describeDevice_returns d m :
  exists d' m', describeDevice w d m = (Returned d', m')
                /\ DeviceInfo.id d' = DeviceInfo.id d /\ quiet m m'.
Proof.
  unfold describeDevice.
  destruct (execPromise w (getpropCmd (DeviceInfo.id d) (str "ro.product.model")) m)
    as [[model|] m1] eqn:E1;
    apply execPromise_quiet in E1; try apply getpropCmd_not_connect;
    [| eexists _, _; split; [reflexivity | split; [reflexivity | exact E1]]].
  destruct (execPromise w (getpropCmd (DeviceInfo.id d) (str "ro.build.version.release")) m1)
    as [[version|] m2] eqn:E2;
    apply execPromise_quiet in E2; try apply getpropCmd_not_connect;
    [| eexists _, _; split; [reflexivity | split; [reflexivity|]];
       eapply quiet_trans; eauto].
  destruct (execPromise w (getpropCmd (DeviceInfo.id d) (str "ro.product.manufacturer")) m2)
    as [[manufacturer|] m3] eqn:E3;
    apply execPromise_quiet in E3; try apply getpropCmd_not_connect;
    eexists _, _; (split; [reflexivity | split; [reflexivity|]]);
    eapply quiet_trans; eauto; eapply quiet_trans; eauto.
Qed.

Lemma parseDevices_returns lines : forall devices m,
  exists devices' m',
    parseDevices w lines devices m = (Returned devices', m')
    /\ map DeviceInfo.id devices' = map DeviceInfo.id devices ++ lineIds lines
    /\ quiet m m'.
Proof.
  induction lines as [|line lines IH]; intros devices m; simpl.
  - exists devices, m. rewrite app_nil_r.
    unfold ret. split; [reflexivity | split; [reflexivity | apply quiet_refl]].
  - destruct (matchDeviceLine line) as [[id status]|]; [| apply IH].
    unfold bind.
    destruct (jeqb status (str "device")).
    + destruct (describeDevice_returns
                  (DeviceInfo.mk id status None None None None) m)
        as (d' & m1 & E & Hid & Q).
      rewrite E.
      destruct (IH (devices ++ [d']) m1) as (ds & m2 & E2 & Hids & Q2).
      exists ds, m2. split; [exact E2 | split; [| eapply quiet_trans; eauto]].
      rewrite Hids, map_app; simpl. rewrite Hid; simpl.
      rewrite <- app_assoc; reflexivity.
    + unfold ret.
      destruct (IH (devices ++ [DeviceInfo.mk id status None None None None]) m)
        as (ds & m2 & E2 & Hids & Q2).
      exists ds, m2. split; [exact E2 | split; [| exact Q2]].
      rewrite Hids, map_app; simpl. rewrite <- app_assoc; reflexivity.
Qed.

(** [getConnectedDevices] never rejects: a failing listing is an empty
    listing. *)
Lemma getConnectedDevices_returns m :
  exists devices m',
    getConnectedDevices w m = (Returned devices, m') /\ quiet m m'.
Proof.
  unfold getConnectedDevices, tryCatch, bind.
  destruct (execPromise w (str "adb devices") m) as [[stdout|] m1] eqn:E.
  - apply execPromise_quiet in E; [| reflexivity].
    destruct (parseDevices_returns (listingLines stdout) [] m1)
      as (ds & m2 & E2 & _ & Q2).
    rewrite E2. exists ds, m2; split; [reflexivity | eapply quiet_trans; eauto].
  - apply execPromise_quiet in E; [| reflexivity].
    unfold consoleError, ret. eexists _, _; split; [reflexivity|].
    eapply quiet_trans; [exact E|].
    repeat split; simpl.
    + exists []; rewrite app_nil_r; auto.
    + exists [listingError]; split; [reflexivity | constructor; auto].
Qed.

Lemma getConnectedDevices_rejected m :
  execResult w (clock m) (str "adb devices") = Rejected ->
  getConnectedDevices w m
  = (Returned [], printed listingError (started (str "adb devices") m)).
Proof.
  intros H. unfold getConnectedDevices, tryCatch, bind, execPromise.
  rewrite H. reflexivity.
Qed.

End BridgeFacts.

(** ** The discovery sweep *)

Lemma filter_none {A} (f : A -> bool) (l : list A) :
  Forall (fun x => f x = false) l -> filter f l = [].
Proof.
  induction 1 as [|x l Hx _ IH]; simpl; [reflexivity|].
  rewrite Hx; exact IH.
Qed.

Section SweepFacts.

Variable w : World.
Variable m : Machine.

Lemma Inv_start : Inv w m (start m).
Proof.
  constructor; simpl; auto.
  - lia.
  - exists []; rewrite app_nil_r; auto.
  - exists []; auto.
Qed.

Lemma Inv_iteration s i :
  Inv w m s -> phase s = Looping i -> i < 255 -> Inv w m (iteration w i s).
Proof.
  intros [Hidx Hph Hr Hh (l & Hl & Hf) (c & Hc & Hce) (Hcfg & Hfile)] Hp Hi.
  rewrite Hp in Hph, Hc. destruct Hph as [Hi1 Hlen].
  unfold iteration.
  destruct (getConnectedDevices_returns w (machine s))
    as (devs & m1 & E & Q1 & Q2 & (l1 & L1 & A1) & (c1 & K1 & B1)).
  rewrite E.
  assert (Hseq : forall r, roundIndex r = i ->
            map roundIndex (rounds s ++ [r])
            = seq 1 (length (rounds s ++ [r]))).
  { intros r Hri. rewrite map_app, length_app, seq_app, Hidx; simpl.
    rewrite Hri, Hlen. f_equal. f_equal. lia. }
  assert (Hlen' : forall r, length (rounds s ++ [r]) = S i - 1).
  { intros r. rewrite length_app; simpl; lia. }
  assert (Hlog : forall l2, Forall (fun x => isConnectCmd x = false) l1 ->
            filter isConnectCmd ((l ++ l1) ++ l2)
            = map connectCmd (flat_map probedIp (rounds s))
              ++ filter isConnectCmd l2).
  { intros l2 H. rewrite !filter_app, (filter_none _ _ H), app_nil_r, Hf.
    reflexivity. }
  destruct (isAlreadyConnected devs (candidate w i)) eqn:Hconn;
    [| destruct (jeqb (candidate w i) (localIp w)) eqn:Hself].
  - constructor; simpl.
    + apply Hseq; reflexivity.
    + split; [lia | apply Hlen'].
    + apply Forall_app; split; [exact Hr|]. constructor; [|constructor].
      split; simpl; [reflexivity|].
      unfold roundConnected; simpl. tauto.
    + rewrite flat_map_app; simpl. unfold hostsOf at 2, roundConnected; simpl.
      rewrite Hconn, app_nil_r.
      rewrite <- app_assoc.
      eapply Permutation_trans;
        [| apply Permutation_app_tail; exact Hh].
      rewrite <- app_assoc. apply Permutation_app_head.
      apply Permutation_app_comm.
    + exists (l ++ l1). rewrite L1, Hl, app_assoc. split; [reflexivity|].
      rewrite <- (app_nil_r (l ++ l1)), Hlog by exact A1.
      rewrite flat_map_app; simpl. rewrite !app_nil_r; reflexivity.
    + exists (c ++ c1). rewrite K1, Hc, !app_nil_r. split.
      * rewrite <- app_assoc; reflexivity.
      * apply Forall_app; auto.
    + split; congruence.
  - apply jeqb_eq in Hself.
    constructor; simpl.
    + apply Hseq; reflexivity.
    + split; [lia | apply Hlen'].
    + apply Forall_app; split; [exact Hr|]. constructor; [|constructor].
      split; simpl; [reflexivity|]. tauto.
    + rewrite flat_map_app; simpl. unfold hostsOf at 2, roundConnected; simpl.
      rewrite Hconn, !app_nil_r. exact Hh.
    + exists (l ++ l1). rewrite L1, Hl, app_assoc. split; [reflexivity|].
      rewrite <- (app_nil_r (l ++ l1)), Hlog by exact A1.
      rewrite flat_map_app; simpl. rewrite !app_nil_r; reflexivity.
    + exists (c ++ c1). rewrite K1, Hc, !app_nil_r. split.
      * rewrite <- app_assoc; reflexivity.
      * apply Forall_app; auto.
    + split; congruence.
  - apply jeqb_neq in Hself.
    constructor; simpl.
    + apply Hseq; reflexivity.
    + split; [lia | apply Hlen'].
    + apply Forall_app; split; [exact Hr|]. constructor; [|constructor].
      split; simpl; [reflexivity|].
      unfold roundConnected; simpl. rewrite Hconn. split; [discriminate|].
      intros [H|H]; [discriminate | contradiction].
    + rewrite !flat_map_app; simpl.
      unfold hostsOf at 2, roundConnected, pendingHosts at 2; simpl.
      rewrite Hconn, !app_nil_r, app_assoc.
      apply Permutation_app_tail. exact Hh.
    + exists ((l ++ l1) ++ [connectCmd (candidate w i)]).
      rewrite L1, Hl, !app_assoc. split; [reflexivity|].
      rewrite Hlog by exact A1.
      rewrite flat_map_app, map_app; simpl. reflexivity.
    + exists (c ++ c1). rewrite K1, Hc, !app_nil_r. split.
      * rewrite <- app_assoc; reflexivity.
      * apply Forall_app; auto.
    + split; congruence.
Qed.

Lemma Inv_step s s' : Inv w m s -> step w s s' -> Inv w m s'.
Proof.
  intros HI Hs. destruct Hs as [s i Hp Hi | s i Hp Hi | s before p after Hp | s Hp Hq].
  - apply Inv_iteration; assumption.
  - destruct HI as [Hidx Hph Hr Hh Hl Hc Hcfg]. rewrite Hp in Hph, Hc.
    constructor; simpl; auto. lia.
  - destruct HI as [Hidx Hph Hr Hh Hl Hc Hcfg].
    assert (Hnf : forall r, phase s <> Finished r).
    { intros r E; rewrite E in Hph. destruct Hph as (_ & _ & H).
      rewrite H in Hp; destruct before; discriminate. }
    constructor; simpl; auto.
    + destruct (phase s) as [j| |r]; auto. destruct (Hnf r); reflexivity.
    + rewrite Hp, flat_map_app in Hh; simpl in Hh.
      rewrite flat_map_app.
      eapply Permutation_trans; [| exact Hh].
      replace (match probeResult p with
               | Fulfilled _ =>
                   discoveredDevices s
                   ++ [DiscoveredDevice.mk (probeIp p) discoverable]
               | Rejected => discoveredDevices s
               end)
        with (discoveredDevices s ++ pendingHosts p)
        by (unfold pendingHosts; destruct (probeResult p);
            [reflexivity | apply app_nil_r]).
      rewrite <- app_assoc. apply Permutation_app_head.
      apply Permutation_app_swap_app.
  - destruct HI as [Hidx Hph Hr Hh Hl (c & Hc & Hce) Hcfg].
    rewrite Hp in Hph, Hc.
    constructor; simpl; auto.
    exists c; split; [| exact Hce].
    rewrite Hc, app_nil_r, <- app_assoc; reflexivity.
Qed.

Lemma reaches_Inv s : reaches w m s -> Inv w m s.
Proof.
  induction 1; [apply Inv_start | eapply Inv_step; eauto].
Qed.

End SweepFacts.

(** ** The scheduled sweep is a run of the transition system, and it ends *)

Lemma removeNth_split {A} (l : list A) : forall n p,
  nth_error l n = Some p ->
  exists before after, l = before ++ p :: after
                       /\ removeNth n l = before ++ after.
Proof.
  induction l as [|x l IH]; intros [|n] p H; simpl in H; try discriminate.
  - injection H as ->. exists [], l; split; reflexivity.
  - destruct (IH n p H) as (b & a & -> & E).
    exists (x :: b), a; simpl; rewrite E; split; reflexivity.
Qed.

Lemma removeNth_length {A} (l : list A) : forall n,
  length (removeNth n l) <= length l.
Proof.
  induction l as [|x l IH]; intros [|n]; simpl; auto.
  specialize (IH n); lia.
Qed.

Section RunFacts.

Variable w : World.
Variable m : Machine.

Lemma settleSome_reaches picks : forall s,
  reaches w m s -> reaches w m (settleSome picks s).
Proof.
  induction picks as [|n picks IH]; intros s H; simpl; [exact H|].
  apply IH. destruct (nth_error (promises s) n) as [p|] eqn:E; [| exact H].
  destruct (removeNth_split _ _ _ E) as (b & a & Hp & ->).
  eapply reaches_step; [exact H | apply step_settle; exact Hp].
Qed.

Lemma advance_reaches s : reaches w m s -> reaches w m (advance w s).
Proof.
  intros H. unfold advance.
  destruct (phase s) as [i| |r] eqn:Hp; [| | exact H].
  - destruct (i <? 255) eqn:Hi.
    + apply Nat.ltb_lt in Hi.
      eapply reaches_step; [exact H | apply step_iteration; assumption].
    + apply Nat.ltb_ge in Hi.
      eapply reaches_step; [exact H | eapply step_leave; [exact Hp | lia]].
  - destruct (promises s) as [|p others] eqn:Hq.
    + eapply reaches_step; [exact H | apply step_finish; assumption].
    + eapply reaches_step; [exact H |].
      apply (step_settle w s [] p others Hq).
Qed.

Lemma run_reaches sched fuel : forall k s,
  reaches w m s -> reaches w m (run w sched fuel k s).
Proof.
  induction fuel as [|fuel IH]; intros k s H; simpl; [exact H|].
  apply IH, advance_reaches, settleSome_reaches, H.
Qed.

Lemma settleSome_measure picks : forall s,
  sweepMeasure (settleSome picks s) <= sweepMeasure s
  /\ phase (settleSome picks s) = phase s.
Proof.
  induction picks as [|n picks IH]; intros s; simpl; [auto|].
  destruct (nth_error (promises s) n) as [p|]; [| apply IH].
  destruct (IH (settle p (removeNth n (promises s)) s)) as [H1 H2].
  rewrite H2; split; [| reflexivity].
  etransitivity; [exact H1|].
  unfold sweepMeasure; simpl.
  pose proof (removeNth_length (promises s) n).
  destruct (phase s); lia.
Qed.

Lemma advance_measure s :
  (exists r, phase s = Finished r) \/ sweepMeasure (advance w s) < sweepMeasure s.
Proof.
  unfold advance, sweepMeasure at 2.
  destruct (phase s) as [i| |r] eqn:Hp; [| | left; eauto]; right.
  - destruct (i <? 255) eqn:Hi.
    + apply Nat.ltb_lt in Hi. unfold iteration.
      destruct (getConnectedDevices w (machine s)) as [[devs|] m1].
      * destruct (isAlreadyConnected devs (candidate w i));
          [| destruct (jeqb (candidate w i) (localIp w))];
          unfold sweepMeasure; cbn [phase promises];
          rewrite ?length_app; cbn [length]; lia.
      * unfold sweepMeasure; cbn [phase failed]; lia.
    + apply Nat.ltb_ge in Hi. unfold sweepMeasure; simpl. lia.
  - destruct (promises s) as [|p others]; unfold sweepMeasure; simpl.
    + lia.
    + rewrite Hp; lia.
Qed.

Lemma run_finishes sched fuel : forall k s,
  sweepMeasure s <= fuel ->
  exists r, phase (run w sched fuel k s) = Finished r.
Proof.
  induction fuel as [|fuel IH]; intros k s H; simpl.
  - unfold sweepMeasure in H. destruct (phase s); eauto; lia.
  - apply IH.
    destruct (settleSome_measure (sched k) s) as [H1 H2].
    destruct (advance_measure (settleSome (sched k) s)) as [[r Hr] | Hlt].
    + unfold advance; rewrite Hr. unfold sweepMeasure; rewrite Hr; lia.
    + lia.
Qed.

(** Whatever the scheduler, the sweep returns, and what it returns is a
    result of the transition system. *)
Lemma discoverDevices_returns sched :
  discoverDevicesReturns w m (discoverDevices w sched m)
    (discoverDevicesRun w sched m).
Proof.
  unfold discoverDevicesReturns, discoverDevices, discoverDevicesRun.
  split; [apply run_reaches, reaches_start|].
  destruct (run_finishes sched sweepFuel 0 (start m)) as [r Hr].
  - unfold sweepMeasure, sweepFuel; simpl; lia.
  - rewrite Hr; reflexivity.
Qed.

End RunFacts.

(** ** What the sweep returns *)

Lemma skipn_length_app {A} (a b : list A) : skipn (length a) (a ++ b) = b.
Proof. induction a; simpl; auto. Qed.


Lemma nth_error_seq_index (rs : list Round) n i :
  map roundIndex rs = seq 1 n -> 1 <= i <= n ->
  exists r, nth_error rs (i - 1) = Some r /\ roundIndex r = i.
Proof.
  intros H Hi.
  assert (Hlen : length rs = n)
    by (rewrite <- (length_map roundIndex), H, length_seq; reflexivity).
  destruct (nth_error rs (i - 1)) as [r|] eqn:E.
  - exists r; split; [reflexivity|].
    pose proof (map_nth_error roundIndex _ _ E) as E'.
    rewrite H in E'.
    pose proof (nth_error_nth _ _ 0 E') as E''.
    rewrite seq_nth in E'' by lia. lia.
  - apply nth_error_None in E; lia.
Qed.

Lemma hostsOf_ip (r : Round) h :
  In h (hostsOf r) -> DiscoveredDevice.ip h = roundIp r.
Proof.
  unfold hostsOf. destruct (roundConnected r); [intros [<-|[]]; reflexivity|].
  destruct (roundProbe r) as [[|]|]; simpl; try tauto.
  intros [<-|[]]; reflexivity.
Qed.

Lemma hostsOf_NoDup (rs : list Round) :
  NoDup (map roundIp rs) ->
  NoDup (map DiscoveredDevice.ip (flat_map hostsOf rs)).
Proof.
  induction rs as [|r rs IH]; simpl; intros H; [constructor|].
  inversion H as [|? ? Hn Hd]; subst.
  rewrite map_app. specialize (IH Hd).
  assert (Hin : forall x, In x (map DiscoveredDevice.ip (flat_map hostsOf rs))
                          -> In x (map roundIp rs)).
  { intros x Hx. apply in_map_iff in Hx as (h & <- & Hh).
    apply in_flat_map in Hh as (r' & Hr' & Hh).
    rewrite (hostsOf_ip _ _ Hh). apply in_map; exact Hr'. }
  unfold hostsOf at 1.
  destruct (roundConnected r); simpl.
  - constructor; auto.
  - destruct (roundProbe r) as [[|]|]; simpl; auto.
    constructor; auto.
Qed.

Section SweepClaims.

Variable w : World.
Variable m : Machine.

Lemma candidate_inj i j : candidate w i = candidate w j -> i = j.
Proof.
  unfold candidate; intros H.
  apply app_inv_head in H. apply toString_inj; exact H.
Qed.

Lemma rounds_ip_NoDup s : Inv w m s -> NoDup (map roundIp (rounds s)).
Proof.
  intros I.
  assert (E : map roundIp (rounds s)
              = map (candidate w) (map roundIndex (rounds s))).
  { rewrite map_map. apply map_ext_in.
    intros r Hr. pose proof (inv_rounds _ _ _ I) as F.
    rewrite Forall_forall in F. apply (F r Hr). }
  rewrite E, (inv_indices _ _ _ I).
  apply Finite.Injective_map_NoDup; [| apply seq_NoDup].
  intros i j; apply candidate_inj.
Qed.

Lemma returned_Inv result s :
  discoverDevicesReturns w m result s ->
  Inv w m s /\ length (rounds s) = 254 /\ result = discoveredDevices s
  /\ promises s = []
  /\ Permutation result (flat_map hostsOf (rounds s)).
Proof.
  intros [Hr Hp]. pose proof (reaches_Inv _ _ _ Hr) as I.
  pose proof (inv_phase _ _ _ I) as P. rewrite Hp in P.
  destruct P as (Hlen & -> & Hq).
  pose proof (inv_hosts _ _ _ I) as H. rewrite Hq in H; simpl in H.
  rewrite app_nil_r in H.
  split; [exact I | split; [exact Hlen | split; [reflexivity | split; assumption]]].
Qed.

Lemma returned_round result s i :
  discoverDevicesReturns w m result s -> 1 <= i <= 254 ->
  exists r, roundOf s i = Some r /\ In r (rounds s)
            /\ roundIndex r = i /\ roundIp r = candidate w i
            /\ (roundProbe r = None
                <-> roundConnected r = true \/ roundIp r = localIp w).
Proof.
  intros H Hi. destruct (returned_Inv _ _ H) as (I & Hlen & _).
  pose proof (inv_indices _ _ _ I) as Hidx. rewrite Hlen in Hidx.
  destruct (nth_error_seq_index _ _ i Hidx Hi) as (r & E & Hri).
  exists r. pose proof (nth_error_In _ _ E) as Hin.
  pose proof (inv_rounds _ _ _ I) as F. rewrite Forall_forall in F.
  destruct (F r Hin) as [Hip Hpr]. rewrite Hri in Hip.
  split; [exact E | split; [exact Hin | split; [exact Hri | split; assumption]]].
Qed.

Lemma sweepCommands_spec s :
  Inv w m s ->
  log (machine s) = log m ++ sweepCommands m s
  /\ filter isConnectCmd (sweepCommands m s)
     = map connectCmd (flat_map probedIp (rounds s)).
Proof.
  intros I. destruct (inv_log _ _ _ I) as (l & Hl & Hf).
  unfold sweepCommands. rewrite Hl, skipn_length_app. auto.
Qed.

Lemma probed_iff s ip :
  Inv w m s ->
  In (connectCmd ip) (sweepCommands m s)
  <-> exists r, In r (rounds s) /\ roundProbe r <> None /\ roundIp r = ip.
Proof.
  intros I. destruct (sweepCommands_spec _ I) as [_ Hf].
  split.
  - intros H.
    assert (H' : In (connectCmd ip) (filter isConnectCmd (sweepCommands m s)))
      by (apply filter_In; split; [exact H | reflexivity]).
    rewrite Hf in H'. apply in_map_iff in H' as (ip' & E & Hin).
    apply connectCmd_inj in E; subst ip'.
    apply in_flat_map in Hin as (r & Hr & Hin).
    exists r. unfold probedIp in Hin.
    destruct (roundProbe r); simpl in Hin; [| tauto].
    destruct Hin as [<-|[]]. repeat split; auto; discriminate.
  - intros (r & Hr & Hp & <-).
    assert (H' : In (connectCmd (roundIp r))
                   (filter isConnectCmd (sweepCommands m s))).
    { rewrite Hf. apply in_map. apply in_flat_map. exists r; split; auto.
      unfold probedIp. destruct (roundProbe r); [left; reflexivity | congruence]. }
    apply filter_In in H'; tauto.
Qed.

End SweepClaims.

Section SweepResults.

Variable w : World.
Variable m : Machine.

Lemma round_of_member result s r :
  discoverDevicesReturns w m result s -> In r (rounds s) ->
  roundOf s (roundIndex r) = Some r /\ 1 <= roundIndex r <= 254.
Proof.
  intros H Hin. destruct (returned_Inv _ _ _ _ H) as (I & Hlen & _).
  pose proof (inv_indices _ _ _ I) as Hidx. rewrite Hlen in Hidx.
  destruct (In_nth_error _ _ Hin) as [n E].
  pose proof (map_nth_error roundIndex _ _ E) as E'. rewrite Hidx in E'.
  assert (Hn : n < 254).
  { rewrite <- Hlen. apply nth_error_Some. congruence. }
  pose proof (nth_error_nth _ _ 0 E') as E''.
  rewrite seq_nth in E'' by exact Hn.
  unfold roundOf. rewrite <- E''.
  replace (1 + n - 1) with n by lia. split; [exact E | lia].
Qed.

Lemma same_round result s r r' :
  discoverDevicesReturns w m result s ->
  In r (rounds s) -> In r' (rounds s) -> roundIp r = roundIp r' -> r = r'.
Proof.
  intros H Hr Hr' E. destruct (returned_Inv _ _ _ _ H) as (I & _).
  pose proof (inv_rounds _ _ _ I) as F. rewrite Forall_forall in F.
  destruct (F r Hr) as [E1 _]. destruct (F r' Hr') as [E2 _].
  rewrite E1, E2 in E. apply candidate_inj in E.
  destruct (round_of_member _ _ _ H Hr) as [A _].
  destruct (round_of_member _ _ _ H Hr') as [B _].
  rewrite E in A. congruence.
Qed.



(** The lines of the sweep: the start, one line per failed listing, the
    success. *)
Lemma returned_console result s :
  discoverDevicesReturns w m result s ->
  exists errors, sweepConsole m s = startLine :: errors ++ [successLine]
                 /\ Forall (fun x => x = listingError) errors.
Proof.
  intros H. destruct (returned_Inv _ _ _ _ H) as (I & _).
  destruct (inv_console _ _ _ I) as (c & Hc & Hce).
  destruct H as [_ Hp]. rewrite Hp in Hc.
  exists c. split; [| exact Hce].
  unfold sweepConsole. rewrite Hc, skipn_length_app. reflexivity.
Qed.

(** The outcome of every probe: a fulfilled one is in the result as
    discoverable, a rejected one left no entry for its address. *)
Lemma probe_outcome result s i r :
  discoverDevicesReturns w m result s -> 1 <= i <= 254 ->
  roundOf s i = Some r ->
  match roundProbe r with
  | Some (Fulfilled _) =>
      In (DiscoveredDevice.mk (candidate w i) discoverable) result
  | Some Rejected =>
      forall h, In h result -> DiscoveredDevice.ip h <> candidate w i
  | None => True
  end.
Proof.
  intros H Hi Er.
  destruct (returned_round _ _ _ _ _ H Hi) as (r' & Er' & Hin & Hri & Hip & Hpr).
  assert (r' = r) by congruence; subst r'.
  destruct (returned_Inv _ _ _ _ H) as (I & _ & _ & _ & Hperm).
  destruct (roundProbe r) as [[out|]|] eqn:Ep; [| | exact Logic.I].
  - apply (Permutation_in _ (Permutation_sym Hperm)).
    apply in_flat_map. exists r; split; [exact Hin|].
    unfold hostsOf. rewrite Ep, Hip.
    destruct (roundConnected r) eqn:Hc; [| left; reflexivity].
    assert (Some (Fulfilled out) = None) by (apply Hpr; left; reflexivity).
    discriminate.
  - intros h Hh E.
    apply (Permutation_in _ Hperm) in Hh.
    apply in_flat_map in Hh as (r' & Hr' & Hh).
    pose proof (hostsOf_ip _ _ Hh) as E'. rewrite E, <- Hip in E'.
    rewrite <- (same_round _ _ _ _ H Hin Hr' E') in Hh.
    unfold hostsOf in Hh. rewrite Ep in Hh.
    destruct (roundConnected r) eqn:Hc; [| exact Hh].
    assert (Some Rejected = None) by (apply Hpr; left; reflexivity).
    discriminate.
Qed.

(** When every listing is rejected, every turn sees the empty listing. *)
Lemma rejected_listings_empty s :
  (forall k, execResult w k (str "adb devices") = Rejected) ->
  reaches w m s -> Forall (fun r => roundListing r = []) (rounds s).
Proof.
  intros Hrej. induction 1 as [|s s' Hs IH Hstep]; [constructor|].
  destruct Hstep as [s i Hp Hi | s i Hp Hi | s before p after Hp | s Hp Hq];
    simpl; auto.
  unfold iteration. rewrite getConnectedDevices_rejected by apply Hrej.
  simpl.
  destruct (jeqb (candidate w i) (localIp w)); simpl;
    apply Forall_app; split; auto.
Qed.

End SweepResults.

Example homeNetwork_localIp : localIp homeNetwork = str "192.168.1.5".
Proof. reflexivity. Qed.

Example homeNetwork_ipBase : ipBase homeNetwork = str "192.168.1.".
Proof. reflexivity. Qed.

Example homeNetwork_candidate : candidate homeNetwork 12 = str "192.168.1.12".
Proof. reflexivity. Qed.

Example homeNetwork_sweep :
  discoverDevices homeNetwork atTheJoin freshMachine
  = [DiscoveredDevice.mk (str "192.168.1.1") connected;
     DiscoveredDevice.mk (str "192.168.1.12") connected;
     DiscoveredDevice.mk (str "192.168.1.77") discoverable].
Proof. vm_compute. reflexivity. Qed.

Example homeNetwork_sweep_atOnce :
  discoverDevices homeNetwork atOnce freshMachine
  = [DiscoveredDevice.mk (str "192.168.1.1") connected;
     DiscoveredDevice.mk (str "192.168.1.12") connected;
     DiscoveredDevice.mk (str "192.168.1.77") discoverable].
Proof. vm_compute. reflexivity. Qed.

(** ** In a steady world every turn obtains the same listing *)

Section Steady.

Variable w : World.
Hypothesis Hsteady : steady w.

Lemma execPromise_steady cmd m m' :
  fst (execPromise w cmd m) = fst (execPromise w cmd m').
Proof.
  unfold execPromise. rewrite (Hsteady (clock m) (clock m')).
  destruct (execResult w (clock m') cmd); reflexivity.
Qed.

Lemma describeDevice_steady d m m' :
  fst (describeDevice w d m) = fst (describeDevice w d m').
Proof.
  unfold describeDevice, execPromise.
  rewrite (Hsteady (clock m) (clock m')).
  destruct (execResult w (clock m') _); [| reflexivity].
  cbn [clock started].
  rewrite (Hsteady (S (clock m)) (S (clock m'))).
  destruct (execResult w (S (clock m')) _); [| reflexivity].
  cbn [clock started].
  rewrite (Hsteady (S (S (clock m))) (S (S (clock m')))).
  destruct (execResult w (S (S (clock m'))) _); reflexivity.
Qed.

Lemma parseDevices_steady lines : forall devices m m',
  fst (parseDevices w lines devices m) = fst (parseDevices w lines devices m').
Proof.
  induction lines as [|line lines IH]; intros devices m m'; [reflexivity|].
  cbn [parseDevices].
  destruct (matchDeviceLine line) as [[id status]|]; [| apply IH].
  unfold bind. destruct (jeqb status (str "device")).
  - pose proof (describeDevice_steady
                  (DeviceInfo.mk id status None None None None) m m') as E.
    destruct (describeDevice_returns w
                (DeviceInfo.mk id status None None None None) m)
      as (d1 & m1 & E1 & _).
    destruct (describeDevice_returns w
                (DeviceInfo.mk id status None None None None) m')
      as (d2 & m2 & E2 & _).
    rewrite E1, E2 in *. simpl in E. injection E as ->. apply IH.
  - unfold ret. apply IH.
Qed.

Lemma getConnectedDevices_steady m m' :
  fst (getConnectedDevices w m) = fst (getConnectedDevices w m').
Proof.
  unfold getConnectedDevices, tryCatch, bind, execPromise.
  rewrite (Hsteady (clock m) (clock m')).
  destruct (execResult w (clock m') (str "adb devices")) as [stdout|];
    [| reflexivity].
  pose proof (parseDevices_steady (listingLines stdout) []
                (started (str "adb devices") m)
                (started (str "adb devices") m')) as E.
  destruct (parseDevices_returns w (listingLines stdout) []
              (started (str "adb devices") m)) as (d1 & m1 & E1 & _).
  destruct (parseDevices_returns w (listingLines stdout) []
              (started (str "adb devices") m')) as (d2 & m2 & E2 & _).
  rewrite E1, E2 in *. exact E.
Qed.

(** Every turn of a sweep records the listing that [getConnectedDevices]
    gives at the start. *)
Lemma rounds_steady m s :
  reaches w m s ->
  Forall (fun r => fst (getConnectedDevices w m) = Returned (roundListing r))
         (rounds s).
Proof.
  induction 1 as [|s s' Hs IH Hstep]; [constructor|].
  destruct Hstep as [s i Hp Hi | s i Hp Hi | s before p after Hp | s Hp Hq];
    simpl; auto.
  unfold iteration.
  pose proof (getConnectedDevices_steady m (machine s)) as E.
  destruct (getConnectedDevices_returns w (machine s)) as (devs & m1 & E1 & _).
  rewrite E1 in *. simpl in E.
  destruct (isAlreadyConnected devs (candidate w i));
    [| destruct (jeqb (candidate w i) (localIp w))]; simpl;
    apply Forall_app; split; auto.
Qed.

End Steady.

(** X11.  When the bridge answers every command the same at all times,
    the listing obtained on each of the 254 turns of the sweep is the
    listing that [getConnectedDevices] returns before the sweep. *)
Lemma listingAt_steady w m result s i :
  steady w -> discoverDevicesReturns w m result s -> 1 <= i <= 254 ->
  fst (getConnectedDevices w m) = Returned (listingAt s i).
Proof.
  intros Hs H Hi.
  destruct (returned_round _ _ _ _ _ H Hi) as (r & Er & Hin & _).
  pose proof (rounds_steady w Hs m s (proj1 H)) as F.
  rewrite Forall_forall in F. unfold listingAt. rewrite Er. apply F, Hin.
Qed.

Example homeNetwork_steady : steady homeNetwork.
Proof. intros k k' cmd. reflexivity. Qed.

(** ** The claims about the sweep *)



(** C2.  Whatever the local address and the listings, no [adb connect] is
    started for the local address itself. *)
Theorem sweep_never_probes_local_address w m result s :
  discoverDevicesReturns w m result s ->
  ~ In (connectCmd (localIp w)) (sweepCommands m s).
Proof.
  intros H Hp. destruct (returned_Inv _ _ _ _ H) as (I & _).
  apply (probed_iff _ _ _ _ I) in Hp as (r & Hr & Hn & E).
  pose proof (inv_rounds _ _ _ I) as F. rewrite Forall_forall in F.
  destruct (F r Hr) as [_ Hpr]. apply Hn, Hpr. right; exact E.
Qed.

Lemma sweep_never_probes_local_address_home :
  (In (connectCmd (str "192.168.1.5"))
      (sweepCommands freshMachine
         (discoverDevicesRun homeNetwork atTheJoin freshMachine)) -> False)
  /\ length (filter isConnectCmd
               (sweepCommands freshMachine
                  (discoverDevicesRun homeNetwork atTheJoin freshMachine)))
     = 251.
Proof.
  split; [| vm_compute; reflexivity].
  exact (sweep_never_probes_local_address homeNetwork freshMachine _ _
           (discoverDevices_returns homeNetwork freshMachine atTheJoin)).
Defined.

(** C5.  No two entries of the result have the same address. *)
Theorem result_has_no_duplicate_address w m result s :
  discoverDevicesReturns w m result s ->
  NoDup (map DiscoveredDevice.ip result).
Proof.
  intros H. destruct (returned_Inv _ _ _ _ H) as (I & _ & _ & _ & Hperm).
  apply (Permutation_NoDup
           (Permutation_sym (Permutation_map DiscoveredDevice.ip Hperm))).
  apply hostsOf_NoDup, (rounds_ip_NoDup _ _ _ I).
Qed.

Lemma result_has_no_duplicate_address_home :
  NoDup (map DiscoveredDevice.ip
           (discoverDevices homeNetwork atOnce freshMachine)).
Proof.
  exact (result_has_no_duplicate_address homeNetwork freshMachine _ _
           (discoverDevices_returns homeNetwork freshMachine atOnce)).
Defined.



(** A probe was launched on the turn for [i] exactly when its command is
    among the commands of the sweep. *)
Lemma launched_iff w m result s i r :
  discoverDevicesReturns w m result s -> 1 <= i <= 254 ->
  roundOf s i = Some r ->
  (roundProbe r <> None
   <-> In (connectCmd (candidate w i)) (sweepCommands m s)).
Proof.
  intros H Hi Er.
  destruct (returned_round _ _ _ _ _ H Hi) as (r' & Er' & Hin & Hri & Hip & Hpr).
  assert (r' = r) by congruence; subst r'.
  destruct (returned_Inv _ _ _ _ H) as (I & _).
  rewrite (probed_iff _ _ _ _ I). split.
  - intros Hn. exists r; auto.
  - intros (r' & Hr' & Hn & E). rewrite <- Hip in E.
    rewrite (same_round _ _ _ _ _ _ H Hr' Hin E) in Hn. exact Hn.
Qed.

Example sweep_joins_every_probe_home :
  In (DiscoveredDevice.mk (str "192.168.1.77") discoverable)
     (discoverDevices homeNetwork atTheJoin freshMachine)
  /\ length (discoverDevices homeNetwork atTheJoin freshMachine) = 3
  /\ sweepConsole freshMachine
       (discoverDevicesRun homeNetwork atTheJoin freshMachine)
     = [startLine; successLine].
Proof. vm_compute. intuition. Qed.

(** C3, as the claim states it, fails for a bridge that is installed and
    errors: the check of [discover] passes, every listing is rejected, yet
    the sweep goes on: its second child process is the probe of
    192.168.1.1, it starts 253 probes in all, and its last line is the
    success, after one error line per listing; [discover] then prints that
    no device is discoverable. *)
Lemma listing_failure_does_not_abort :
  checkAdbInstalled brokenListing freshMachine
  = (Returned true, started versionCheck freshMachine)
  /\ (forall k, execResult brokenListing k (str "adb devices") = Rejected)
  /\ nth 1 (sweepCommands (started versionCheck freshMachine)
              (discoverDevicesRun brokenListing atTheJoin
                 (started versionCheck freshMachine))) []
     = str "adb connect 192.168.1.1:5555"
  /\ length (filter isConnectCmd
               (sweepCommands (started versionCheck freshMachine)
                  (discoverDevicesRun brokenListing atTheJoin
                     (started versionCheck freshMachine))))
     = 253
  /\ sweepConsole (started versionCheck freshMachine)
       (discoverDevicesRun brokenListing atTheJoin
          (started versionCheck freshMachine))
     = startLine :: repeat listingError 254 ++ [successLine]
  /\ phase (discoverDevicesRun brokenListing atTheJoin
              (started versionCheck freshMachine))
     = Finished []
  /\ (forall table,
        discoverCommand brokenListing table atTheJoin freshMachine
        = (Returned tt,
           printed (ConsoleLog noneDiscoverable)
             (machine (discoverDevicesRun brokenListing atTheJoin
                         (started versionCheck freshMachine))))).
Proof.
  split; [reflexivity|]. split; [reflexivity|].
  split; [vm_compute; reflexivity|]. split; [vm_compute; reflexivity|].
  split; [vm_compute; reflexivity|]. split; [vm_compute; reflexivity|].
  intros table. vm_compute. reflexivity.
Qed.

(** When every listing is rejected, the sweep has printed its start and
    one listing error per turn of the loop, and its success once it has
    returned. *)
Lemma rejected_listings_console w m s :
  (forall k, execResult w k (str "adb devices") = Rejected) ->
  reaches w m s ->
  console (machine s)
  = console m ++ startLine :: repeat listingError (length (rounds s))
    ++ match phase s with
       | Finished _ => [successLine]
       | _ => []
       end.
Proof.
  intros Hrej. induction 1 as [|s s' Hs IH Hstep]; [reflexivity|].
  destruct Hstep as [s i Hp Hi | s i Hp Hi | s before p after Hp | s Hp Hq].
  - rewrite Hp in IH. unfold iteration.
    rewrite getConnectedDevices_rejected by apply Hrej.
    cbn [isAlreadyConnected existsb].
    destruct (jeqb (candidate w i) (localIp w));
      cbn [machine rounds phase console printed started];
      rewrite IH, length_app; cbn [length]; rewrite Nat.add_1_r;
      cbn [repeat]; rewrite repeat_cons, !app_nil_r, <- app_assoc;
      reflexivity.
  - rewrite Hp in IH. exact IH.
  - exact IH.
  - rewrite Hp in IH. cbn [finish machine rounds phase console printed].
    rewrite IH, app_nil_r, <- app_assoc. reflexivity.
Qed.

(** C3, amended.  When the check of the bridge has passed and every
    listing is rejected, [getConnectedDevices] yields the empty listing
    each time and the sweep does not abort: every turn sees no device and
    prints the listing error, every candidate other than the local address
    is probed, no host is taken for connected, and the sweep ends with its
    success line and never prints its failure line. *)
Theorem rejected_listing_is_empty_listing w m0 m result s :
  checkAdbInstalled w m0 = (Returned true, m) ->
  (forall k, execResult w k (str "adb devices") = Rejected) ->
  discoverDevicesReturns w m result s ->
  (forall i, 1 <= i <= 254 ->
     listingAt s i = []
     /\ (candidate w i <> localIp w ->
         In (connectCmd (candidate w i)) (sweepCommands m s)))
  /\ sweepConsole m s = startLine :: repeat listingError 254 ++ [successLine]
  /\ ~ In failureLine (sweepConsole m s)
  /\ (forall h, In h result -> DiscoveredDevice.status h = discoverable).
Proof.
  intros _ Hrej H.
  pose proof (rejected_listings_empty w m s Hrej (proj1 H)) as F.
  rewrite Forall_forall in F.
  assert (Hc : sweepConsole m s
               = startLine :: repeat listingError 254 ++ [successLine]).
  { unfold sweepConsole.
    rewrite (rejected_listings_console w m s Hrej (proj1 H)), skipn_length_app.
    destruct (returned_Inv _ _ _ _ H) as (_ & Hlen & _).
    destruct H as [_ Hp]. rewrite Hp, Hlen. reflexivity. }
  split; [| split; [exact Hc | split]].
  - intros i Hi.
    destruct (returned_round _ _ _ _ _ H Hi) as (r & Er & Hin & Hri & Hip & Hpr).
    pose proof (F r Hin) as El.
    unfold listingAt. rewrite Er. split; [exact El|].
    intros Hne. apply (launched_iff _ _ _ _ _ _ H Hi Er).
    intros Hn. apply Hpr in Hn as [Hc'|Hs].
    + unfold roundConnected in Hc'. rewrite El in Hc'. discriminate.
    + rewrite Hip in Hs. contradiction.
  - rewrite Hc. intros [Hx|Hx]; [discriminate|].
    apply in_app_or in Hx as [Hx|[Hx|[]]]; [| discriminate].
    apply repeat_spec in Hx. discriminate.
  - intros h Hh.
    destruct (returned_Inv _ _ _ _ H) as (_ & _ & _ & _ & Hperm).
    apply (Permutation_in _ Hperm) in Hh.
    apply in_flat_map in Hh as (r & Hr & Hh).
    unfold hostsOf, roundConnected in Hh. rewrite (F r Hr) in Hh.
    cbn [isAlreadyConnected existsb] in Hh.
    destruct (roundProbe r) as [[out|]|]; try contradiction.
    destruct Hh as [<-|[]]. reflexivity.
Qed.

Lemma rejected_listing_is_empty_listing_broken :
  (forall i, 1 <= i <= 254 ->
     listingAt (discoverDevicesRun brokenListing atOnce
                  (started versionCheck freshMachine)) i = []
     /\ (candidate brokenListing i <> localIp brokenListing ->
         In (connectCmd (candidate brokenListing i))
            (sweepCommands (started versionCheck freshMachine)
               (discoverDevicesRun brokenListing atOnce
                  (started versionCheck freshMachine)))))
  /\ sweepConsole (started versionCheck freshMachine)
       (discoverDevicesRun brokenListing atOnce
          (started versionCheck freshMachine))
     = startLine :: repeat listingError 254 ++ [successLine]
  /\ In (connectCmd (str "192.168.1.7"))
        (sweepCommands (started versionCheck freshMachine)
           (discoverDevicesRun brokenListing atOnce
              (started versionCheck freshMachine))).
Proof.
  destruct (rejected_listing_is_empty_listing brokenListing freshMachine
              (started versionCheck freshMachine) _ _
              eq_refl (fun _ => eq_refl)
              (discoverDevices_returns brokenListing
                 (started versionCheck freshMachine) atOnce))
    as (A & B & _).
  split; [exact A|]. split; [exact B|].
  destruct (A 7) as [_ C]; [lia|]. apply C. discriminate.
Defined.

(** ** The local address as a candidate *)

Lemma lastIndexOf_from_absent c s : forall i found,
  ~ In c s -> lastIndexOf_from c s i found = found.
Proof.
  induction s as [|x s IH]; intros i found H; simpl; [reflexivity|].
  destruct (N.eqb_spec x c) as [->|Hne].
  - destruct H; left; reflexivity.
  - apply IH. intros Hin; apply H; right; exact Hin.
Qed.

Lemma lastIndexOf_from_last c x t : forall i found,
  ~ In c t ->
  lastIndexOf_from c (x ++ c :: t) i found = (i + Z.of_nat (length x))%Z.
Proof.
  induction x as [|y x IH]; intros i found H.
  - simpl. rewrite N.eqb_refl, lastIndexOf_from_absent by exact H. lia.
  - cbn [app lastIndexOf_from length]. rewrite IH by exact H. lia.
Qed.

Lemma substring_prefix s b :
  (0 <= b <= Z.of_nat (length s))%Z ->
  substring s 0 b = firstn (Z.to_nat b) s.
Proof.
  intros H. unfold substring.
  set (len := Z.of_nat (length s)) in *.
  replace (Z.to_nat (Z.min (Z.min (Z.max 0 0) len) (Z.min (Z.max b 0) len)))
    with 0 by lia.
  replace (Z.max (Z.min (Z.max 0 0) len) (Z.min (Z.max b 0) len)
           - Z.min (Z.min (Z.max 0 0) len) (Z.min (Z.max b 0) len))%Z
    with b by lia.
  reflexivity.
Qed.

Lemma str_cons a s : str (String a s) = N_of_ascii a :: str s.
Proof. reflexivity. Qed.

Lemma toString_no_dot n : ~ In dot (toString n).
Proof.
  unfold toString. generalize (Nat.to_uint n) as u.
  induction u; simpl NilEmpty.string_of_uint;
    [intros [] | rewrite str_cons; intros [H|H]; [discriminate H | auto] ..].
Qed.

(** A local address that ends in a dot and the decimal numeral of [d] is
    the candidate for [d]: every dotted quad whose last octet is between 1
    and 254 is among the candidates of the sweep. *)
Lemma dotted_address_is_candidate w prefix d :
  localIp w = prefix ++ dot :: toString d ->
  ipBase w = prefix ++ [dot] /\ candidate w d = localIp w.
Proof.
  intros E.
  assert (B : ipBase w = prefix ++ [dot]).
  { unfold ipBase, lastIndexOf. rewrite E.
    rewrite lastIndexOf_from_last by apply toString_no_dot.
    rewrite substring_prefix by (rewrite length_app; cbn [length]; lia).
    replace (Z.to_nat (0 + Z.of_nat (length prefix) + 1))
      with (length (prefix ++ [dot])) by (rewrite length_app; simpl; lia).
    replace (prefix ++ dot :: toString d)
      with ((prefix ++ [dot]) ++ toString d)
      by (rewrite <- app_assoc; reflexivity).
    rewrite firstn_app, Nat.sub_diag, firstn_all. simpl. apply app_nil_r. }
  split; [exact B|].
  unfold candidate. rewrite B, E, <- app_assoc. reflexivity.
Qed.

(** ** The bridge listing *)

(** ** The pattern of a listing line *)

Lemma takeWhile_dropWhile p s : takeWhile p s ++ dropWhile p s = s.
Proof.
  induction s as [|c s IH]; [reflexivity|]. simpl.
  destruct (p c); [simpl; rewrite IH|]; reflexivity.
Qed.

Lemma takeWhile_all p s : Forall (fun c => p c = true) (takeWhile p s).
Proof.
  induction s as [|c s IH]; simpl; [constructor|].
  destruct (p c) eqn:E; constructor; assumption.
Qed.

Lemma takeWhile_app_all p a b :
  Forall (fun c => p c = true) a ->
  takeWhile p (a ++ b) = a ++ takeWhile p b
  /\ dropWhile p (a ++ b) = dropWhile p b.
Proof.
  induction 1 as [|c a Hc _ [IH1 IH2]]; [split; reflexivity|].
  simpl. rewrite Hc, IH1, IH2. split; reflexivity.
Qed.

Lemma span_stop p a c b :
  Forall (fun x => p x = true) a -> p c = false ->
  takeWhile p (a ++ c :: b) = a /\ dropWhile p (a ++ c :: b) = c :: b.
Proof.
  intros Ha Hc. destruct (takeWhile_app_all p a (c :: b) Ha) as [E1 E2].
  rewrite E1, E2. simpl. rewrite Hc, app_nil_r. split; reflexivity.
Qed.

(** Every way the pattern can match has the identifier and the gap that
    [matchDeviceLine] takes, and a status that begins the one it takes. *)
Lemma matchesAs_unique line id gap status rest :
  matchesAs line id gap status rest ->
  id = takeWhile notSpace line
  /\ gap = takeWhile isSpace (dropWhile notSpace line)
  /\ exists t, takeWhile notSpace
                 (dropWhile isSpace (dropWhile notSpace line))
               = status ++ t.
Proof.
  intros (E & Hi & Fi & Hg & Fg & Hs & Fs). subst line.
  destruct gap as [|g gap]; [contradiction|].
  destruct status as [|c status]; [contradiction|].
  assert (Hgs : notSpace g = false).
  { inversion Fg as [|? ? G _]; subst. unfold notSpace. rewrite G. reflexivity. }
  assert (Hcs : isSpace c = false).
  { inversion Fs as [|? ? C _]; subst. unfold notSpace in C.
    destruct (isSpace c); [discriminate | reflexivity]. }
  cbn [app].
  destruct (span_stop notSpace id g (gap ++ c :: status ++ rest) Fi Hgs)
    as [E1 E2].
  rewrite E1, E2.
  change (g :: gap ++ c :: status ++ rest)
    with ((g :: gap) ++ c :: status ++ rest).
  destruct (span_stop isSpace (g :: gap) c (status ++ rest) Fg Hcs)
    as [E3 E4].
  rewrite E3, E4.
  change (c :: status ++ rest) with ((c :: status) ++ rest).
  destruct (takeWhile_app_all notSpace (c :: status) rest Fs) as [E5 _].
  rewrite E5. repeat split. eexists; reflexivity.
Qed.

(** X2.  [matchDeviceLine] is the match of the pattern of a listing line:
    when it answers, the line reads as its identifier, a gap, its status
    and a rest, and every other reading has the same identifier and a
    shorter status (the quantifiers are greedy); when it does not, the line
    has no reading. *)
Lemma matchDeviceLine_greedy line :
  match matchDeviceLine line with
  | Some (id, status) =>
      (exists gap rest, matchesAs line id gap status rest)
      /\ (forall id' gap' status' rest',
            matchesAs line id' gap' status' rest' ->
            id' = id /\ exists t, status = status' ++ t)
  | None => forall id gap status rest, ~ matchesAs line id gap status rest
  end.
Proof.
  unfold matchDeviceLine.
  set (A := takeWhile notSpace line).
  set (R1 := dropWhile notSpace line).
  set (G := takeWhile isSpace R1).
  set (R2 := dropWhile isSpace R1).
  set (S := takeWhile notSpace R2).
  assert (U : forall id gap status rest,
            matchesAs line id gap status rest ->
            id = A /\ gap = G /\ exists t, S = status ++ t)
    by (intros; apply (matchesAs_unique line id gap status rest); assumption).
  assert (None_case : A = [] \/ G = [] \/ S = [] ->
            forall id gap status rest, ~ matchesAs line id gap status rest).
  { intros H id gap status rest M.
    destruct (U _ _ _ _ M) as (EA & EG & t & ES).
    destruct M as (_ & Hi & _ & Hg & _ & Hs & _).
    destruct H as [H|[H|H]]; [congruence | congruence |].
    rewrite H in ES. destruct status; [contradiction | discriminate]. }
  destruct A as [|a A'] eqn:EA; [apply None_case; auto|].
  destruct G as [|g G'] eqn:EG; [apply None_case; auto|].
  destruct S as [|c S'] eqn:ES; [apply None_case; auto|].
  split.
  - exists (g :: G'), (dropWhile notSpace R2).
    repeat split; try discriminate.
    + rewrite <- ES, <- EG, <- EA. unfold S.
      rewrite takeWhile_dropWhile. unfold G, R2.
      rewrite takeWhile_dropWhile. unfold A, R1.
      rewrite takeWhile_dropWhile. reflexivity.
    + rewrite <- EA. apply takeWhile_all.
    + rewrite <- EG. apply takeWhile_all.
    + rewrite <- ES. apply takeWhile_all.
  - intros id' gap' status' rest' M.
    destruct (U _ _ _ _ M) as (E1 & _ & t & E3). split; [exact E1|].
    exists t; exact E3.
Qed.

(** C9, as the claim states it, fails: the parser keeps both lines of a
    listing that names one identifier twice. *)
Lemma listing_keeps_repeated_identifier :
  map DeviceInfo.id
    (match fst (getConnectedDevices twinSerials freshMachine) with
     | Returned devices => devices
     | Thrown => []
     end)
  = [str "0123456789ABCDEF"; str "0123456789ABCDEF"]
  /\ (NoDup [str "0123456789ABCDEF"; str "0123456789ABCDEF"] -> False).
Proof.
  split; [vm_compute; reflexivity|].
  intros H. inversion H as [|? ? Hn _]. apply Hn. left; reflexivity.
Qed.

(** C9, amended.  The parser emits one entry for every line after the
    first that matches, in order, with the first token of the line as its
    identifier, whatever the property queries answer; so the identifiers
    of a snapshot are pairwise distinct exactly when the first tokens of
    the matching lines are. *)
Theorem listing_identifiers_are_first_tokens w m stdout :
  execResult w (clock m) (str "adb devices") = Fulfilled stdout ->
  exists devices m',
    getConnectedDevices w m = (Returned devices, m')
    /\ map DeviceInfo.id devices = lineIds (listingLines stdout)
    /\ (NoDup (map DeviceInfo.id devices)
        <-> NoDup (lineIds (listingLines stdout))).
Proof.
  intros H. unfold getConnectedDevices, tryCatch, bind, execPromise.
  rewrite H.
  destruct (parseDevices_returns w (listingLines stdout) []
              (started (str "adb devices") m)) as (ds & m2 & E & Hids & _).
  rewrite E. exists ds, m2. simpl in Hids.
  split; [reflexivity | split; [exact Hids | rewrite Hids; tauto]].
Qed.

Lemma listing_identifiers_are_first_tokens_home :
  exists devices m',
    getConnectedDevices homeNetwork freshMachine = (Returned devices, m')
    /\ map DeviceInfo.id devices
       = lineIds (listingLines
                    (str "List of devices attached" ++ newline
                     :: str "192.168.1.12:5555	device" ++ newline
                     :: str "R58M12345	device" ++ [newline; newline]))
    /\ (NoDup (map DeviceInfo.id devices)
        <-> NoDup (lineIds (listingLines
                    (str "List of devices attached" ++ newline
                     :: str "192.168.1.12:5555	device" ++ newline
                     :: str "R58M12345	device" ++ [newline; newline])))).
Proof.
  apply (listing_identifiers_are_first_tokens homeNetwork freshMachine).
  reflexivity.
Defined.

Example homeNetwork_listing_ids :
  lineIds (listingLines
             (str "List of devices attached" ++ newline
              :: str "192.168.1.12:5555	device" ++ newline
              :: str "R58M12345	device" ++ [newline; newline]))
  = [str "192.168.1.12:5555"; str "R58M12345"].
Proof. reflexivity. Qed.

(** ** enable-wireless *)

(** C6.  When enable-wireless reaches the query for the device's Wi-Fi
    address (the device is listed and not wireless, its version is read)
    and the answer is empty after trimming, on either branch: the command
    prints the Wi-Fi error, returns false, starts no [adb tcpip], and
    leaves the config object and the config file as they were. *)
Theorem empty_wifi_address_is_reported
    w m deviceId devices m1 device version wifiIp :
  getConnectedDevices w m = (Returned devices, m1) ->
  find (fun d => jeqb (DeviceInfo.id d) deviceId) devices = Some device ->
  truthy (DeviceInfo.wireless device) = false ->
  execResult w (clock m1) (versionCmd deviceId) = Fulfilled version ->
  execResult w (S (clock m1)) (wifiQuery deviceId version) = Fulfilled wifiIp ->
  trim wifiIp = [] ->
  exists m',
    enableWirelessDebugging w deviceId m = (Returned false, m')
    /\ console m' = console m1 ++ [branchLine version; ConsoleError wifiNotEnabled]
    /\ log m' = log m1 ++ [versionCmd deviceId; wifiQuery deviceId version]
    /\ config m' = config m
    /\ knownDevicesList (config m') = knownDevicesList (config m)
    /\ configFile m' = configFile m.
Proof.
  intros Hdev Hfind Hwl Hver Hwifi Hempty.
  destruct (getConnectedDevices_returns w m) as (ds & m1' & E & Hc & Hf & _).
  rewrite Hdev in E. injection E as <- <-.
  unfold enableWirelessDebugging, tryCatch, bind.
  rewrite Hdev, Hfind, Hwl.
  unfold execPromise at 1. fold (versionCmd deviceId). rewrite Hver.
  unfold wifiQuery, branchLine in *.
  destruct (atLeast11 (parseInt (hd [] (split dot (trim version)))));
    unfold consoleLog, switchToTcp, bind, execPromise; simpl;
    rewrite Hwifi, Hempty; unfold consoleError, ret; simpl;
    eexists; (split; [reflexivity|]); simpl;
    rewrite <- !app_assoc; simpl; rewrite Hc, Hf; auto.
Qed.

Lemma empty_wifi_address_is_reported_usb :
  exists m',
    enableWirelessDebugging wifiOff (str "R58M12345") usedMachine
    = (Returned false, m')
    /\ console m'
       = console (snd (getConnectedDevices wifiOff usedMachine))
         ++ [branchLine (str "11" ++ [newline]); ConsoleError wifiNotEnabled]
    /\ log m'
       = log (snd (getConnectedDevices wifiOff usedMachine))
         ++ [versionCmd (str "R58M12345");
             wifiQuery (str "R58M12345") (str "11" ++ [newline])]
    /\ config m' = oneKnownDevice
    /\ knownDevicesList (config m') = knownDevicesList oneKnownDevice
    /\ configFile m' = configFile usedMachine.
Proof.
  apply (empty_wifi_address_is_reported wifiOff usedMachine (str "R58M12345")
           (match fst (getConnectedDevices wifiOff usedMachine) with
            | Returned devices => devices
            | Thrown => []
            end)
           (snd (getConnectedDevices wifiOff usedMachine))
           (DeviceInfo.mk (str "R58M12345") (str "device") (Some (str "Pixel"))
              (Some (str "11")) (Some (str "Pixel")) (Some false))
           (str "11" ++ [newline]) [newline]);
    vm_compute; reflexivity.
Defined.

Example wifiOff_console :
  console (snd (enableWirelessDebugging wifiOff (str "R58M12345") usedMachine))
  = [ConsoleLog (str "Using Android 11+ wireless debugging...");
     ConsoleError wifiNotEnabled].
Proof. vm_compute. reflexivity. Qed.

(** ** The preference store *)

(** C8.  When the preference file is absent, or present with a text that
    [JSON.parse] rejects, loading returns (it does not throw) the empty
    config, whose known-devices list is empty; it prints nothing in the
    first case and the load error in the second, and leaves the file as
    it is. *)
Theorem load_absent_or_malformed m :
  configFile m = FileAbsent
  \/ (exists text, configFile m = FileText text /\ JSONparse text = None) ->
  exists m',
    loadConfig m = (Returned (Typed emptyConfig), m')
    /\ knownDevicesList emptyConfig = []
    /\ configFile m' = configFile m
    /\ config m' = config m
    /\ console m'
       = console m ++ match configFile m with
                      | FileAbsent => []
                      | _ => [loadError]
                      end.
Proof.
  intros [H | (text & H & Hp)];
    unfold loadConfig, tryCatch, bind, existsSync, readFileSync;
    rewrite H; cbv beta iota.
  - exists m. rewrite app_nil_r. auto.
  - rewrite H, Hp. unfold throw, consoleError, ret; cbv beta iota.
    eexists; split; [reflexivity|]. simpl. auto.
Qed.

Lemma load_absent_or_malformed_examples :
  (exists m', loadConfig freshMachine = (Returned (Typed emptyConfig), m')
              /\ knownDevicesList emptyConfig = []
              /\ configFile m' = FileAbsent
              /\ config m' = emptyConfig
              /\ console m' = [])
  /\ (exists m',
        loadConfig (withConfigFile (FileText truncatedFile) freshMachine)
        = (Returned (Typed emptyConfig), m')
        /\ knownDevicesList emptyConfig = []
        /\ configFile m' = FileText truncatedFile
        /\ config m' = emptyConfig
        /\ console m' = [loadError]).
Proof.
  split.
  - apply (load_absent_or_malformed freshMachine). left; reflexivity.
  - apply (load_absent_or_malformed
             (withConfigFile (FileText truncatedFile) freshMachine)).
    right. exists truncatedFile. split; [reflexivity | vm_compute; reflexivity].
Defined.

(** An unreadable file is caught in the same way. *)
Lemma load_unreadable m :
  configFile m = FileUnreadable ->
  loadConfig m = (Returned (Typed emptyConfig), printed loadError m).
Proof.
  intros H. unfold loadConfig, tryCatch, bind, existsSync, readFileSync.
  rewrite H. cbv beta iota. rewrite H. reflexivity.
Qed.

Example JSONparse_rejects :
  JSONparse (str "") = None
  /\ JSONparse (str "{knownDevices: []}") = None
  /\ JSONparse (str "[1, 2,]") = None
  /\ JSONparse (str "[01]") = None
  /\ JSONparse (str "nul") = None
  /\ JSONparse (str "-") = None
  /\ JSONparse (str "1.") = None
  /\ JSONparse (str "1.e5") = None
  /\ JSONparse (str "1e+") = None
  /\ JSONparse (str ".5") = None
  /\ JSONparse (str "+1") = None
  /\ JSONparse (str "{} x") = None.
Proof. vm_compute. repeat split. Qed.

Example JSONparse_accepts :
  JSONparse (str " [1, -0.5e+3, true, null, {}, [ ], 10.25E7, 0e-1, -0] ")
  = Some (JArr [JNum (str "1"); JNum (str "-0.5e+3"); JBool true; JNull;
                JObj []; JArr []; JNum (str "10.25E7"); JNum (str "0e-1");
                JNum (str "-0")]).
Proof. vm_compute. reflexivity. Qed.

(** Of a key written twice the last value is kept, in the place of the
    first. *)
Example JSONparse_repeated_key :
  JSONparse repeatedKey = Some (JObj [(str "knownDevices", JArr [])])
  /\ JSONparse (str "{ " ++ quoteJSONString (str "b") ++ str ": 1, "
                ++ quoteJSONString (str "a") ++ str ": [{}], "
                ++ quoteJSONString (str "b") ++ str ": {"
                ++ quoteJSONString (str "c") ++ str ": 2, "
                ++ quoteJSONString (str "c") ++ str ": 3} }")
     = Some (JObj [(str "b", JObj [(str "c", JNum (str "3"))]);
                   (str "a", JArr [JObj []])])
  /\ loadConfig (withConfigFile (FileText repeatedKey) freshMachine)
     = (Returned (Typed {| knownDevices := Some [] |}),
        withConfigFile (FileText repeatedKey) freshMachine).
Proof. vm_compute. repeat split. Qed.

(** ** JSON: strings survive [stringify] then [parse] *)

Lemma hexValue_hexDigit n : (n < 16)%N -> hexValue (hexDigit n) = Some n.
Proof.
  intros H. rewrite <- (N2Nat.id n) in *.
  generalize dependent (N.to_nat n); clear n; intros k H.
  assert (Hk : k < 16) by lia. clear H.
  do 16 (destruct k as [|k]; [reflexivity|]). lia.
Qed.

Lemma hexDigit_ascii n : (n < 16)%N -> (hexDigit n < 128)%N.
Proof. unfold hexDigit. destruct (n <? 10)%N eqn:E; lia. Qed.

Lemma hex_digits_value c :
  (c < 65536)%N ->
  ((c / 4096) mod 16 * 4096 + (c / 256) mod 16 * 256
   + (c / 16) mod 16 * 16 + c mod 16 = c)%N.
Proof.
  intros H.
  assert (D2 : (c / 256 = c / 16 / 16)%N)
    by (rewrite N.Div0.div_div; reflexivity).
  assert (D3 : (c / 4096 = c / 256 / 16)%N)
    by (rewrite N.Div0.div_div; reflexivity).
  pose proof (N.div_mod c 16 ltac:(lia)) as E1.
  pose proof (N.div_mod (c / 16) 16 ltac:(lia)) as E2.
  pose proof (N.div_mod (c / 256) 16 ltac:(lia)) as E3.
  rewrite <- D2 in E2. rewrite <- D3 in E3.
  assert (E4 : (c / 4096 < 16)%N)
    by (apply N.Div0.div_lt_upper_bound; simpl; lia).
  rewrite (N.mod_small (c / 4096) 16) by exact E4.
  lia.
Qed.

Lemma parseChars_unicodeEscape c t :
  (c < 65536)%N ->
  parseChars (unicodeEscape c ++ t) = consChar c (parseChars t).
Proof.
  intros H. unfold unicodeEscape.
  cbn [app parseChars]. cbn [N.eqb backslash quote Pos.eqb].
  assert (B : forall x, (x mod 16 < 16)%N) by (intros; apply N.mod_lt; lia).
  rewrite !hexValue_hexDigit by apply B.
  rewrite hex_digits_value by exact H. reflexivity.
Qed.

Lemma utf8Text_plain c t :
  isHighSurrogate c = false -> isLowSurrogate c = false ->
  utf8Text (c :: t) = c :: utf8Text t.
Proof. intros H L. cbn [utf8Text]. rewrite H, L. reflexivity. Qed.

Lemma below_surrogates c :
  (c < 55296)%N -> isHighSurrogate c = false /\ isLowSurrogate c = false.
Proof.
  intros H. unfold isHighSurrogate, isLowSurrogate.
  destruct (N.leb_spec 55296 c), (N.leb_spec 56320 c); simpl; auto; lia.
Qed.

Lemma utf8Text_low_prefix a t :
  Forall (fun c => (c < 55296)%N) a -> utf8Text (a ++ t) = a ++ utf8Text t.
Proof.
  induction 1 as [|c a Hc _ IH]; [reflexivity|].
  destruct (below_surrogates c Hc) as [H L].
  cbn [app]. rewrite utf8Text_plain, IH by assumption. reflexivity.
Qed.

Lemma Emits_unicodeEscape c : (c < 65536)%N -> Emits [c] (unicodeEscape c).
Proof.
  intros H. split; intros t.
  - apply parseChars_unicodeEscape; exact H.
  - apply utf8Text_low_prefix. unfold unicodeEscape.
    assert (B : forall x, (hexDigit (x mod 16) < 55296)%N).
    { intros x. pose proof (hexDigit_ascii (x mod 16)) as A.
      assert ((x mod 16 < 16)%N) by (apply N.mod_lt; lia). lia. }
    repeat constructor; try apply B; unfold backslash; lia.
Qed.

Lemma Emits_short c e :
  In (c, e) [(34, 34); (92, 92); (8, 98); (12, 102); (10, 110); (13, 114);
             (9, 116)]%N ->
  Emits [c] [backslash; e].
Proof.
  intros H. simpl in H.
  repeat (destruct H as [H|H]; [injection H as <- <-; split; intros t; reflexivity|]).
  destruct H.
Qed.

Lemma Emits_raw c :
  c <> quote -> c <> backslash -> (32 <= c)%N ->
  isHighSurrogate c = false -> isLowSurrogate c = false ->
  Emits [c] [c].
Proof.
  intros Hq Hb Hc H L. split; intros t.
  - cbn [app parseChars prependChars fold_right].
    apply N.eqb_neq in Hq, Hb. rewrite Hq, Hb.
    apply N.ltb_ge in Hc. rewrite Hc. reflexivity.
  - cbn [app]. apply utf8Text_plain; assumption.
Qed.

Lemma surrogate_is_raw c :
  isHighSurrogate c = true \/ isLowSurrogate c = true ->
  N.eqb c quote = false /\ N.eqb c backslash = false /\ N.ltb c 32 = false.
Proof.
  unfold isHighSurrogate, isLowSurrogate, quote, backslash.
  intros [H|H]; apply andb_true_iff in H as [H _]; apply N.leb_le in H;
    (split; [apply N.eqb_neq; lia | split; [apply N.eqb_neq; lia|]]);
    apply N.ltb_ge; lia.
Qed.

Lemma Emits_pair c d :
  isHighSurrogate c = true -> isLowSurrogate d = true -> Emits [c; d] [c; d].
Proof.
  intros H L. split; intros t.
  - destruct (surrogate_is_raw c (or_introl H)) as (A1 & A2 & A3).
    destruct (surrogate_is_raw d (or_intror L)) as (B1 & B2 & B3).
    cbn [app parseChars prependChars fold_right].
    rewrite A1, A2, A3, B1, B2, B3. reflexivity.
  - cbn [app utf8Text]. rewrite H, L. reflexivity.
Qed.

(** One step of [quoteChars]: it consumes one code unit, or a surrogate
    pair, and writes a piece from which they are read back. *)
Lemma quoteChars_step c r :
  exists u X r', c :: r = u ++ r' /\ u <> []
                 /\ quoteChars (c :: r) = X ++ quoteChars r' /\ Emits u X.
Proof.
  remember (quoteChars (c :: r)) as out eqn:Eout.
  assert (Single : forall X, out = X ++ quoteChars r -> Emits [c] X ->
            exists u X r', c :: r = u ++ r' /\ u <> []
                           /\ out = X ++ quoteChars r' /\ Emits u X).
  { intros X Hq He. exists [c], X, r.
    split; [reflexivity | split; [discriminate | split; assumption]]. }
  assert (Short : forall e,
            In (c, e) [(34, 34); (92, 92); (8, 98); (12, 102); (10, 110);
                       (13, 114); (9, 116)]%N ->
            out = backslash :: e :: quoteChars r ->
            exists u X r', c :: r = u ++ r' /\ u <> []
                           /\ out = X ++ quoteChars r' /\ Emits u X).
  { intros e He Hq. apply (Single [backslash; e]);
      [exact Hq | apply Emits_short; exact He]. }
  cbn [quoteChars] in Eout.
  destruct (N.eqb_spec c quote) as [->|Hq];
    [apply (Short 34%N); simpl; auto 10|].
  destruct (N.eqb_spec c backslash) as [->|Hb];
    [apply (Short 92%N); simpl; auto 10|].
  destruct (N.eqb_spec c 8) as [->|H8];
    [apply (Short 98%N); simpl; auto 10|].
  destruct (N.eqb_spec c 12) as [->|H12];
    [apply (Short 102%N); simpl; auto 10|].
  destruct (N.eqb_spec c 10) as [->|H10];
    [apply (Short 110%N); simpl; auto 10|].
  destruct (N.eqb_spec c 13) as [->|H13];
    [apply (Short 114%N); simpl; auto 10|].
  destruct (N.eqb_spec c 9) as [->|H9];
    [apply (Short 116%N); simpl; auto 10|].
  destruct (N.ltb_spec c 32) as [H32|H32];
    [apply (Single (unicodeEscape c));
       [exact Eout | apply Emits_unicodeEscape; lia]|].
  assert (Hsur : isHighSurrogate c = true \/ isLowSurrogate c = true
                 -> (c < 65536)%N).
  { unfold isHighSurrogate, isLowSurrogate.
    intros [H|H]; apply andb_true_iff in H as [_ H]; apply N.leb_le in H; lia. }
  destruct (isHighSurrogate c) eqn:Hh.
  - destruct r as [|d r'].
    + apply (Single (unicodeEscape c));
        [rewrite app_nil_r; exact Eout | apply Emits_unicodeEscape; auto].
    + destruct (isLowSurrogate d) eqn:Hl.
      * exists [c; d], [c; d], r'.
        split; [reflexivity | split; [discriminate | split; [exact Eout|]]].
        apply Emits_pair; assumption.
      * apply (Single (unicodeEscape c));
          [exact Eout | apply Emits_unicodeEscape; auto].
  - destruct (isLowSurrogate c) eqn:Hl.
    + apply (Single (unicodeEscape c));
        [exact Eout | apply Emits_unicodeEscape; auto].
    + apply (Single [c]); [exact Eout | apply Emits_raw; auto].
Qed.

Lemma prependChars_Some u body rest :
  prependChars u (Some (body, rest)) = Some (u ++ body, rest).
Proof.
  unfold prependChars.
  induction u as [|c u IH]; [reflexivity|].
  cbn [fold_right app]. rewrite IH. reflexivity.
Qed.

(** A quoted string is read back, up to its closing quote. *)
Lemma parseChars_quoteChars s : forall rest,
  parseChars (quoteChars s ++ quote :: rest) = Some (s, rest).
Proof.
  remember (length s) as n eqn:Hn. revert s Hn.
  induction n as [n IH] using lt_wf_ind. intros [|c r] Hn rest.
  - reflexivity.
  - destruct (quoteChars_step c r) as (u & X & r' & E & Hu & Hq & [Hp _]).
    rewrite Hq, <- app_assoc, Hp.
    rewrite (IH (length r')) with (s := r'); [| | reflexivity].
    + rewrite prependChars_Some, <- E. reflexivity.
    + rewrite Hn, E, length_app. destruct u; [contradiction | simpl; lia].
Qed.

(** A quoted string holds no surrogate without its partner. *)
Lemma utf8Text_quoteChars s : forall t,
  utf8Text (quoteChars s ++ t) = quoteChars s ++ utf8Text t.
Proof.
  remember (length s) as n eqn:Hn. revert s Hn.
  induction n as [n IH] using lt_wf_ind. intros [|c r] Hn t.
  - reflexivity.
  - destruct (quoteChars_step c r) as (u & X & r' & E & Hu & Hq & [_ Hp]).
    rewrite Hq, <- !app_assoc, Hp.
    rewrite (IH (length r')) with (s := r'); [reflexivity | | reflexivity].
    rewrite Hn, E, length_app. destruct u; [contradiction | simpl; lia].
Qed.

Example quoteChars_sample :
  quoteChars [34; 92; 10; 1; 55357; 56832; 55357; 65; 56832; 233]%N
  = [92; 34; 92; 92; 92; 110; 92; 117; 48; 48; 48; 49; 55357; 56832;
     92; 117; 100; 56; 51; 100; 65; 92; 117; 100; 101; 48; 48; 233]%N.
Proof. reflexivity. Qed.

(** ** JSON: the text of a config parses back to the config *)

Lemma dropWhile_spaces ws c t :
  spaces ws -> isJSONSpace c = false ->
  dropWhile isJSONSpace (ws ++ c :: t) = c :: t.
Proof.
  intros H Hc. induction H as [|x ws Hx _ IH]; simpl.
  - rewrite Hc; reflexivity.
  - rewrite Hx; exact IH.
Qed.

Lemma dropWhile_nonspace c t :
  isJSONSpace c = false -> dropWhile isJSONSpace (c :: t) = c :: t.
Proof. intros H. simpl. rewrite H. reflexivity. Qed.

Lemma spaces_app a b : spaces a -> spaces b -> spaces (a ++ b).
Proof. intros; apply Forall_app; auto. Qed.

Lemma spaces_cons c ws : isJSONSpace c = true -> spaces ws -> spaces (c :: ws).
Proof. intros; constructor; auto. Qed.

Lemma spaces_low ws : spaces ws -> Forall (fun c => (c < 55296)%N) ws.
Proof.
  apply Forall_impl. intros c H. unfold isJSONSpace in H.
  repeat (apply orb_true_iff in H as [H|H]); apply N.eqb_eq in H; lia.
Qed.

Lemma parseValue_eq fuel s :
  parseValue (S fuel) s =
    match dropWhile isJSONSpace s with
    | [] => None
    | c :: r =>
      if N.eqb c quote then
        match parseChars r with
        | Some (body, rest) => Some (JStr body, rest)
        | None => None
        end
      else if N.eqb c 91 then
        if startsWith (dropWhile isJSONSpace r) [93%N]
        then Some (JArr [], tl (dropWhile isJSONSpace r))
        else match parseElements fuel r with
             | Some (elements, rest) => Some (JArr elements, rest)
             | None => None
             end
      else if N.eqb c 123 then
        if startsWith (dropWhile isJSONSpace r) [125%N]
        then Some (JObj [], tl (dropWhile isJSONSpace r))
        else match parseMembers fuel r with
             | Some (members, rest) => Some (JObj members, rest)
             | None => None
             end
      else if startsWith (c :: r) (str "true")
        then Some (JBool true, skipn 4 (c :: r))
      else if startsWith (c :: r) (str "false")
        then Some (JBool false, skipn 5 (c :: r))
      else if startsWith (c :: r) (str "null")
        then Some (JNull, skipn 4 (c :: r))
      else match parseNumber (c :: r) with
           | Some (literal, rest) => Some (JNum literal, rest)
           | None => None
           end
    end.
Proof. reflexivity. Qed.

Lemma parseElements_eq fuel s :
  parseElements (S fuel) s =
    match parseValue fuel s with
    | None => None
    | Some (v, rest) =>
      match dropWhile isJSONSpace rest with
      | c :: rest' =>
          if N.eqb c 44 then
            match parseElements fuel rest' with
            | Some (vs, rest'') => Some (v :: vs, rest'')
            | None => None
            end
          else if N.eqb c 93 then Some ([v], rest')
          else None
      | [] => None
      end
    end.
Proof. reflexivity. Qed.

Lemma parseMembers_eq fuel s :
  parseMembers (S fuel) s =
    if negb (startsWith (dropWhile isJSONSpace s) [quote]) then None else
    match parseChars (tl (dropWhile isJSONSpace s)) with
    | None => None
    | Some (key, rest) =>
      if negb (startsWith (dropWhile isJSONSpace rest) [58%N]) then None else
      match parseValue fuel (tl (dropWhile isJSONSpace rest)) with
      | None => None
      | Some (v, rest2) =>
        match dropWhile isJSONSpace rest2 with
        | c :: rest3 =>
            if N.eqb c 44 then
              match parseMembers fuel rest3 with
              | Some (ms, rest4) => Some ((key, v) :: ms, rest4)
              | None => None
              end
            else if N.eqb c 125 then Some ([(key, v)], rest3)
            else None
        | [] => None
        end
      end
    end.
Proof. reflexivity. Qed.

(** A quoted string as a value, after any white space. *)
Lemma parseValue_string fuel ws s rest :
  spaces ws ->
  parseValue (S fuel) (ws ++ quote :: quoteChars s ++ quote :: rest)
  = Some (JStr s, rest).
Proof.
  intros H. rewrite parseValue_eq, dropWhile_spaces by (auto; reflexivity).
  rewrite N.eqb_refl, parseChars_quoteChars. reflexivity.
Qed.

Lemma parseMembers_member fuel ws key vtext v k :
  spaces ws ->
  parseValue fuel (32%N :: vtext) = Some (v, k) ->
  parseMembers (S fuel) (ws ++ memberText key vtext)
  = match dropWhile isJSONSpace k with
    | c :: rest3 =>
        if N.eqb c 44 then
          match parseMembers fuel rest3 with
          | Some (ms, rest4) => Some ((key, v) :: ms, rest4)
          | None => None
          end
        else if N.eqb c 125 then Some ([(key, v)], rest3)
        else None
    | [] => None
    end.
Proof.
  intros H Hv. rewrite parseMembers_eq. unfold memberText.
  rewrite dropWhile_spaces by (auto; reflexivity).
  cbn [startsWith negb tl]. rewrite N.eqb_refl. cbn [andb negb].
  rewrite parseChars_quoteChars.
  rewrite dropWhile_nonspace by reflexivity.
  cbn [startsWith negb tl N.eqb Pos.eqb andb].
  rewrite Hv. reflexivity.
Qed.

Lemma parseValue_stringText fuel ws val k :
  spaces ws ->
  parseValue (S fuel) (ws ++ stringText val k) = Some (JStr val, k).
Proof. apply parseValue_string. Qed.

Lemma parseValue_object fuel ws r ms rest :
  spaces ws ->
  startsWith (dropWhile isJSONSpace r) [125%N] = false ->
  parseMembers fuel r = Some (ms, rest) ->
  parseValue (S fuel) (ws ++ 123%N :: r) = Some (JObj ms, rest).
Proof.
  intros H Hn Hm. rewrite parseValue_eq, dropWhile_spaces by (auto; reflexivity).
  change (N.eqb 123 quote) with false. change (N.eqb 123 91) with false.
  change (N.eqb 123 123) with true. cbv match beta.
  rewrite Hn, Hm. reflexivity.
Qed.

Lemma parseValue_array fuel ws r els rest :
  spaces ws ->
  startsWith (dropWhile isJSONSpace r) [93%N] = false ->
  parseElements fuel r = Some (els, rest) ->
  parseValue (S fuel) (ws ++ 91%N :: r) = Some (JArr els, rest).
Proof.
  intros H Hn Hm. rewrite parseValue_eq, dropWhile_spaces by (auto; reflexivity).
  change (N.eqb 91 quote) with false. change (N.eqb 91 91) with true.
  cbv match beta.
  rewrite Hn, Hm. reflexivity.
Qed.

Lemma parseValue_empty_array fuel ws k :
  spaces ws ->
  parseValue (S fuel) (ws ++ 91%N :: 93%N :: k) = Some (JArr [], k).
Proof.
  intros H. rewrite parseValue_eq, dropWhile_spaces by (auto; reflexivity).
  reflexivity.
Qed.

Lemma parseValue_empty_object fuel ws k :
  spaces ws ->
  parseValue (S fuel) (ws ++ 123%N :: 125%N :: k) = Some (JObj [], k).
Proof.
  intros H. rewrite parseValue_eq, dropWhile_spaces by (auto; reflexivity).
  reflexivity.
Qed.

Lemma stringify_record ind d k :
  stringify ind (knownDeviceJSON d) ++ k = recordText ind d k.
Proof.
  unfold knownDeviceJSON, recordText, memberText, stringText, lineBreak.
  cbn [stringify map join fst snd]. unfold quoteJSONString.
  change (str "{") with [123%N]. change (str "}") with [125%N].
  change (str ",") with [44%N]. change (str ": ") with [58%N; 32%N].
  flatten. reflexivity.
Qed.

Lemma spaces_lineBreak ind : spaces ind -> spaces (lineBreak ind).
Proof. intros H. apply spaces_cons; [reflexivity | exact H]. Qed.

Lemma spaces_deeper ind : spaces ind -> spaces (ind ++ str "  ").
Proof. intros H. apply spaces_app; [exact H | repeat constructor]. Qed.

Lemma parseMembers_string fuel ws key val k :
  spaces ws ->
  parseMembers (S (S fuel)) (ws ++ memberText key (stringText val k))
  = match dropWhile isJSONSpace k with
    | c :: rest3 =>
        if N.eqb c 44 then
          match parseMembers (S fuel) rest3 with
          | Some (ms, rest4) => Some ((key, JStr val) :: ms, rest4)
          | None => None
          end
        else if N.eqb c 125 then Some ([(key, JStr val)], rest3)
        else None
    | [] => None
    end.
Proof.
  intros H. apply parseMembers_member; [exact H|].
  apply (parseValue_stringText fuel [32%N]).
  apply spaces_cons; [reflexivity | constructor].
Qed.

Lemma parseValue_record fuel ws ind d k :
  spaces ws -> spaces ind ->
  parseValue (6 + fuel) (ws ++ recordText ind d k)
  = Some (knownDeviceJSON d, k).
Proof.
  intros Hws Hind.
  pose proof (spaces_lineBreak _ (spaces_deeper ind Hind)) as Hin.
  change (6 + fuel) with (S (S (S (S (S (S fuel)))))).
  unfold recordText.
  apply parseValue_object; [exact Hws | |].
  - unfold memberText at 1.
    rewrite dropWhile_spaces by (auto; reflexivity). reflexivity.
  - do 3 (rewrite parseMembers_string by exact Hin;
          rewrite dropWhile_nonspace by reflexivity;
          change (N.eqb 44 44) with true; cbv match beta).
    rewrite parseMembers_string by exact Hin.
    rewrite dropWhile_spaces
      by (try reflexivity; apply spaces_lineBreak; exact Hind).
    reflexivity.
Qed.

Lemma join_cons sep p ps :
  join sep (p :: ps) = p ++ concat (map (app sep) ps).
Proof.
  revert p; induction ps as [|q ps IH]; intros p.
  - simpl. rewrite app_nil_r. reflexivity.
  - change (join sep (p :: q :: ps)) with (p ++ sep ++ join sep (q :: ps)).
    rewrite IH. simpl. rewrite <- app_assoc. reflexivity.
Qed.

Lemma more_records ind l k :
  concat (map (app (str "," ++ newline :: ind))
            (map (stringify ind) (map knownDeviceJSON l))) ++ k
  = moreText ind l k.
Proof.
  induction l as [|d l IH]; [reflexivity|].
  cbn [map concat moreText]. rewrite <- !app_assoc, IH, stringify_record.
  reflexivity.
Qed.

Lemma parseElements_more ind ind0 l : forall fuel ws d k,
  spaces ws -> spaces ind -> spaces ind0 ->
  parseElements (7 + length l + fuel)
    (ws ++ recordText ind d (moreText ind l (lineBreak ind0 ++ 93%N :: k)))
  = Some (map knownDeviceJSON (d :: l), k).
Proof.
  induction l as [|d' l IH]; intros fuel ws d k Hws Hind Hind0.
  - change (7 + length (@nil KnownDevice.t) + fuel) with (S (6 + fuel)).
    rewrite parseElements_eq, parseValue_record by assumption.
    cbn [moreText].
    rewrite dropWhile_spaces
      by (try reflexivity; apply spaces_lineBreak; exact Hind0).
    reflexivity.
  - change (7 + length (d' :: l) + fuel) with (S (7 + length l + fuel)).
    rewrite parseElements_eq.
    replace (7 + length l + fuel) with (6 + (1 + length l + fuel)) at 1 by lia.
    rewrite parseValue_record by assumption.
    cbn [moreText]. rewrite dropWhile_nonspace by reflexivity.
    change (N.eqb 44 44) with true. cbv match beta.
    rewrite IH by (auto using spaces_lineBreak). reflexivity.
Qed.

Lemma stringify_array ind l k :
  stringify ind (JArr (map knownDeviceJSON l)) ++ k = arrayText ind l k.
Proof.
  destruct l as [|d l]; [reflexivity|].
  cbn [map stringify arrayText]. rewrite join_cons.
  change (str "[") with [91%N]. change (str "]") with [93%N].
  unfold lineBreak. flatten.
  rewrite <- more_records, <- stringify_record. flatten. reflexivity.
Qed.

Lemma parseValue_records fuel ws ind l k :
  spaces ws -> spaces ind ->
  parseValue (8 + length l + fuel) (ws ++ arrayText ind l k)
  = Some (JArr (map knownDeviceJSON l), k).
Proof.
  intros Hws Hind. destruct l as [|d l].
  - apply parseValue_empty_array; exact Hws.
  - replace (8 + length (d :: l) + fuel) with (S (7 + length l + (1 + fuel)))
      by (simpl; lia).
    unfold arrayText. apply parseValue_array; [exact Hws | |].
    + unfold recordText.
      rewrite dropWhile_spaces
        by (try reflexivity; auto using spaces_lineBreak, spaces_deeper).
      reflexivity.
    + apply parseElements_more;
        auto using spaces_lineBreak, spaces_deeper.
Qed.

Lemma stringify_single_member ind key v :
  stringify ind (JObj [(key, v)])
  = [123%N] ++ newline :: (ind ++ str "  ")
    ++ (quoteJSONString key ++ [58%N; 32%N] ++ stringify (ind ++ str "  ") v)
    ++ newline :: ind ++ [125%N].
Proof. reflexivity. Qed.

Lemma stringify_config c : stringify [] (configJSON c) = configText c.
Proof.
  unfold configJSON, configText. destruct (knownDevices c) as [l|].
  - rewrite stringify_single_member, <- stringify_array.
    unfold quoteJSONString, memberText, lineBreak.
    flatten. reflexivity.
  - reflexivity.
Qed.

Lemma parseValue_config fuel c :
  parseValue (10 + length (knownDevicesList c) + fuel) (configText c)
  = Some (configJSON c, []).
Proof.
  unfold configText, configJSON, knownDevicesList.
  destruct (knownDevices c) as [l|]; [| reflexivity].
  change (10 + length l + fuel) with (S (S (8 + length l + fuel))).
  apply (parseValue_object _ []); [constructor | reflexivity |].
  rewrite parseMembers_member
    with (v := JArr (map knownDeviceJSON l)) (k := lineBreak [] ++ [125%N]).
  - reflexivity.
  - apply spaces_lineBreak. repeat constructor.
  - apply (parseValue_records fuel [32%N]); repeat constructor.
Qed.

Lemma stringify_object_head ind m ms :
  exists t, stringify ind (JObj (m :: ms)) = 123%N :: t.
Proof. eexists; reflexivity. Qed.

Lemma length_cons_S {A} (x : A) (l : list A) : length (x :: l) = S (length l).
Proof. reflexivity. Qed.

Lemma recordText_length ind d k : length k < length (recordText ind d k).
Proof.
  rewrite <- stringify_record, length_app.
  destruct (stringify_object_head ind (str "id", JStr (KnownDevice.id d))
              [(str "ip", JStr (KnownDevice.ip d));
               (str "model", JStr (KnownDevice.model d));
               (str "lastConnected", JStr (KnownDevice.lastConnected d))])
    as [t E].
  unfold knownDeviceJSON. rewrite E, length_cons_S. lia.
Qed.

Lemma moreText_length ind l k : length l + length k <= length (moreText ind l k).
Proof.
  induction l as [|d l IH]; [simpl; lia|].
  change (moreText ind (d :: l) k)
    with (44%N :: lineBreak ind ++ recordText ind d (moreText ind l k)).
  rewrite !length_cons_S, length_app.
  pose proof (recordText_length ind d (moreText ind l k)). lia.
Qed.

Lemma arrayText_length ind l k :
  length l + length k + 2 <= length (arrayText ind l k).
Proof.
  destruct l as [|d l].
  - unfold arrayText. rewrite !length_cons_S. simpl. lia.
  - unfold arrayText. rewrite !length_cons_S, length_app.
    pose proof (recordText_length (ind ++ str "  ") d
                  (moreText (ind ++ str "  ") l (lineBreak ind ++ 93%N :: k))).
    pose proof (moreText_length (ind ++ str "  ") l
                  (lineBreak ind ++ 93%N :: k)) as M.
    rewrite length_app, length_cons_S in M. lia.
Qed.

Lemma configText_length l :
  length l + 4 <= length (configText {| knownDevices := Some l |}).
Proof.
  unfold configText, knownDevices, memberText.
  rewrite !length_cons_S, !length_app, !length_cons_S, !length_app,
    !length_cons_S.
  pose proof (arrayText_length (str "  ") l (lineBreak [] ++ [125%N])).  lia.
Qed.

(** What the program writes has no key twice. *)
Lemma valueOf_knownDeviceJSON d : valueOf (knownDeviceJSON d) = knownDeviceJSON d.
Proof. reflexivity. Qed.

Lemma valueOf_configJSON c : valueOf (configJSON c) = configJSON c.
Proof.
  destruct c as [[l|]]; [| reflexivity].
  unfold configJSON; cbn [knownDevices valueOf defineProperty].
  rewrite map_map. do 3 f_equal.
Qed.

(** [JSON.parse] of what [JSON.stringify] wrote is the config object. *)
Lemma JSONparse_stringify c :
  JSONparse (stringify [] (configJSON c)) = Some (configJSON c).
Proof.
  rewrite stringify_config. unfold JSONparse.
  destruct c as [[l|]]; [| reflexivity].
  pose proof (configText_length l) as H.
  change l with (knownDevicesList {| knownDevices := Some l |}) in H at 1.
  replace (2 * length (configText {| knownDevices := Some l |}) + 2)
    with (10 + length (knownDevicesList {| knownDevices := Some l |})
          + (2 * length (configText {| knownDevices := Some l |}) + 2 - 10
             - length (knownDevicesList {| knownDevices := Some l |})))
    by lia.
  rewrite parseValue_config. cbn [dropWhile].
  rewrite (valueOf_configJSON {| knownDevices := Some l |}). reflexivity.
Qed.

Lemma asKnownDevices_records l :
  asKnownDevices (map knownDeviceJSON l) = Some l.
Proof.
  induction l as [|d l IH]; [reflexivity|].
  cbn [map asKnownDevices]. rewrite IH. destruct d; reflexivity.
Qed.

Lemma asConfig_configJSON c : asConfig (configJSON c) = Some c.
Proof.
  destruct c as [[l|]]; [| reflexivity].
  unfold configJSON; cbn [knownDevices asConfig].
  change (jeqb (str "knownDevices") (str "knownDevices")) with true.
  cbv match beta. rewrite asKnownDevices_records. reflexivity.
Qed.

(** *** The file keeps the text as written *)

Lemma utf8Text_stringText val k :
  utf8Text (stringText val k) = stringText val (utf8Text k).
Proof.
  unfold stringText.
  rewrite utf8Text_plain, utf8Text_quoteChars, utf8Text_plain by reflexivity.
  reflexivity.
Qed.

Lemma utf8Text_memberText key vtext :
  utf8Text (memberText key vtext) = memberText key (utf8Text vtext).
Proof.
  unfold memberText.
  rewrite utf8Text_plain, utf8Text_quoteChars by reflexivity.
  rewrite !utf8Text_plain by reflexivity. reflexivity.
Qed.

Lemma utf8Text_lineBreak ind t :
  spaces ind -> utf8Text (lineBreak ind ++ t) = lineBreak ind ++ utf8Text t.
Proof.
  intros H. apply utf8Text_low_prefix, spaces_low, spaces_lineBreak, H.
Qed.

Lemma utf8Text_recordText ind d k :
  spaces ind -> utf8Text (recordText ind d k) = recordText ind d (utf8Text k).
Proof.
  intros H. pose proof (spaces_deeper ind H) as H2. unfold recordText.
  rewrite utf8Text_plain by reflexivity.
  do 3 (rewrite utf8Text_lineBreak, utf8Text_memberText, utf8Text_stringText,
          utf8Text_plain by (exact H2 || reflexivity)).
  rewrite utf8Text_lineBreak, utf8Text_memberText, utf8Text_stringText by exact H2.
  rewrite utf8Text_lineBreak, utf8Text_plain by (exact H || reflexivity).
  reflexivity.
Qed.

Lemma utf8Text_moreText ind l k :
  spaces ind -> utf8Text (moreText ind l k) = moreText ind l (utf8Text k).
Proof.
  intros H. induction l as [|d l IH]; [reflexivity|].
  change (moreText ind (d :: l) k)
    with (44%N :: lineBreak ind ++ recordText ind d (moreText ind l k)).
  rewrite utf8Text_plain, utf8Text_lineBreak, utf8Text_recordText, IH
    by (exact H || reflexivity).
  reflexivity.
Qed.

Lemma utf8Text_arrayText ind l k :
  spaces ind -> utf8Text (arrayText ind l k) = arrayText ind l (utf8Text k).
Proof.
  intros H. destruct l as [|d l]; unfold arrayText.
  - rewrite !utf8Text_plain by reflexivity. reflexivity.
  - pose proof (spaces_deeper ind H) as H2.
    rewrite utf8Text_plain, utf8Text_lineBreak, utf8Text_recordText,
      utf8Text_moreText, utf8Text_lineBreak, utf8Text_plain
      by (exact H || exact H2 || reflexivity).
    reflexivity.
Qed.

(** What [saveConfig] writes comes back from the file unchanged. *)
Lemma utf8Text_stringify c :
  utf8Text (stringify [] (configJSON c)) = stringify [] (configJSON c).
Proof.
  rewrite stringify_config. unfold configText.
  destruct (knownDevices c) as [l|]; [| reflexivity].
  assert (H : spaces (str "  ")) by (repeat constructor).
  rewrite utf8Text_plain, utf8Text_lineBreak, utf8Text_memberText,
    utf8Text_arrayText, utf8Text_lineBreak
    by (exact H || constructor || reflexivity).
  reflexivity.
Qed.

(** C7.  Saving a list of known-device records and loading it again gives
    the same records, field for field: [saveConfig] writes the text of the
    config object, and on every machine whose file holds that text,
    whatever its own [config] is, [loadConfig] reads the object back with
    [JSON.parse] and returns the records saved. *)
Theorem save_then_load_round_trip w m l :
  config m = {| knownDevices := Some l |} ->
  writeFailure w (clock m) = None ->
  exists m',
    saveConfig w m = (Returned tt, m')
    /\ config m' = config m
    /\ forall m2,
         configFile m2 = configFile m' ->
         loadConfig m2 = (Returned (Typed {| knownDevices := Some l |}), m2).
Proof.
  intros Hc Hw. unfold saveConfig. rewrite Hw.
  eexists; split; [reflexivity|]. split; [reflexivity|].
  cbn [configFile withConfigFile]. intros m2 H2.
  unfold loadConfig, tryCatch, bind, existsSync, readFileSync.
  rewrite H2. cbv match beta. rewrite H2. cbv match beta.
  rewrite utf8Text_stringify, JSONparse_stringify, asConfig_configJSON, Hc.
  reflexivity.
Qed.

(** A config object that holds no list is saved as the empty object and
    loaded as such. *)
Lemma save_then_load_any w m :
  writeFailure w (clock m) = None ->
  exists m',
    saveConfig w m = (Returned tt, m')
    /\ loadConfig m' = (Returned (Typed (config m)), m').
Proof.
  intros Hw. unfold saveConfig. rewrite Hw.
  eexists; split; [reflexivity|].
  unfold loadConfig, tryCatch, bind, existsSync, readFileSync.
  cbn [configFile withConfigFile]. cbv match beta.
  rewrite utf8Text_stringify, JSONparse_stringify, asConfig_configJSON.
  reflexivity.
Qed.

Lemma save_then_load_round_trip_two :
  exists m',
    saveConfig homeNetwork
      (withConfig {| knownDevices := Some twoKnownDevices |} freshMachine)
    = (Returned tt, m')
    /\ config m' = {| knownDevices := Some twoKnownDevices |}
    /\ forall m2,
         configFile m2 = configFile m' ->
         loadConfig m2
         = (Returned (Typed {| knownDevices := Some twoKnownDevices |}), m2).
Proof.
  apply (save_then_load_round_trip homeNetwork
           (withConfig {| knownDevices := Some twoKnownDevices |} freshMachine)
           twoKnownDevices); reflexivity.
Defined.

(** The next run of the program, which starts with the empty config in
    memory, loads the two records from the file. *)
Example next_run_loads_the_saved_records :
  loadConfig
    (withConfigFile
       (configFile
          (snd (saveConfig homeNetwork
                  (withConfig {| knownDevices := Some twoKnownDevices |}
                     freshMachine))))
       freshMachine)
  = (Returned (Typed {| knownDevices := Some twoKnownDevices |}),
     withConfigFile
       (savedText {| knownDevices := Some twoKnownDevices |}) freshMachine)
  /\ config freshMachine = emptyConfig.
Proof. vm_compute. split; reflexivity. Qed.

Example saved_text_of_one_record :
  stringify [] (configJSON oneKnownDevice)
  = str "{" ++ newline
    :: str "  " ++ quote :: str "knownDevices" ++ quote :: str ": [" ++ newline
    :: str "    {" ++ newline
    :: str "      " ++ quote :: str "id" ++ quote :: str ": " ++ quote
    :: str "emulator-5554" ++ quote :: str "," ++ newline
    :: str "      " ++ quote :: str "ip" ++ quote :: str ": " ++ quote
    :: str "10.0.0.9:5555" ++ quote :: str "," ++ newline
    :: str "      " ++ quote :: str "model" ++ quote :: str ": " ++ quote
    :: str "Pixel" ++ quote :: str "," ++ newline
    :: str "      " ++ quote :: str "lastConnected" ++ quote :: str ": "
    ++ quote :: str "2024-04-30T09:00:00.000Z" ++ quote :: newline
    :: str "    }" ++ newline
    :: str "  ]" ++ newline
    :: str "}".
Proof. vm_compute. reflexivity. Qed.

(** ** JSON: the fuel of the parser is enough *)

Lemma dropWhile_length p s : length (dropWhile p s) <= length s.
Proof.
  induction s as [|c s IH]; simpl; [lia|].
  destruct (p c); simpl; lia.
Qed.

Lemma tl_length {A} (s : list A) : length (tl s) <= length s.
Proof. destruct s; simpl; lia. Qed.

Lemma startsWith_one_length s c :
  startsWith s [c] = true -> length (tl s) < length s.
Proof. destruct s; simpl; [discriminate | lia]. Qed.

Lemma consChar_length c r b rest n :
  consChar c r = Some (b, rest) ->
  (forall b', r = Some (b', rest) -> length rest < n) -> length rest < n.
Proof.
  destruct r as [[b' rest']|]; simpl; [| discriminate].
  intros H K. injection H as E1 E2. subst rest'. apply (K b'); reflexivity.
Qed.

Lemma parseChars_length s : forall b rest,
  parseChars s = Some (b, rest) -> length rest < length s.
Proof.
  remember (length s) as n eqn:Hn. revert s Hn.
  induction n as [n IH] using lt_wf_ind. intros s Hn b rest H.
  assert (Rec : forall c t, length t < n ->
            consChar c (parseChars t) = Some (b, rest) -> length rest < n).
  { intros c t Ht Hc. apply (consChar_length _ _ _ _ _ Hc).
    intros b' E. pose proof (IH (length t) Ht t eq_refl b' rest E). lia. }
  destruct s as [|c r]; [discriminate|].
  cbn [parseChars] in H. cbv zeta in H. simpl in Hn.
  destruct (N.eqb c quote).
  { injection H as E1 E2. subst rest. lia. }
  destruct (N.eqb c backslash).
  - destruct r as [|e r']; [discriminate|]. simpl in Hn.
    repeat match type of H with
           | (if ?t then _ else _) = _ =>
               destruct t; [apply (Rec _ r' ltac:(lia) H)|]
           end.
    destruct (N.eqb e 117); [| discriminate].
    destruct r' as [|h1 [|h2 [|h3 [|h4 r'']]]]; try discriminate.
    simpl in Hn.
    destruct (hexValue h1), (hexValue h2), (hexValue h3), (hexValue h4);
      try discriminate.
    apply (Rec _ r'' ltac:(lia) H).
  - destruct (N.ltb c 32); [discriminate|].
    apply (Rec _ r ltac:(lia) H).
Qed.

Lemma Some_pair_rest {A B} (a a' : A) (b b' : B) :
  Some (a, b) = Some (a', b') -> b = b'.
Proof. congruence. Qed.

Ltac shorter :=
  repeat match goal with
         | |- length (tl ?x) <= _ => etransitivity; [apply tl_length|]
         | |- length (dropWhile _ ?x) <= _ =>
             etransitivity; [apply dropWhile_length|]
         | |- length (skipn ?n ?x) <= _ =>
             etransitivity; [rewrite length_skipn; apply Nat.le_sub_l|]
         | |- length (if ?b then _ else _) <= _ => destruct b
         end;
  try apply Nat.le_refl.

Lemma parseNumber_length s literal rest :
  parseNumber s = Some (literal, rest) -> length rest <= length s.
Proof.
  unfold parseNumber. cbv zeta.
  set (s1 := if startsWith s [45%N] then tl s else s).
  set (int := if startsWith s1 [48%N] then [48%N] else takeWhile isDigit s1).
  set (s2 := skipn (length int) s1).
  set (s3 := if startsWith s2 [46%N] then dropWhile isDigit (tl s2) else s2).
  set (s4 := if startsWith (tl s3) [43%N] || startsWith (tl s3) [45%N]
             then tl (tl s3) else tl s3).
  assert (H1 : length s1 <= length s) by (unfold s1; shorter).
  assert (H2 : length s2 <= length s1) by (unfold s2; shorter).
  assert (H3 : length s3 <= length s2) by (unfold s3; shorter).
  assert (H4 : length s4 <= length s3) by (unfold s4; shorter).
  clearbody s4. clearbody s3. clearbody s2. clearbody int. clearbody s1.
  destruct int as [|d int]; [discriminate|].
  match goal with
  | |- (if ?b then _ else _) = _ -> _ => destruct b; [discriminate|]
  end.
  match goal with
  | |- (if ?b then _ else _) = _ -> _ => destruct b; [discriminate|]
  end.
  pose proof (dropWhile_length isDigit s4) as H5.
  destruct (startsWith s3 [101%N] || startsWith s3 [69%N]);
    intros H; apply Some_pair_rest in H; subst rest; lia.
Qed.

(** What a parser returns as the rest is no longer than its input. *)
Lemma parse_length fuel :
  (forall s v rest, parseValue fuel s = Some (v, rest) ->
                    length rest <= length s)
  /\ (forall s vs rest, parseElements fuel s = Some (vs, rest) ->
                        length rest <= length s)
  /\ (forall s ms rest, parseMembers fuel s = Some (ms, rest) ->
                        length rest <= length s).
Proof.
  induction fuel as [|fuel (IHv & IHe & IHm)];
    [repeat split; intros; discriminate|].
  repeat split.
  - intros s v rest. rewrite parseValue_eq.
    pose proof (dropWhile_length isJSONSpace s) as Hs.
    destruct (dropWhile isJSONSpace s) as [|c r]; [discriminate|].
    simpl in Hs.
    destruct (N.eqb c quote).
    { destruct (parseChars r) as [[b rest']|] eqn:E; [| discriminate].
      intros H; apply Some_pair_rest in H; subst rest. apply parseChars_length in E. lia. }
    destruct (N.eqb c 91).
    { destruct (startsWith (dropWhile isJSONSpace r) [93%N]).
      - intros H; apply Some_pair_rest in H; subst rest.
        transitivity (length r); [shorter | lia].
      - destruct (parseElements fuel r) as [[els rest']|] eqn:E; [| discriminate].
        intros H; apply Some_pair_rest in H; subst rest. apply IHe in E. lia. }
    destruct (N.eqb c 123).
    { destruct (startsWith (dropWhile isJSONSpace r) [125%N]).
      - intros H; apply Some_pair_rest in H; subst rest.
        transitivity (length r); [shorter | lia].
      - destruct (parseMembers fuel r) as [[ms rest']|] eqn:E; [| discriminate].
        intros H; apply Some_pair_rest in H; subst rest. apply IHm in E. lia. }
    destruct (startsWith (c :: r) (str "true")).
    { intros H; apply Some_pair_rest in H; subst rest.
      transitivity (length (c :: r)); [shorter | simpl; lia]. }
    destruct (startsWith (c :: r) (str "false")).
    { intros H; apply Some_pair_rest in H; subst rest.
      transitivity (length (c :: r)); [shorter | simpl; lia]. }
    destruct (startsWith (c :: r) (str "null")).
    { intros H; apply Some_pair_rest in H; subst rest.
      transitivity (length (c :: r)); [shorter | simpl; lia]. }
    destruct (parseNumber (c :: r)) as [[lit rest']|] eqn:E; [| discriminate].
    intros H; apply Some_pair_rest in H; subst rest. apply parseNumber_length in E.
    simpl in E. lia.
  - intros s vs rest. rewrite parseElements_eq.
    destruct (parseValue fuel s) as [[v rest1]|] eqn:E; [| discriminate].
    apply IHv in E.
    pose proof (dropWhile_length isJSONSpace rest1) as Hs.
    destruct (dropWhile isJSONSpace rest1) as [|c rest2]; [discriminate|].
    simpl in Hs.
    destruct (N.eqb c 44).
    + destruct (parseElements fuel rest2) as [[vs' rest3]|] eqn:E2;
        [| discriminate].
      intros H; apply Some_pair_rest in H; subst rest. apply IHe in E2. lia.
    + destruct (N.eqb c 93); [| discriminate].
      intros H; apply Some_pair_rest in H; subst rest. lia.
  - intros s ms rest. rewrite parseMembers_eq.
    destruct (negb (startsWith (dropWhile isJSONSpace s) [quote]));
      [discriminate|].
    destruct (parseChars (tl (dropWhile isJSONSpace s)))
      as [[key rest1]|] eqn:E; [| discriminate].
    apply parseChars_length in E.
    assert (E' : length rest1 <= length s).
    { transitivity (length (tl (dropWhile isJSONSpace s))); [lia | shorter]. }
    destruct (negb (startsWith (dropWhile isJSONSpace rest1) [58%N]));
      [discriminate|].
    destruct (parseValue fuel (tl (dropWhile isJSONSpace rest1)))
      as [[v rest2]|] eqn:E2; [| discriminate].
    apply IHv in E2.
    assert (E2' : length rest2 <= length rest1).
    { etransitivity; [exact E2 | shorter]. }
    pose proof (dropWhile_length isJSONSpace rest2) as Hs.
    destruct (dropWhile isJSONSpace rest2) as [|c rest3]; [discriminate|].
    simpl in Hs.
    destruct (N.eqb c 44).
    + destruct (parseMembers fuel rest3) as [[ms' rest4]|] eqn:E3;
        [| discriminate].
      intros H; apply Some_pair_rest in H; subst rest. apply IHm in E3. lia.
    + destruct (N.eqb c 125); [| discriminate].
      intros H; apply Some_pair_rest in H; subst rest. lia.
Qed.

(** With fuel for twice the length of the text, more fuel changes nothing:
    no answer of the parser is for want of fuel. *)
Lemma parse_fuel fuel :
  (forall s fuel', 2 * length s + 2 <= fuel -> fuel <= fuel' ->
                   parseValue fuel' s = parseValue fuel s)
  /\ (forall s fuel', 2 * length s + 3 <= fuel -> fuel <= fuel' ->
                      parseElements fuel' s = parseElements fuel s)
  /\ (forall s fuel', 2 * length s + 3 <= fuel -> fuel <= fuel' ->
                      parseMembers fuel' s = parseMembers fuel s).
Proof.
  induction fuel as [|fuel (IHv & IHe & IHm)];
    [repeat split; intros; lia|].
  destruct (parse_length fuel) as (Lv & Le & Lm).
  repeat split; intros s [|fuel'] Hs Hf; try lia.
  - rewrite !parseValue_eq.
    pose proof (dropWhile_length isJSONSpace s) as Hd.
    destruct (dropWhile isJSONSpace s) as [|c r]; [reflexivity|].
    simpl in Hd.
    rewrite (IHe r fuel'), (IHm r fuel') by lia. reflexivity.
  - rewrite !parseElements_eq.
    rewrite (IHv s fuel') by lia.
    destruct (parseValue fuel s) as [[v rest1]|] eqn:E; [| reflexivity].
    apply Lv in E.
    pose proof (dropWhile_length isJSONSpace rest1) as Hd.
    destruct (dropWhile isJSONSpace rest1) as [|c rest2]; [reflexivity|].
    simpl in Hd.
    rewrite (IHe rest2 fuel') by lia. reflexivity.
  - rewrite !parseMembers_eq.
    destruct (negb (startsWith (dropWhile isJSONSpace s) [quote]));
      [reflexivity|].
    destruct (parseChars (tl (dropWhile isJSONSpace s)))
      as [[key rest1]|] eqn:E; [| reflexivity].
    apply parseChars_length in E.
    assert (E' : length rest1 <= length s).
    { transitivity (length (tl (dropWhile isJSONSpace s))); [lia | shorter]. }
    destruct (negb (startsWith (dropWhile isJSONSpace rest1) [58%N]));
      [reflexivity|].
    assert (E1 : length (tl (dropWhile isJSONSpace rest1)) <= length rest1)
      by shorter.
    rewrite (IHv (tl (dropWhile isJSONSpace rest1)) fuel') by lia.
    destruct (parseValue fuel (tl (dropWhile isJSONSpace rest1)))
      as [[v rest2]|] eqn:E2; [| reflexivity].
    apply Lv in E2.
    pose proof (dropWhile_length isJSONSpace rest2) as Hd.
    destruct (dropWhile isJSONSpace rest2) as [|c rest3]; [reflexivity|].
    simpl in Hd.
    rewrite (IHm rest3 fuel') by lia. reflexivity.
Qed.

(** [JSON.parse] with any greater fuel gives the same answer. *)
Lemma JSONparse_fuel text fuel :
  2 * length text + 2 <= fuel ->
  parseValue fuel text = parseValue (2 * length text + 2) text.
Proof.
  intros H.
  destruct (parse_fuel (2 * length text + 2)) as [Hv _].
  apply Hv; lia.
Qed.

(** ** getLocalIpAddress *)

Lemma firstExternalIPv4_spec l :
  match firstExternalIPv4 l with
  | Some a =>
      exists before net after,
        l = before ++ net :: after
        /\ Forall (fun n => isExternalIPv4 n = false) before
        /\ isExternalIPv4 net = true
        /\ a = NetworkInterfaceInfo.address net
  | None => Forall (fun n => isExternalIPv4 n = false) l
  end.
Proof.
  induction l as [|net l IH]; simpl; [constructor|].
  fold (isExternalIPv4 net).
  destruct (isExternalIPv4 net) eqn:E.
  - exists [], net, l. repeat split; auto.
  - destruct (firstExternalIPv4 l) as [a|].
    + destruct IH as (before & net' & after & -> & Hb & Hn & Ha).
      exists (net :: before), net', after. repeat split; auto.
    + constructor; auto.
Qed.

Lemma scanInterfaces_spec nets :
  match scanInterfaces nets with
  | Some a =>
      exists before net after,
        addressesOf nets = before ++ net :: after
        /\ Forall (fun n => isExternalIPv4 n = false) before
        /\ isExternalIPv4 net = true
        /\ a = NetworkInterfaceInfo.address net
  | None => Forall (fun n => isExternalIPv4 n = false) (addressesOf nets)
  end.
Proof.
  induction nets as [|[name [l|]] nets IH]; simpl; [constructor| |exact IH].
  pose proof (firstExternalIPv4_spec l) as Hl.
  destruct (firstExternalIPv4 l) as [a|].
  - destruct Hl as (before & net & after & -> & Hb & Hn & Ha).
    exists before, net, (after ++ addressesOf nets).
    rewrite <- app_assoc. repeat split; auto.
  - destruct (scanInterfaces nets) as [a|].
    + destruct IH as (before & net & after & E & Hb & Hn & Ha).
      exists (l ++ before), net, after. rewrite E, <- app_assoc.
      repeat split; auto. apply Forall_app; auto.
    + apply Forall_app; auto.
Qed.

(** X1.  [getLocalIpAddress] returns the address of the first entry, in
    the order of the interfaces and of the addresses of each, whose family
    is IPv4 and which is not internal; when there is none it returns
    127.0.0.1. *)
Theorem local_address_is_first_external_IPv4 w :
  (exists before net after,
     addressesOf (networkInterfaces w) = before ++ net :: after
     /\ Forall (fun n => isExternalIPv4 n = false) before
     /\ isExternalIPv4 net = true
     /\ getLocalIpAddress w = NetworkInterfaceInfo.address net)
  \/ (Forall (fun n => isExternalIPv4 n = false)
        (addressesOf (networkInterfaces w))
      /\ getLocalIpAddress w = str "127.0.0.1").
Proof.
  unfold getLocalIpAddress.
  pose proof (scanInterfaces_spec (networkInterfaces w)) as H.
  destruct (scanInterfaces (networkInterfaces w)) as [a|].
  - left. exact H.
  - right. split; [exact H | reflexivity].
Qed.

(** ** getConnectedDevices: what it costs and what it returns *)

Section ListingFacts.

Variable w : World.

Lemma getpropCmd_isGetpropCmd id prop :
  isGetpropCmd (getpropCmd id (str "ro." ++ prop)) = true.
Proof.
  unfold isGetpropCmd, getpropCmd. apply andb_true_intro; split.
  - apply startsWith_spec. eexists; reflexivity.
  - apply includes_spec. exists (str "adb -s " ++ id), (str "ro." ++ prop).
    rewrite <- !app_assoc. reflexivity.
Qed.

Lemma execPromise_log cmd m r m' :
  execPromise w cmd m = (r, m') ->
  log m' = log m ++ [cmd] /\ clock m' = S (clock m).
Proof.
  unfold execPromise. destruct (execResult w (clock m) cmd);
    intros H; injection H as <- <-; split; reflexivity.
Qed.

Lemma describeDevice_cost id m :
  exists d' m' l,
    describeDevice w (DeviceInfo.mk id (str "device") None None None None) m
    = (Returned d', m')
    /\ log m' = log m ++ l
    /\ Forall (fun c => isGetpropCmd c = true) l
    /\ length l = queries d'
    /\ clock m' = clock m + length l
    /\ wellDescribed d'.
Proof.
  unfold describeDevice. cbn [DeviceInfo.id DeviceInfo.status].
  pose proof (getpropCmd_isGetpropCmd id (str "product.model")) as G1.
  pose proof (getpropCmd_isGetpropCmd id (str "build.version.release")) as G2.
  pose proof (getpropCmd_isGetpropCmd id (str "product.manufacturer")) as G3.
  change (str "ro." ++ str "product.model") with (str "ro.product.model") in G1.
  change (str "ro." ++ str "build.version.release")
    with (str "ro.build.version.release") in G2.
  change (str "ro." ++ str "product.manufacturer")
    with (str "ro.product.manufacturer") in G3.
  assert (Q : forall d : DeviceInfo.t,
             DeviceInfo.status d = str "device" ->
             queries d = match DeviceInfo.model d, DeviceInfo.androidVersion d with
                         | None, _ => 1
                         | Some _, None => 2
                         | Some _, Some _ => 3
                         end).
  { intros d Hd. unfold queries. rewrite Hd, jeqb_refl. reflexivity. }
  destruct (execPromise w (getpropCmd id (str "ro.product.model")) m)
    as [[model|] m1] eqn:E1; apply execPromise_log in E1; destruct E1 as [L1 C1].
  2:{ eexists _, _, [_]. split; [reflexivity|].
      split; [exact L1|]. split; [repeat constructor; exact G1|].
      split; [rewrite Q by reflexivity; reflexivity|].
      split; [simpl; lia|].
      wd. }
  destruct (execPromise w (getpropCmd id (str "ro.build.version.release")) m1)
    as [[version|] m2] eqn:E2; apply execPromise_log in E2; destruct E2 as [L2 C2].
  2:{ eexists _, _, [_; _]. split; [reflexivity|].
      split; [rewrite L2, L1, <- app_assoc; reflexivity|].
      split; [repeat constructor; assumption|].
      split; [rewrite Q by reflexivity; reflexivity|].
      split; [simpl; lia|].
      wd. }
  destruct (execPromise w (getpropCmd id (str "ro.product.manufacturer")) m2)
    as [[manufacturer|] m3] eqn:E3; apply execPromise_log in E3;
    destruct E3 as [L3 C3];
    (eexists _, _, [_; _; _]; split; [reflexivity|];
     split; [rewrite L3, L2, L1, <- !app_assoc; reflexivity|];
     split; [repeat constructor; assumption|];
     split; [rewrite Q by reflexivity; reflexivity|];
     split; [simpl; lia|];
     wd).
Qed.

Lemma parseDevices_cost lines : forall devices m,
  exists devices' m' l,
    parseDevices w lines devices m = (Returned (devices ++ devices'), m')
    /\ log m' = log m ++ l
    /\ Forall (fun c => isGetpropCmd c = true) l
    /\ length l = list_sum (map queries devices')
    /\ clock m' = clock m + length l
    /\ Forall wellDescribed devices'.
Proof.
  induction lines as [|line lines IH]; intros devices m; simpl.
  - exists [], m, []. rewrite !app_nil_r. unfold ret.
    repeat split; auto.
  - destruct (matchDeviceLine line) as [[id status]|]; [| apply IH].
    unfold bind.
    destruct (jeqb status (str "device")) eqn:Est.
    + apply jeqb_eq in Est; subst status.
      destruct (describeDevice_cost id m)
        as (d' & m1 & l1 & E & L & G & N & C & W).
      rewrite E.
      destruct (IH (devices ++ [d']) m1)
        as (ds & m2 & l2 & E2 & L2 & G2 & N2 & C2 & W2).
      exists (d' :: ds), m2, (l1 ++ l2).
      rewrite E2, <- app_assoc. split; [reflexivity|].
      rewrite L2, L, <- app_assoc, length_app.
      repeat split; auto.
      * apply Forall_app; auto.
      * simpl. lia.
      * lia.
    + unfold ret.
      destruct (IH (devices ++ [DeviceInfo.mk id status None None None None]) m)
        as (ds & m2 & l2 & E2 & L2 & G2 & N2 & C2 & W2).
      exists (DeviceInfo.mk id status None None None None :: ds), m2, l2.
      rewrite E2, <- app_assoc. split; [reflexivity|].
      repeat split; auto.
      * simpl. unfold queries at 1. cbn [DeviceInfo.status]. rewrite Est.
        exact N2.
      * constructor; auto. wd.
Qed.

Lemma queries_le_3 devices : list_sum (map queries devices) <= 3 * length devices.
Proof.
  induction devices as [|d ds IH]; simpl; [lia|].
  assert (queries d <= 3).
  { unfold queries. destruct (jeqb _ _); [|lia].
    destruct (DeviceInfo.model d), (DeviceInfo.androidVersion d); lia. }
  lia.
Qed.

(** What a listing costs and what it returns. *)
Lemma getConnectedDevices_cost m :
  exists devices m' l,
    getConnectedDevices w m = (Returned devices, m')
    /\ log m' = log m ++ str "adb devices" :: l
    /\ Forall (fun c => isGetpropCmd c = true) l
    /\ length l = list_sum (map queries devices)
    /\ clock m' = S (clock m) + length l
    /\ Forall wellDescribed devices.
Proof.
  unfold getConnectedDevices, tryCatch, bind.
  destruct (execPromise w (str "adb devices") m) as [[stdout|] m1] eqn:E;
    apply execPromise_log in E; destruct E as [L C].
  - destruct (parseDevices_cost (listingLines stdout) [] m1)
      as (ds & m2 & l & E2 & L2 & G & N & C2 & W).
    rewrite E2. exists ds, m2, l. split; [reflexivity|].
    rewrite L2, L, <- app_assoc. repeat split; auto. lia.
  - unfold consoleError, ret. exists [], (printed listingError m1), [].
    split; [reflexivity|]. simpl. rewrite L.
    repeat split; auto. lia.
Qed.

End ListingFacts.

(** An entry is flagged wireless only with the status [device], all
    three properties answered and a colon in its identifier. *)
Lemma flagged_wireless w m devices m' d :
  getConnectedDevices w m = (Returned devices, m') ->
  In d devices -> truthy (DeviceInfo.wireless d) = true ->
  DeviceInfo.status d = str "device"
  /\ occursIn (str ":") (DeviceInfo.id d)
  /\ DeviceInfo.model d <> None
  /\ DeviceInfo.androidVersion d <> None
  /\ DeviceInfo.manufacturer d <> None.
Proof.
  intros H Hd Ht.
  destruct (getConnectedDevices_cost w m) as (ds & m2 & l & E & _ & _ & _ & _ & W).
  rewrite H in E. injection E as -> ->.
  rewrite Forall_forall in W.
  destruct (W d Hd) as (W1 & W2 & W3 & W4).
  rewrite W4 in Ht.
  destruct (DeviceInfo.manufacturer d) eqn:Em; [|discriminate].
  simpl in Ht.
  destruct (DeviceInfo.androidVersion d) eqn:Ev;
    [| specialize (W3 eq_refl); discriminate].
  destruct (DeviceInfo.model d) eqn:Emo;
    [| specialize (W2 eq_refl); discriminate].
  repeat split; try discriminate.
  - destruct (jeqb (DeviceInfo.status d) (str "device")) eqn:Es.
    + apply jeqb_eq; exact Es.
    + apply jeqb_neq in Es. specialize (W1 Es). discriminate.
  - apply includes_spec.
    destruct (includes (DeviceInfo.id d) (str ":")); [reflexivity|discriminate].
Qed.

(** X3.  Every entry that [getConnectedDevices] returns has its optional
    fields filled in the order of the property queries, and for the status
    [device] only; it is flagged wireless only if its status is [device],
    all three properties were answered and its identifier holds a colon. *)
Theorem listed_devices_are_well_described w m devices m' :
  getConnectedDevices w m = (Returned devices, m') ->
  Forall wellDescribed devices
  /\ (forall d, In d devices -> truthy (DeviceInfo.wireless d) = true ->
        DeviceInfo.status d = str "device"
        /\ occursIn (str ":") (DeviceInfo.id d)
        /\ DeviceInfo.model d <> None
        /\ DeviceInfo.androidVersion d <> None
        /\ DeviceInfo.manufacturer d <> None).
Proof.
  intros H. split.
  - destruct (getConnectedDevices_cost w m)
      as (ds & m2 & l & E & _ & _ & _ & _ & W).
    rewrite H in E. injection E as -> ->. exact W.
  - intros d. apply (flagged_wireless w m devices m' d H).
Qed.

(** X4.  A listing starts [adb devices] and then nothing but property
    queries: one to three for each entry with the status [device], up to
    the first that is rejected, and none for the other entries; so at most
    three for each entry. *)
Theorem listing_costs_one_process_per_query w m devices m' :
  getConnectedDevices w m = (Returned devices, m') ->
  exists l,
    log m' = log m ++ str "adb devices" :: l
    /\ Forall (fun c => isGetpropCmd c = true) l
    /\ length l = list_sum (map queries devices)
    /\ length l <= 3 * length devices
    /\ clock m' = S (clock m) + length l.
Proof.
  intros H.
  destruct (getConnectedDevices_cost w m) as (ds & m2 & l & E & L & G & N & C & _).
  rewrite H in E. injection E as -> ->.
  exists l. repeat split; auto.
  rewrite N. apply queries_le_3.
Qed.

(** ** The sweep: its child processes, and the order of its probes *)

Lemma getprop_not_listing cmd : isGetpropCmd cmd = true -> isListingCmd cmd = false.
Proof.
  unfold isGetpropCmd. intros H. apply andb_prop in H. destruct H as [H _].
  apply startsWith_spec in H. destruct H as [after ->]. reflexivity.
Qed.

Section SweepCost.

Variable w : World.
Variable m : Machine.

Lemma sweep_log s :
  reaches w m s ->
  exists l, log (machine s) = log m ++ l
            /\ length (filter isListingCmd l) = length (rounds s)
            /\ Forall (fun c => isSweepCmd c = true) l.
Proof.
  induction 1 as [|s s' R IH St].
  - exists []. rewrite app_nil_r. simpl. repeat split; auto.
  - destruct IH as (l & L & N & F).
    assert (Keep : machine s' = machine s -> rounds s' = rounds s ->
                   exists l, log (machine s') = log m ++ l
                     /\ length (filter isListingCmd l) = length (rounds s')
                     /\ Forall (fun c => isSweepCmd c = true) l).
    { intros -> ->. exists l. repeat split; auto. }
    destruct St as [s i Hp Hi | s i Hp Hi | s before p after Hpr | s Hp Hpr].
    + unfold iteration.
      destruct (getConnectedDevices_cost w (machine s))
        as (devs & m1 & l1 & E & L1 & G & _ & _ & _).
      rewrite E.
      assert (F1 : filter isListingCmd l1 = []).
      { apply filter_none. eapply Forall_impl; [| exact G].
        intros c. apply getprop_not_listing. }
      assert (S1 : Forall (fun c => isSweepCmd c = true) l1).
      { eapply Forall_impl; [| exact G]. intros c Hc. unfold isSweepCmd.
        rewrite Hc, orb_true_r. reflexivity. }
      destruct (isAlreadyConnected devs (candidate w i));
        [| destruct (jeqb (candidate w i) (localIp w))]; simpl.
      * exists (l ++ str "adb devices" :: l1).
        rewrite L1, L, <- app_assoc, filter_app, !length_app. simpl.
        rewrite F1, N. repeat split; auto; try (simpl; lia).
        apply Forall_app; split; [exact F|]. constructor; [reflexivity | exact S1].
      * exists (l ++ str "adb devices" :: l1).
        rewrite L1, L, <- app_assoc, filter_app, !length_app. simpl.
        rewrite F1, N. repeat split; auto; try (simpl; lia).
        apply Forall_app; split; [exact F|]. constructor; [reflexivity | exact S1].
      * exists (l ++ str "adb devices" :: l1 ++ [connectCmd (candidate w i)]).
        rewrite L1, L, <- !app_assoc, filter_app, !length_app. simpl.
        rewrite filter_app, F1, N. simpl.
        repeat split; auto; try (simpl; lia).
        apply Forall_app; split; [exact F|]. constructor; [reflexivity|].
        apply Forall_app; split; [exact S1|]. constructor; [|constructor].
        unfold isSweepCmd. rewrite connectCmd_isConnectCmd, orb_true_r.
        reflexivity.
    + apply Keep; reflexivity.
    + apply Keep; reflexivity.
    + exists l. simpl. repeat split; auto.
Qed.

Lemma iteration_same i s t :
  machine s = machine t -> rounds s = rounds t ->
  machine (iteration w i s) = machine (iteration w i t)
  /\ rounds (iteration w i s) = rounds (iteration w i t).
Proof.
  intros Hm Hr. unfold iteration. rewrite Hm, Hr.
  destruct (getConnectedDevices w (machine t)) as [[devs|] m1]; simpl;
    [| split; [reflexivity | exact Hr]].
  destruct (isAlreadyConnected devs (candidate w i));
    [| destruct (jeqb (candidate w i) (localIp w))]; simpl; split; reflexivity.
Qed.

Lemma iteration_loops i s :
  phase (iteration w i s) = Looping (S i).
Proof.
  unfold iteration.
  destruct (getConnectedDevices_returns w (machine s)) as (devs & m1 & E & _).
  rewrite E.
  destruct (isAlreadyConnected devs (candidate w i));
    [| destruct (jeqb (candidate w i) (localIp w))]; reflexivity.
Qed.

(** The listings and the machine do not depend on the probes that have
    settled: they are those of the loop run on its own. *)
Lemma reaches_afterTurns s :
  reaches w m s ->
  rounds s = rounds (afterTurns w m (length (rounds s)))
  /\ machine s
     = match phase s with
       | Finished _ =>
           printed successLine (machine (afterTurns w m (length (rounds s))))
       | _ => machine (afterTurns w m (length (rounds s)))
       end.
Proof.
  intros R. pose proof (reaches_Inv _ _ _ R) as I. revert I.
  induction R as [|s s' R IH St]; intros I'.
  - simpl. split; reflexivity.
  - pose proof (reaches_Inv _ _ _ R) as I.
    specialize (IH I). destruct IH as [Hr Hm].
    destruct St as [s i Hp Hi | s i Hp Hi | s before p after Hpr | s Hp Hpr].
    + rewrite Hp in Hm.
      pose proof (inv_phase _ _ _ I) as Hph. rewrite Hp in Hph.
      destruct Hph as [Hi1 Hlen].
      assert (Ei : i = S (length (rounds s))) by lia.
      destruct (iteration_same i s (afterTurns w m (length (rounds s))) Hm Hr)
        as [Em Er].
      assert (Hl : length (rounds (iteration w i s)) = S (length (rounds s))).
      { pose proof (inv_phase _ _ _ I') as Hph'.
        rewrite iteration_loops in Hph'. lia. }
      rewrite iteration_loops, Hl. cbn [afterTurns]. rewrite <- Ei.
      split; [exact Er | exact Em].
    + rewrite Hp in Hm. simpl. split; [exact Hr | exact Hm].
    + simpl. split; [exact Hr | exact Hm].
    + rewrite Hp in Hm. simpl. split; [exact Hr|]. rewrite Hm. reflexivity.
Qed.

End SweepCost.

(** ** The probes and the answers of the world *)

Lemma getprop_not_connect cmd :
  isGetpropCmd cmd = true -> isConnectCmd cmd = false.
Proof.
  unfold isGetpropCmd. intros H. apply andb_prop in H. destruct H as [H _].
  apply startsWith_spec in H. destruct H as [after ->]. reflexivity.
Qed.

(** An entry of a list that was extended is an entry of the list as it
    was, or one of the new entries, at its place among them. *)
Lemma nth_error_extended {A} (l new : list A) j x :
  nth_error (l ++ new) j = Some x ->
  nth_error l j = Some x
  \/ (length l <= j /\ nth_error new (j - length l) = Some x).
Proof.
  intros H. destruct (Nat.lt_ge_cases j (length l)) as [Hlt | Hge].
  - left. rewrite nth_error_app1 in H by exact Hlt. exact H.
  - right. rewrite nth_error_app2 in H by exact Hge. auto.
Qed.

Section ProbeAnswers.

Variable w : World.
Variable m : Machine.

(** Every probe among the commands of the sweep belongs to a turn of the
    loop, which holds for it the answer of the world to that command at
    the time it was started. *)
Lemma probes_answered s :
  reaches w m s ->
  exists l,
    log (machine s) = log m ++ l
    /\ clock (machine s) = clock m + length l
    /\ forall j ip,
         nth_error l j = Some (connectCmd ip) ->
         exists r, In r (rounds s) /\ roundIp r = ip
                   /\ roundProbe r
                      = Some (execResult w (clock m + j) (connectCmd ip)).
Proof.
  induction 1 as [|s s' R IH St].
  - exists []. cbn. rewrite app_nil_r. split; [reflexivity|].
    split; [lia|]. intros [|j] ip H; discriminate H.
  - destruct IH as (l & L & C & P).
    destruct St as [s i Hp Hi | s i Hp Hi | s before p after Hpr | s Hp Hpr];
      [| exists l; cbn; auto ..].
    unfold iteration.
    destruct (getConnectedDevices_cost w (machine s))
      as (devs & m1 & l1 & E & L1 & G & _ & C1 & _).
    rewrite E.
    assert (Old : forall j ip rs,
              nth_error (l ++ str "adb devices" :: l1) j = Some (connectCmd ip) ->
              exists r, In r (rounds s ++ rs) /\ roundIp r = ip
                        /\ roundProbe r
                           = Some (execResult w (clock m + j) (connectCmd ip))).
    { intros j ip rs H. apply nth_error_extended in H.
      destruct H as [H | [_ H]].
      - destruct (P j ip H) as (r & Hin & Hr). exists r.
        split; [apply in_or_app; left; exact Hin | exact Hr].
      - apply nth_error_In in H. exfalso.
        pose proof (connectCmd_isConnectCmd ip) as K.
        destruct H as [H | H].
        + rewrite <- H in K. discriminate K.
        + rewrite Forall_forall in G. apply G in H.
          apply getprop_not_connect in H. congruence. }
    destruct (isAlreadyConnected devs (candidate w i));
      [| destruct (jeqb (candidate w i) (localIp w))];
      cbn [machine rounds].
    + exists (l ++ str "adb devices" :: l1).
      rewrite L1, L, <- app_assoc, C1, C, length_app. cbn [length].
      split; [reflexivity|]. split; [lia|]. intros j ip. apply Old.
    + exists (l ++ str "adb devices" :: l1).
      rewrite L1, L, <- app_assoc, C1, C, length_app. cbn [length].
      split; [reflexivity|]. split; [lia|]. intros j ip. apply Old.
    + exists ((l ++ str "adb devices" :: l1) ++ [connectCmd (candidate w i)]).
      cbn [log clock started].
      split. { rewrite L1, L, <- !app_assoc. reflexivity. }
      split. { rewrite C1, C, !length_app. cbn [length]. lia. }
      intros j ip H.
      apply nth_error_extended in H. destruct H as [H | [Hj H]].
      * apply Old. exact H.
      * destruct (j - length (l ++ str "adb devices" :: l1)) as [|k] eqn:Ej;
          [| destruct k; discriminate H].
        cbn [nth_error] in H.
        assert (H' : connectCmd (candidate w i) = connectCmd ip) by congruence.
        apply connectCmd_inj in H'. subst ip.
        eexists. split; [apply in_or_app; right; left; reflexivity|].
        cbn [roundIp roundProbe]. split; [reflexivity|].
        rewrite length_app in Hj, Ej. cbn [length] in Hj, Ej.
        do 3 f_equal. lia.
Qed.

End ProbeAnswers.

(** C4.  Whatever the scheduler and however many probes are rejected, the
    sweep returns, and when it returns no probe is in flight.  Each probe
    among its child processes is settled by the answer of the world to
    that command at the time it was started: when the answer is a success
    the host is in the result as "discoverable", whatever became of the
    other probes; when it is an error or a timeout the result has no entry
    for the address.  The sweep printed nothing but its start, one line
    per failed listing, and its success: no line for a host. *)
Theorem sweep_joins_every_probe w m :
  (forall sched,
     discoverDevicesReturns w m (discoverDevices w sched m)
       (discoverDevicesRun w sched m))
  /\ (forall result s,
        discoverDevicesReturns w m result s ->
        promises s = []
        /\ (forall j ip,
              nth_error (sweepCommands m s) j = Some (connectCmd ip) ->
              match execResult w (clock m + j) (connectCmd ip) with
              | Fulfilled _ =>
                  In (DiscoveredDevice.mk ip discoverable) result
              | Rejected =>
                  forall h, In h result -> DiscoveredDevice.ip h <> ip
              end)
        /\ (exists errors,
              sweepConsole m s = startLine :: errors ++ [successLine]
              /\ Forall (fun x => x = listingError) errors)).
Proof.
  split; [intros sched; apply discoverDevices_returns|].
  intros result s H.
  split; [apply (returned_Inv _ _ _ _ H)|].
  split; [| apply (returned_console _ _ _ _ H)].
  intros j ip Hj.
  destruct (probes_answered w m s (proj1 H)) as (l & L & _ & P).
  unfold sweepCommands in Hj. rewrite L, skipn_length_app in Hj.
  destruct (P j ip Hj) as (r & Hin & Hip & Hpr).
  destruct (round_of_member _ _ _ _ _ H Hin) as [Er Hi].
  destruct (returned_round _ _ _ _ _ H Hi) as (r' & Er' & _ & _ & Hc & _).
  assert (r' = r) by congruence; subst r'.
  pose proof (probe_outcome _ _ _ _ _ _ H Hi Er) as O.
  rewrite Hpr, <- Hc, Hip in O. exact O.
Qed.

Lemma sweep_joins_every_probe_briefHosts :
  promises (discoverDevicesRun briefHosts atOnce freshMachine) = []
  /\ In (DiscoveredDevice.mk (str "192.168.1.3") discoverable)
        (discoverDevices briefHosts atOnce freshMachine)
  /\ (forall h, In h (discoverDevices briefHosts atOnce freshMachine) ->
                DiscoveredDevice.ip h <> str "192.168.1.4").
Proof.
  destruct (sweep_joins_every_probe briefHosts freshMachine) as [R H].
  destruct (H _ _ (R atOnce)) as (P & Q & _).
  split; [exact P|]. split.
  - assert (E : execResult briefHosts (clock freshMachine + 5)
                  (connectCmd (str "192.168.1.3"))
                = Fulfilled (str "connected to 192.168.1.3:5555"))
      by (vm_compute; reflexivity).
    pose proof (Q 5 (str "192.168.1.3")) as Q3. rewrite E in Q3.
    apply Q3. vm_compute. reflexivity.
  - assert (E : execResult briefHosts (clock freshMachine + 7)
                  (connectCmd (str "192.168.1.4"))
                = Rejected)
      by (vm_compute; reflexivity).
    pose proof (Q 7 (str "192.168.1.4")) as Q4. rewrite E in Q4.
    apply Q4. vm_compute. reflexivity.
Defined.

(** The sweep among the two hosts finds the first only, whenever the
    probes settle. *)
Example briefHosts_found :
  discoverDevices briefHosts atOnce freshMachine
  = [DiscoveredDevice.mk (str "192.168.1.3") discoverable]
  /\ discoverDevices briefHosts atTheJoin freshMachine
     = [DiscoveredDevice.mk (str "192.168.1.3") discoverable]
  /\ nth_error (sweepCommands freshMachine
                  (discoverDevicesRun briefHosts atOnce freshMachine)) 7
     = Some (connectCmd (str "192.168.1.4")).
Proof. vm_compute. repeat split. Qed.

(** X7.  Two runs of the sweep from the same machine return the same
    hosts up to their order, whatever the order in which the probes of
    each settle, and leave the same machine: the same child processes, the
    same console, the same store. *)
Theorem sweep_result_is_order_independent w m result1 s1 result2 s2 :
  discoverDevicesReturns w m result1 s1 ->
  discoverDevicesReturns w m result2 s2 ->
  Permutation result1 result2 /\ machine s1 = machine s2.
Proof.
  intros H1 H2.
  destruct (returned_Inv _ _ _ _ H1) as (_ & L1 & _ & _ & P1).
  destruct (returned_Inv _ _ _ _ H2) as (_ & L2 & _ & _ & P2).
  destruct H1 as [R1 F1], H2 as [R2 F2].
  destruct (reaches_afterTurns w m s1 R1) as [Hr1 Hm1].
  destruct (reaches_afterTurns w m s2 R2) as [Hr2 Hm2].
  rewrite F1, L1 in Hm1. rewrite F2, L2 in Hm2.
  rewrite L1 in Hr1. rewrite L2 in Hr2.
  split; [| congruence].
  eapply Permutation_trans; [exact P1|].
  rewrite Hr1, <- Hr2. apply Permutation_sym. exact P2.
Qed.

Lemma sweep_result_is_order_independent_late :
  Permutation (discoverDevices lateDevice atTheJoin freshMachine)
              (discoverDevices lateDevice atOnce freshMachine)
  /\ machine (discoverDevicesRun lateDevice atTheJoin freshMachine)
     = machine (discoverDevicesRun lateDevice atOnce freshMachine).
Proof.
  apply (sweep_result_is_order_independent lateDevice freshMachine);
    apply discoverDevices_returns.
Defined.

Example lateDevice_orders :
  discoverDevices lateDevice atTheJoin freshMachine
  = [DiscoveredDevice.mk (str "192.168.1.2") connected;
     DiscoveredDevice.mk (str "192.168.1.20") connected;
     DiscoveredDevice.mk (str "192.168.1.200") connected;
     DiscoveredDevice.mk (str "192.168.1.77") discoverable]
  /\ discoverDevices lateDevice atOnce freshMachine
     = [DiscoveredDevice.mk (str "192.168.1.2") connected;
        DiscoveredDevice.mk (str "192.168.1.20") connected;
        DiscoveredDevice.mk (str "192.168.1.77") discoverable;
        DiscoveredDevice.mk (str "192.168.1.200") connected].
Proof. split; vm_compute; reflexivity. Qed.

(** X8.  A sweep that returns has started [adb devices] 254 times, once
    on every turn, at most 254 probes, and nothing but listings, property
    queries and probes. *)
Theorem sweep_lists_the_devices_on_every_turn w m result s :
  discoverDevicesReturns w m result s ->
  length (filter isListingCmd (sweepCommands m s)) = 254
  /\ length (filter isConnectCmd (sweepCommands m s)) <= 254
  /\ Forall (fun c => isSweepCmd c = true) (sweepCommands m s).
Proof.
  intros H.
  destruct (returned_Inv _ _ _ _ H) as (I & L & _ & _ & _).
  destruct H as [R F].
  destruct (sweep_log w m s R) as (l & Hl & N & S).
  unfold sweepCommands. rewrite Hl, skipn_length_app.
  split; [congruence|]. split; [| exact S].
  destruct (sweepCommands_spec _ _ _ I) as [Hl' Hf].
  unfold sweepCommands in Hf. rewrite Hl, skipn_length_app in Hf.
  rewrite Hf, length_map.
  assert (B : forall rs, length (flat_map probedIp rs) <= length rs).
  { induction rs as [|r rs IH]; simpl; [lia|].
    rewrite length_app. unfold probedIp at 1.
    destruct (roundProbe r); simpl; lia. }
  specialize (B (rounds s)). lia.
Qed.

Lemma sweep_lists_the_devices_on_every_turn_home :
  length (filter isListingCmd
            (sweepCommands freshMachine
               (discoverDevicesRun homeNetwork atTheJoin freshMachine))) = 254
  /\ length (filter isConnectCmd
               (sweepCommands freshMachine
                  (discoverDevicesRun homeNetwork atTheJoin freshMachine)))
     <= 254
  /\ Forall (fun c => isSweepCmd c = true)
       (sweepCommands freshMachine
          (discoverDevicesRun homeNetwork atTheJoin freshMachine)).
Proof.
  apply (sweep_lists_the_devices_on_every_turn homeNetwork freshMachine
           (discoverDevices homeNetwork atTheJoin freshMachine)).
  apply discoverDevices_returns.
Defined.

(** X9.  The result of the sweep holds at most 254 hosts; each is a
    candidate of the range, with the status "connected", or with the status
    "discoverable", and then it is not the local address and a probe was
    started for it. *)
Theorem sweep_result_holds_candidates_only w m result s :
  discoverDevicesReturns w m result s ->
  length result <= 254
  /\ forall h, In h result ->
       exists i, 1 <= i <= 254
         /\ DiscoveredDevice.ip h = candidate w i
         /\ (DiscoveredDevice.status h = connected
             \/ DiscoveredDevice.status h = discoverable
                /\ DiscoveredDevice.ip h <> localIp w
                /\ In (connectCmd (DiscoveredDevice.ip h)) (sweepCommands m s)).
Proof.
  intros H.
  destruct (returned_Inv _ _ _ _ H) as (I & L & _ & _ & P).
  split.
  - rewrite (Permutation_length P), <- L.
    generalize (rounds s). induction l as [|r rs IH]; simpl; [lia|].
    rewrite length_app. unfold hostsOf at 1.
    destruct (roundConnected r); [simpl; lia|].
    destruct (roundProbe r) as [[|]|]; simpl; lia.
  - intros h Hh.
    apply (Permutation_in _ P) in Hh. apply in_flat_map in Hh.
    destruct Hh as (r & Hr & Hh).
    destruct (round_of_member _ _ _ _ _ H Hr) as [Hof Hi].
    pose proof (inv_rounds _ _ _ I) as Hok. rewrite Forall_forall in Hok.
    destruct (Hok r Hr) as [Hip Hprobe].
    exists (roundIndex r). split; [exact Hi|].
    unfold hostsOf in Hh.
    destruct (roundConnected r) eqn:Hc.
    + destruct Hh as [<-|[]]. simpl. split; [exact Hip | left; reflexivity].
    + destruct (roundProbe r) as [[out|]|] eqn:Hp; try contradiction.
      destruct Hh as [<-|[]]. simpl. split; [exact Hip|].
      right. split; [reflexivity|]. split.
      * intros E. assert (X : Some (Fulfilled out) = None)
          by (apply Hprobe; right; exact E). discriminate.
      * apply (probed_iff _ _ _ _ I). exists r.
        repeat split; auto. rewrite Hp; discriminate.
Qed.

Lemma sweep_result_holds_candidates_only_home :
  length (discoverDevices homeNetwork atOnce freshMachine) <= 254
  /\ forall h, In h (discoverDevices homeNetwork atOnce freshMachine) ->
       exists i, 1 <= i <= 254
         /\ DiscoveredDevice.ip h = candidate homeNetwork i
         /\ (DiscoveredDevice.status h = connected
             \/ DiscoveredDevice.status h = discoverable
                /\ DiscoveredDevice.ip h <> localIp homeNetwork
                /\ In (connectCmd (DiscoveredDevice.ip h))
                      (sweepCommands freshMachine
                         (discoverDevicesRun homeNetwork atOnce freshMachine))).
Proof.
  apply (sweep_result_holds_candidates_only homeNetwork freshMachine).
  apply discoverDevices_returns.
Defined.

(** X10.  The sweep leaves the config object and the config file as they
    were. *)
Theorem sweep_leaves_the_store_alone w m result s :
  discoverDevicesReturns w m result s ->
  config (machine s) = config m /\ configFile (machine s) = configFile m.
Proof.
  intros H. destruct (returned_Inv _ _ _ _ H) as (I & _).
  exact (inv_config _ _ _ I).
Qed.

Lemma sweep_leaves_the_store_alone_used :
  config (machine (discoverDevicesRun homeNetwork atOnce usedMachine))
  = config usedMachine
  /\ configFile (machine (discoverDevicesRun homeNetwork atOnce usedMachine))
     = configFile usedMachine.
Proof.
  apply (sweep_leaves_the_store_alone homeNetwork usedMachine
           (discoverDevices homeNetwork atOnce usedMachine)).
  apply discoverDevices_returns.
Defined.

(** ** The range of the sweep *)

Lemma candidate_of_dotted w prefix last i :
  localIp w = prefix ++ dot :: last -> ~ In dot last ->
  ipBase w = prefix ++ [dot] /\ candidate w i = prefix ++ dot :: toString i.
Proof.
  intros E Hlast.
  assert (B : ipBase w = prefix ++ [dot]).
  { unfold ipBase, lastIndexOf. rewrite E.
    rewrite lastIndexOf_from_last by exact Hlast.
    rewrite substring_prefix by (rewrite length_app; cbn [length]; lia).
    replace (Z.to_nat (0 + Z.of_nat (length prefix) + 1))
      with (length (prefix ++ [dot])) by (rewrite length_app; simpl; lia).
    replace (prefix ++ dot :: last)
      with ((prefix ++ [dot]) ++ last)
      by (rewrite <- app_assoc; reflexivity).
    rewrite firstn_app, Nat.sub_diag, firstn_all. simpl. apply app_nil_r. }
  split; [exact B|].
  unfold candidate. rewrite B, <- app_assoc. reflexivity.
Qed.

(** X5.  When the local address ends in a dot and a last component
    without a dot, the base of the sweep is the address up to and with that
    dot, every candidate is the base followed by the counter, and the local
    address is the candidate of its last component when that is a
    number. *)
Theorem candidates_replace_the_last_component w prefix last :
  localIp w = prefix ++ dot :: last -> ~ In dot last ->
  ipBase w = prefix ++ [dot]
  /\ (forall i, candidate w i = prefix ++ dot :: toString i)
  /\ (forall d, last = toString d -> candidate w d = localIp w).
Proof.
  intros E Hlast. split; [| split].
  - apply (candidate_of_dotted w prefix last 0 E Hlast).
  - intros i. apply (candidate_of_dotted w prefix last i E Hlast).
  - intros d ->. rewrite E. apply (candidate_of_dotted w prefix _ d E Hlast).
Qed.

Lemma candidates_replace_the_last_component_home :
  ipBase homeNetwork = str "192.168.1" ++ [dot]
  /\ (forall i, candidate homeNetwork i = str "192.168.1" ++ dot :: toString i)
  /\ (forall d, str "5" = toString d -> candidate homeNetwork d = localIp homeNetwork).
Proof.
  apply (candidates_replace_the_last_component homeNetwork (str "192.168.1")
           (str "5")).
  - reflexivity.
  - simpl. intros [H|[]]. discriminate H.
Defined.

(** X6.  With no external IPv4 address on any interface the local address
    is 127.0.0.1, and the sweep runs over 127.0.0.1 to 127.0.0.254, the
    first of which is the local address. *)
Theorem without_a_network_the_loopback_range_is_swept w :
  Forall (fun n => isExternalIPv4 n = false) (addressesOf (networkInterfaces w)) ->
  localIp w = str "127.0.0.1"
  /\ (forall i, candidate w i = str "127.0.0." ++ toString i)
  /\ candidate w 1 = localIp w.
Proof.
  intros H.
  assert (E : localIp w = str "127.0.0.1").
  { unfold localIp, getLocalIpAddress.
    pose proof (scanInterfaces_spec (networkInterfaces w)) as S.
    destruct (scanInterfaces (networkInterfaces w)) as [a|]; [|reflexivity].
    destruct S as (before & net & after & Eq & _ & Hn & _).
    rewrite Eq in H. apply Forall_app in H. destruct H as [_ H].
    inversion H; congruence. }
  assert (C : forall i, candidate w i = str "127.0.0." ++ toString i).
  { intros i.
    apply (candidate_of_dotted w (str "127.0.0") (str "1") i).
    - exact E.
    - simpl. intros [X|[]]. discriminate X. }
  split; [exact E|]. split; [exact C|]. rewrite C, E. reflexivity.
Qed.

Lemma without_a_network_the_loopback_range_is_swept_offline :
  localIp offline = str "127.0.0.1"
  /\ (forall i, candidate offline i = str "127.0.0." ++ toString i)
  /\ candidate offline 1 = localIp offline.
Proof.
  apply (without_a_network_the_loopback_range_is_swept offline).
  repeat constructor.
Defined.

(** ** enableWirelessDebugging and the store *)

Lemma load_saved_text m c :
  configFile m = savedText c -> loadConfig m = (Returned (Typed c), m).
Proof.
  intros H. unfold savedText in H.
  unfold loadConfig, tryCatch, bind, existsSync, readFileSync.
  rewrite H. cbv match beta. rewrite H. cbv match beta.
  rewrite utf8Text_stringify, JSONparse_stringify, asConfig_configJSON.
  reflexivity.
Qed.

Section EnableFacts.

Variable w : World.

(** What [switchToTcp] may do: it returns [true] after the push and the
    save; it returns [false] for an empty address, leaving the store as
    it is; it throws when a command is rejected, leaving the store as it
    is, or when the save fails, after the push. *)
Lemma switchToTcp_cases deviceId device query m :
  match switchToTcp w deviceId device query m with
  | (Returned true, m') =>
      remembered w deviceId device m m'
      /\ configFile m' = savedText (config m')
      /\ writeFailure w (clock m') = None
      /\ log m' = log m ++ [query; tcpipCmd deviceId]
  | (Returned false, m') =>
      config m' = config m /\ configFile m' = configFile m
      /\ log m' = log m ++ [query]
  | (Thrown, m') =>
      (config m' = config m /\ configFile m' = configFile m
       /\ (log m' = log m ++ [query]
           \/ log m' = log m ++ [query; tcpipCmd deviceId]))
      \/ (remembered w deviceId device m m'
          /\ writeFailure w (clock m') = Some (configFile m')
          /\ log m' = log m ++ [query; tcpipCmd deviceId])
  end.
Proof.
  unfold switchToTcp, bind, execPromise.
  destruct (execResult w (clock m) query) as [wifiIp|].
  2:{ left. simpl. auto. }
  destruct (trim wifiIp) as [|c ip] eqn:Eip.
  { unfold consoleError, ret. simpl. auto. }
  cbn [clock started].
  destruct (execResult w (S (clock m)) (tcpipCmd deviceId)) as [out|].
  2:{ left. simpl. rewrite <- app_assoc. auto. }
  unfold consoleLog, rememberDevice, saveConfig, ret.
  cbn [clock started printed withConfig config].
  destruct (writeFailure w (S (S (clock m)))) as [remains|] eqn:Ew.
  - right. cbn. rewrite <- app_assoc. split; [| split; [exact Ew | reflexivity]].
    exists (c :: ip). split; [discriminate | reflexivity].
  - cbn. rewrite <- app_assoc. split; [| split; [reflexivity | split; [exact Ew | reflexivity]]].
    exists (c :: ip). split; [discriminate | reflexivity].
Qed.

(** All that [enableWirelessDebugging] may do to the store.  It leaves
    the store alone and returns [true] for a device of the listing that
    is wireless already, and only for such a device. *)
Lemma enableWirelessDebugging_cases deviceId m :
  exists b m',
    enableWirelessDebugging w deviceId m = (Returned b, m')
    /\ ((config m' = config m /\ configFile m' = configFile m
         /\ (b = true ->
             exists device devices,
               fst (getConnectedDevices w m) = Returned devices
               /\ find (fun d => jeqb (DeviceInfo.id d) deviceId) devices
                  = Some device
               /\ truthy (DeviceInfo.wireless device) = true
               /\ m' = printed (alreadyWireless deviceId)
                         (snd (getConnectedDevices w m))))
        \/ (exists device devices,
              fst (getConnectedDevices w m) = Returned devices
              /\ find (fun d => jeqb (DeviceInfo.id d) deviceId) devices
                 = Some device
              /\ truthy (DeviceInfo.wireless device) = false
              /\ remembered w deviceId device m m'
              /\ In (tcpipCmd deviceId) (log m')
              /\ if b then configFile m' = savedText (config m')
                           /\ writeFailure w (clock m') = None
                 else writeFailure w (clock m') = Some (configFile m'))).
Proof.
  destruct (getConnectedDevices_returns w m) as (ds & m1 & E & Hc & Hf & _).
  unfold enableWirelessDebugging, tryCatch, bind. rewrite E.
  destruct (find (fun d => jeqb (DeviceInfo.id d) deviceId) ds)
    as [device|] eqn:Efind.
  2:{ unfold consoleError, ret. eexists _, _. split; [reflexivity|].
      left. simpl. split; [auto | split; [auto | discriminate]]. }
  destruct (truthy (DeviceInfo.wireless device)) eqn:Ewl.
  { unfold consoleLog, ret. eexists _, _. split; [reflexivity|].
    left. cbn [config configFile printed fst snd].
    split; [exact Hc|]. split; [exact Hf|]. intros _.
    exists device, ds. repeat split; auto. }
  unfold execPromise at 1.
  destruct (execResult w (clock m1)
              (getpropCmd deviceId (str "ro.build.version.release")))
    as [version|].
  2:{ unfold consoleError, ret. eexists _, _. split; [reflexivity|].
      left. simpl. split; [auto | split; [auto | discriminate]]. }
  set (m2 := started _ m1).
  assert (Hm2 : forall line,
            config (printed line m2) = config m
            /\ configFile (printed line m2) = configFile m
            /\ knownDevicesList (config (printed line m2))
               = knownDevicesList (config m)).
  { intros line. simpl. rewrite Hc, Hf. auto. }
  assert (K : forall query line,
    exists b m',
      match switchToTcp w deviceId device query (printed line m2) with
      | (Returned a, m') => (Returned a, m')
      | (Thrown, m') =>
          (consoleError (str "Error enabling wireless debugging:") ;;; ret false)%m m'
      end = (Returned b, m')
      /\ ((config m' = config m /\ configFile m' = configFile m
           /\ (b = true ->
               exists device0 devices,
                 fst (Returned ds, m1) = Returned devices
                 /\ find (fun d => jeqb (DeviceInfo.id d) deviceId) devices
                    = Some device0
                 /\ truthy (DeviceInfo.wireless device0) = true
                 /\ m' = printed (alreadyWireless deviceId)
                           (snd (Returned ds, m1))))
          \/ (exists device0 devices,
                fst (Returned ds, m1) = Returned devices
                /\ find (fun d => jeqb (DeviceInfo.id d) deviceId) devices
                   = Some device0
                /\ truthy (DeviceInfo.wireless device0) = false
                /\ remembered w deviceId device0 m m'
                /\ In (tcpipCmd deviceId) (log m')
                /\ if b then configFile m' = savedText (config m')
                             /\ writeFailure w (clock m') = None
                   else writeFailure w (clock m') = Some (configFile m')))).
  { intros query line.
    destruct (Hm2 line) as (C2 & F2 & K2).
    pose proof (switchToTcp_cases deviceId device query (printed line m2)) as S.
    destruct (switchToTcp w deviceId device query (printed line m2))
      as [[[|]|] m3].
    - destruct S as ((ip & Hip & Hcfg) & Hfile & Hw & Hlog).
      eexists _, _. split; [reflexivity|]. right.
      exists device, ds. repeat split; auto.
      + exists ip. split; [exact Hip|]. rewrite Hcfg, K2. reflexivity.
      + rewrite Hlog. apply in_or_app. right. simpl. auto.
    - destruct S as (C3 & F3 & _).
      eexists _, _. split; [reflexivity|]. left.
      split; [congruence|]. split; [congruence | discriminate].
    - unfold bind, consoleError, ret.
      eexists _, _. split; [reflexivity|].
      destruct S as [(C3 & F3 & _) | ((ip & Hip & Hcfg) & Hw & Hlog)].
      + left. simpl. split; [congruence|]. split; [congruence | discriminate].
      + right. exists device, ds. cbn [fst].
        split; [reflexivity|]. split; [exact Efind|]. split; [exact Ewl|].
        split; [| split].
        * exists ip. split; [exact Hip|]. simpl. rewrite Hcfg, K2. reflexivity.
        * simpl. rewrite Hlog. apply in_or_app. right. simpl. auto.
        * simpl. exact Hw. }
  destruct (atLeast11 _); unfold consoleLog at 1; apply K.
Qed.

End EnableFacts.

(** X12.  [enableWirelessDebugging] never throws, and it leaves the
    config as it is or appends one record to the known devices: the device
    asked for, at an address that is not empty followed by [:5555], with
    the time of the push. *)
Theorem enable_wireless_appends_at_most_one_record w deviceId m :
  exists b m',
    enableWirelessDebugging w deviceId m = (Returned b, m')
    /\ (config m' = config m
        \/ exists entry ip,
             knownDevices (config m')
             = Some (knownDevicesList (config m) ++ [entry])
             /\ KnownDevice.id entry = deviceId
             /\ KnownDevice.ip entry = ip ++ str ":5555" /\ ip <> []
             /\ KnownDevice.lastConnected entry = dateNow w (clock m')).
Proof.
  destruct (enableWirelessDebugging_cases w deviceId m)
    as (b & m' & E & [[C _] | (device & ds & _ & _ & _ & (ip & Hip & Hcfg) & _)]).
  - exists b, m'. split; [exact E | left; exact C].
  - exists b, m'. split; [exact E|]. right.
    eexists _, ip. rewrite Hcfg. cbn. repeat split; auto.
Qed.

(** X13.  When [enableWirelessDebugging] returns [true], the device is
    in the listing, and either it was wireless already and nothing was
    done but to say so, the store being as before; or it was not, it was
    switched with [adb tcpip], one record for it was appended to the known
    devices, and the file holds the new config: loading that file, on
    whatever machine, gives the config in memory. *)
Theorem enabled_device_is_saved w deviceId m m' :
  enableWirelessDebugging w deviceId m = (Returned true, m') ->
  exists device devices,
    fst (getConnectedDevices w m) = Returned devices
    /\ find (fun d => jeqb (DeviceInfo.id d) deviceId) devices = Some device
    /\ ((truthy (DeviceInfo.wireless device) = true
         /\ m' = printed (alreadyWireless deviceId)
                   (snd (getConnectedDevices w m))
         /\ config m' = config m /\ configFile m' = configFile m)
        \/ (truthy (DeviceInfo.wireless device) = false
            /\ In (tcpipCmd deviceId) (log m')
            /\ (exists entry,
                  knownDevices (config m')
                  = Some (knownDevicesList (config m) ++ [entry])
                  /\ KnownDevice.id entry = deviceId)
            /\ configFile m' = savedText (config m')
            /\ forall m2,
                 configFile m2 = configFile m' ->
                 loadConfig m2 = (Returned (Typed (config m')), m2))).
Proof.
  intros H.
  destruct (enableWirelessDebugging_cases w deviceId m)
    as (b & m2 & E & Hcases).
  rewrite H in E. injection E as <- <-.
  destruct Hcases
    as [(C & F & Hw)
       | (device & ds & Hl & Hfind & Hwl & (ip & Hip & Hcfg) & Hlog & Hfile & _)].
  - destruct (Hw eq_refl) as (device & ds & Hl & Hfind & Hwl & Hm).
    exists device, ds. split; [exact Hl|]. split; [exact Hfind|].
    left. auto.
  - exists device, ds. split; [exact Hl|]. split; [exact Hfind|].
    right. split; [exact Hwl|]. split; [exact Hlog|]. split.
    + eexists. rewrite Hcfg at 1. cbn [knownDevices]. split; reflexivity.
    + split; [exact Hfile|]. intros m2 H2. apply load_saved_text.
      rewrite H2. exact Hfile.
Qed.

Lemma enabled_device_is_saved_wifiOn :
  In (tcpipCmd (str "R58M12345"))
     (log (snd (enableWirelessDebugging wifiOn (str "R58M12345") usedMachine)))
  /\ (exists entry,
        knownDevices
          (config (snd (enableWirelessDebugging wifiOn (str "R58M12345") usedMachine)))
        = Some (knownDevicesList (config usedMachine) ++ [entry])
        /\ KnownDevice.id entry = str "R58M12345")
  /\ forall m2,
       configFile m2
       = configFile (snd (enableWirelessDebugging wifiOn (str "R58M12345") usedMachine)) ->
       loadConfig m2
       = (Returned
            (Typed (config (snd (enableWirelessDebugging wifiOn
                                   (str "R58M12345") usedMachine)))),
          m2).
Proof.
  destruct (enabled_device_is_saved wifiOn (str "R58M12345") usedMachine
              (snd (enableWirelessDebugging wifiOn (str "R58M12345") usedMachine)))
    as (device & devices & Hl & Hfind & [(Hwl & _) | (_ & Hlog & Hentry & _ & Hload)]).
  - vm_compute. reflexivity.
  - exfalso. vm_compute in Hl. injection Hl as <-.
    vm_compute in Hfind. injection Hfind as <-.
    vm_compute in Hwl. discriminate Hwl.
  - split; [exact Hlog|]. split; [exact Hentry | exact Hload].
Defined.

(** A device that is wireless already: nothing is run after the listing,
    and the store is not touched. *)
Example enabled_device_was_wireless :
  enableWirelessDebugging homeBridge (str "192.168.1.12:5555") usedMachine
  = (Returned true,
     printed (alreadyWireless (str "192.168.1.12:5555"))
       (snd (getConnectedDevices homeBridge usedMachine))).
Proof. vm_compute. reflexivity. Qed.

Example wifiOn_known_devices :
  knownDevicesList
    (config (snd (enableWirelessDebugging wifiOn (str "R58M12345") usedMachine)))
  = knownDevicesList oneKnownDevice
    ++ [KnownDevice.mk (str "R58M12345") (str "192.168.1.40:5555")
          (str "Pixel 7") (str "2024-05-01T10:00:07.000Z")].
Proof. vm_compute. reflexivity. Qed.

(** X14.  When [enableWirelessDebugging] returns [false], the store is as
    before, unless the write of the config file failed: then the device
    has been switched with [adb tcpip] and its record is in the list in
    memory, while the file is what the failed write left of it. *)
Theorem failed_enable_changes_the_store_only_if_the_save_failed
    w deviceId m m' :
  enableWirelessDebugging w deviceId m = (Returned false, m') ->
  (config m' = config m /\ configFile m' = configFile m)
  \/ (writeFailure w (clock m') = Some (configFile m')
      /\ In (tcpipCmd deviceId) (log m')
      /\ exists entry,
           knownDevices (config m')
           = Some (knownDevicesList (config m) ++ [entry])
           /\ KnownDevice.id entry = deviceId).
Proof.
  intros H.
  destruct (enableWirelessDebugging_cases w deviceId m)
    as (b & m2 & E & Hcases).
  rewrite H in E. injection E as <- <-.
  destruct Hcases as [(C & F & _) | (device & ds & _ & _ & _ & (ip & Hip & Hcfg) & Hlog & Hfile)].
  - left. split; [exact C | exact F].
  - right. split; [exact Hfile|]. split; [exact Hlog|].
    eexists. rewrite Hcfg. cbn [knownDevices]. split; reflexivity.
Qed.

Lemma failed_enable_changes_the_store_only_if_the_save_failed_diskFull :
  (config (snd (enableWirelessDebugging diskFull (str "R58M12345") usedMachine))
   = config usedMachine
   /\ configFile (snd (enableWirelessDebugging diskFull (str "R58M12345") usedMachine))
      = configFile usedMachine)
  \/ (writeFailure diskFull
        (clock (snd (enableWirelessDebugging diskFull (str "R58M12345") usedMachine)))
      = Some (configFile
                (snd (enableWirelessDebugging diskFull (str "R58M12345") usedMachine)))
      /\ In (tcpipCmd (str "R58M12345"))
            (log (snd (enableWirelessDebugging diskFull (str "R58M12345") usedMachine)))
      /\ exists entry,
           knownDevices
             (config (snd (enableWirelessDebugging diskFull (str "R58M12345")
                             usedMachine)))
           = Some (knownDevicesList (config usedMachine) ++ [entry])
           /\ KnownDevice.id entry = str "R58M12345").
Proof.
  apply (failed_enable_changes_the_store_only_if_the_save_failed diskFull
           (str "R58M12345") usedMachine).
  vm_compute. reflexivity.
Defined.

Example diskFull_outcome :
  fst (enableWirelessDebugging diskFull (str "R58M12345") usedMachine)
  = Returned false
  /\ length (knownDevicesList
               (config (snd (enableWirelessDebugging diskFull (str "R58M12345")
                               usedMachine)))) = 2
  /\ configFile (snd (enableWirelessDebugging diskFull (str "R58M12345")
                        usedMachine)) = FileText [].
Proof. vm_compute. auto. Qed.

(** ** connectToDevice and the store *)

Lemma findIndex_spec {A} (p : A -> bool) (l : list A) :
  match findIndex p l with
  | Some n =>
      exists before d after,
        l = before ++ d :: after /\ length before = n
        /\ Forall (fun x => p x = false) before /\ p d = true
  | None => Forall (fun x => p x = false) l
  end.
Proof.
  induction l as [|x l IH]; simpl; [constructor|].
  destruct (p x) eqn:E.
  - exists [], x, l. repeat split; auto.
  - destruct (findIndex p l) as [n|].
    + destruct IH as (before & d & after & -> & Hn & Hb & Hd).
      exists (x :: before), d, after. simpl. repeat split; auto.
    + constructor; auto.
Qed.

Lemma setLastConnected_at now before d after :
  setLastConnected (length before) now (before ++ d :: after)
  = before ++ seenAt now d :: after.
Proof.
  induction before as [|x before IH]; simpl; [reflexivity|].
  rewrite IH. reflexivity.
Qed.

Section ConnectFacts.

Variable w : World.

(** What [touchKnownDevice] may do. *)
Lemma touchKnownDevice_cases ipAndPort m :
  exists o m',
    touchKnownDevice w ipAndPort m = (o, m')
    /\ clock m' = clock m /\ log m' = log m /\ console m' = console m
    /\ ((o = Returned tt /\ m' = m
         /\ Forall (fun x => KnownDevice.ip x <> ipAndPort)
              (knownDevicesList (config m)))
        \/ (touched ipAndPort (dateNow w (clock m)) m m'
            /\ match o with
               | Returned _ => writeFailure w (clock m) = None
                               /\ configFile m' = savedText (config m')
               | Thrown => writeFailure w (clock m) = Some (configFile m')
               end)).
Proof.
  unfold touchKnownDevice, bind, getConfig.
  destruct (knownDevices (config m)) as [l|] eqn:El.
  2:{ exists (Returned tt), m. unfold ret. repeat split; auto. left.
      repeat split; auto. unfold knownDevicesList. rewrite El. constructor. }
  pose proof (findIndex_spec (fun d => jeqb (KnownDevice.ip d) ipAndPort) l) as F.
  destruct (findIndex (fun d => jeqb (KnownDevice.ip d) ipAndPort) l) as [n|].
  2:{ exists (Returned tt), m. unfold ret. repeat split; auto. left.
      repeat split; auto. unfold knownDevicesList. rewrite El.
      eapply Forall_impl; [| exact F]. intros x Hx. apply jeqb_neq; exact Hx. }
  destruct F as (before & d & after & -> & Hn & Hb & Hd).
  apply jeqb_eq in Hd.
  assert (Hb' : Forall (fun x => KnownDevice.ip x <> ipAndPort) before).
  { eapply Forall_impl; [| exact Hb]. intros x Hx. apply jeqb_neq; exact Hx. }
  rewrite <- Hn, setLastConnected_at.
  unfold saveConfig. cbn [clock withConfig config].
  destruct (writeFailure w (clock m)) as [remains|] eqn:Ew.
  - eexists _, _. split; [reflexivity|]. cbn.
    repeat split; auto. right. split; [| reflexivity].
    exists before, d, after. repeat split; auto.
  - eexists _, _. split; [reflexivity|]. cbn.
    repeat split; auto. right. split; [| split; reflexivity].
    exists before, d, after. repeat split; auto.
Qed.

(** All that [connectToDevice] may do. *)
Lemma connectToDevice_cases ipAndPort m :
  exists b m',
    connectToDevice w ipAndPort m = (Returned b, m')
    /\ clock m' = S (clock m)
    /\ log m' = log m ++ [connectTo ipAndPort]
    /\ ((config m' = config m /\ configFile m' = configFile m
         /\ (b = true
             <-> exists stdout,
                   execResult w (clock m) (connectTo ipAndPort)
                   = Fulfilled stdout
                   /\ includes stdout (str "connected") = true)
         /\ (b = true ->
             Forall (fun x => KnownDevice.ip x <> ipAndPort)
               (knownDevicesList (config m))))
        \/ ((exists stdout,
               execResult w (clock m) (connectTo ipAndPort) = Fulfilled stdout
               /\ includes stdout (str "connected") = true)
            /\ touched ipAndPort (dateNow w (S (clock m))) m m'
            /\ if b then writeFailure w (S (clock m)) = None
                         /\ configFile m' = savedText (config m')
               else writeFailure w (S (clock m)) = Some (configFile m'))).
Proof.
  unfold connectToDevice, tryCatch, bind, execPromise.
  fold (connectTo ipAndPort).
  destruct (execResult w (clock m) (connectTo ipAndPort)) as [stdout|] eqn:Ex.
  2:{ unfold consoleError, ret. eexists _, _. split; [reflexivity|].
      cbn [clock log config configFile console printed started]. split; [reflexivity|]. split; [reflexivity|]. left.
      split; [reflexivity|]. split; [reflexivity|].
      split; [| discriminate].
      split; [discriminate|]. intros (out & X & _). discriminate X. }
  unfold consoleLog.
  destruct (includes stdout (str "connected")) eqn:Einc.
  2:{ unfold ret. eexists _, _. split; [reflexivity|].
      cbn [clock log config configFile console printed started]. split; [reflexivity|]. split; [reflexivity|]. left.
      split; [reflexivity|]. split; [reflexivity|].
      split; [| discriminate].
      split; [discriminate|]. intros (out & X & Y).
      injection X as X. subst out. congruence. }
  set (m1 := printed _ (started _ m)).
  destruct (touchKnownDevice_cases ipAndPort m1)
    as (o & m2 & E & C & L & K & Hcases).
  rewrite E.
  assert (Hex : exists out, Fulfilled stdout = Fulfilled out
                            /\ includes out (str "connected") = true)
    by (exists stdout; auto).
  destruct Hcases as [(-> & -> & Hnone) | (Ht & Ho)].
  - unfold ret. eexists _, _. split; [reflexivity|].
    split; [reflexivity|]. split; [reflexivity|]. left.
    split; [reflexivity|]. split; [reflexivity|].
    split; [split; auto | intros _; exact Hnone].
  - destruct o as [[]|].
    + unfold ret. eexists _, _. split; [reflexivity|].
      split; [rewrite C; reflexivity|]. split; [rewrite L; reflexivity|].
      right. split; [exact Hex|]. split; [exact Ht | exact Ho].
    + unfold consoleError, ret. eexists _, _. split; [reflexivity|].
      cbn [clock log config configFile console printed started].
      split; [rewrite C; reflexivity|]. split; [rewrite L; reflexivity|].
      right. split; [exact Hex|]. split; [| exact Ho].
      destruct Ht as (before & d & after & H1 & H2 & H3 & H4).
      exists before, d, after. repeat split; auto.
Qed.

End ConnectFacts.

(** X15.  [connectToDevice] never throws; it leaves the config as it is,
    or gives the first known device at that address, and no other, the
    time of the connection; it never adds or removes a record, nor changes
    an identifier, an address or a model. *)
Theorem connect_neither_adds_nor_removes_a_known_device w ipAndPort m :
  exists b m',
    connectToDevice w ipAndPort m = (Returned b, m')
    /\ (config m' = config m
        \/ touched ipAndPort (dateNow w (S (clock m))) m m')
    /\ map KnownDevice.id (knownDevicesList (config m'))
       = map KnownDevice.id (knownDevicesList (config m))
    /\ map KnownDevice.ip (knownDevicesList (config m'))
       = map KnownDevice.ip (knownDevicesList (config m))
    /\ map KnownDevice.model (knownDevicesList (config m'))
       = map KnownDevice.model (knownDevicesList (config m)).
Proof.
  destruct (connectToDevice_cases w ipAndPort m)
    as (b & m' & E & _ & _ & [(C & _) | (_ & Ht & _)]).
  - exists b, m'. rewrite C. repeat split; auto.
  - exists b, m'. split; [exact E|]. split; [right; exact Ht|].
    destruct Ht as (before & d & after & H1 & _ & _ & H4).
    unfold knownDevicesList. rewrite H1, H4, !map_app. simpl.
    repeat split; reflexivity.
Qed.

(** X16.  When the config file can be written, [connectToDevice] returns
    [true] exactly when [adb connect] is fulfilled and its output contains
    [connected]. *)
Theorem connect_succeeds_when_the_bridge_says_connected w ipAndPort m :
  (forall k, writeFailure w k = None) ->
  fst (connectToDevice w ipAndPort m) = Returned true
  <-> exists stdout,
        execResult w (clock m) (connectTo ipAndPort) = Fulfilled stdout
        /\ occursIn (str "connected") stdout.
Proof.
  intros Hw.
  destruct (connectToDevice_cases w ipAndPort m)
    as (b & m' & E & _ & _ & Hcases).
  rewrite E. cbn [fst].
  assert (R : (exists stdout,
                 execResult w (clock m) (connectTo ipAndPort) = Fulfilled stdout
                 /\ includes stdout (str "connected") = true)
              <-> (exists stdout,
                     execResult w (clock m) (connectTo ipAndPort)
                     = Fulfilled stdout
                     /\ occursIn (str "connected") stdout)).
  { split; intros (out & X & Y); exists out; split; auto;
      apply includes_spec; exact Y. }
  rewrite <- R.
  destruct Hcases as [(_ & _ & Hb & _) | (Hex & _ & Hsave)].
  - rewrite <- Hb. split; congruence.
  - destruct b.
    + split; auto.
    + rewrite Hw in Hsave. discriminate.
Qed.

Lemma connect_succeeds_when_the_bridge_says_connected_wifiOn :
  fst (connectToDevice wifiOn (str "192.168.1.40:5555") enabledMachine)
  = Returned true
  <-> exists stdout,
        execResult wifiOn (clock enabledMachine)
          (connectTo (str "192.168.1.40:5555")) = Fulfilled stdout
        /\ occursIn (str "connected") stdout.
Proof.
  apply (connect_succeeds_when_the_bridge_says_connected wifiOn).
  intros k. reflexivity.
Defined.

(** X17.  A successful connection to the address of a known device gives
    the first known device at that address the time of the connection,
    keeps the number of records, and saves: loading the file gives the
    config in memory. *)
Theorem connect_to_a_known_address_saves_the_time w ipAndPort m stdout d :
  execResult w (clock m) (connectTo ipAndPort) = Fulfilled stdout ->
  occursIn (str "connected") stdout ->
  In d (knownDevicesList (config m)) -> KnownDevice.ip d = ipAndPort ->
  writeFailure w (S (clock m)) = None ->
  exists m',
    connectToDevice w ipAndPort m = (Returned true, m')
    /\ touched ipAndPort (dateNow w (S (clock m))) m m'
    /\ length (knownDevicesList (config m'))
       = length (knownDevicesList (config m))
    /\ loadConfig m' = (Returned (Typed (config m')), m').
Proof.
  intros Hex Hocc Hin Hip Hw.
  destruct (connectToDevice_cases w ipAndPort m)
    as (b & m' & E & _ & _ & [(_ & _ & Hb & Hnone) | (_ & Ht & Hsave)]).
  - exfalso.
    assert (Hb' : b = true).
    { apply Hb. exists stdout. split; [exact Hex|].
      apply includes_spec; exact Hocc. }
    specialize (Hnone Hb'). rewrite Forall_forall in Hnone.
    exact (Hnone d Hin Hip).
  - destruct b; [| rewrite Hw in Hsave; discriminate].
    exists m'. split; [exact E|]. split; [exact Ht|]. split.
    + destruct Ht as (before & d' & after & H1 & _ & _ & H4).
      unfold knownDevicesList. rewrite H1, H4, !length_app. reflexivity.
    + apply load_saved_text. apply Hsave.
Qed.

Lemma connect_to_a_known_address_saves_the_time_after_enable :
  exists m',
    connectToDevice wifiOn (str "192.168.1.40:5555") enabledMachine
    = (Returned true, m')
    /\ touched (str "192.168.1.40:5555")
         (dateNow wifiOn (S (clock enabledMachine))) enabledMachine m'
    /\ length (knownDevicesList (config m'))
       = length (knownDevicesList (config enabledMachine))
    /\ loadConfig m' = (Returned (Typed (config m')), m').
Proof.
  apply (connect_to_a_known_address_saves_the_time wifiOn
           (str "192.168.1.40:5555") enabledMachine
           (str "connected to 192.168.1.40:5555" ++ [newline])
           (KnownDevice.mk (str "R58M12345") (str "192.168.1.40:5555")
              (str "Pixel 7") (str "2024-05-01T10:00:07.000Z"))).
  - vm_compute. reflexivity.
  - exists [], (str " to 192.168.1.40:5555" ++ [newline]). reflexivity.
  - vm_compute. auto.
  - reflexivity.
  - reflexivity.
Defined.

Example enable_then_connect :
  knownDevicesList
    (config (snd (connectToDevice wifiOn (str "192.168.1.40:5555")
                    enabledMachine)))
  = knownDevicesList oneKnownDevice
    ++ [KnownDevice.mk (str "R58M12345") (str "192.168.1.40:5555")
          (str "Pixel 7") (str "2024-05-01T10:00:08.000Z")].
Proof. vm_compute. reflexivity. Qed.

(** ** getRunningServices *)

Lemma split_nonempty sep s : split sep s <> [].
Proof.
  destruct s as [|c s]; simpl; [discriminate|].
  destruct (N.eqb c sep); [discriminate|].
  destruct (split sep s); discriminate.
Qed.

Lemma join_cons2 sep p q ps :
  join sep (p :: q :: ps) = p ++ sep ++ join sep (q :: ps).
Proof. reflexivity. Qed.

Lemma split_join sep s : join [sep] (split sep s) = s.
Proof.
  induction s as [|c s IH]; simpl; [reflexivity|].
  destruct (N.eqb c sep) eqn:E.
  - apply N.eqb_eq in E. subst c.
    destruct (split sep s) as [|q ps] eqn:Es;
      [exfalso; exact (split_nonempty sep s Es)|].
    rewrite join_cons2, IH. reflexivity.
  - destruct (split sep s) as [|q ps] eqn:Es;
      [exfalso; exact (split_nonempty sep s Es)|].
    destruct ps as [|q' ps].
    + simpl in *. rewrite IH. reflexivity.
    + rewrite join_cons2. rewrite join_cons2 in IH. rewrite <- IH.
      reflexivity.
Qed.

Lemma split_no_sep sep s : Forall (fun piece => ~ In sep piece) (split sep s).
Proof.
  induction s as [|c s IH]; simpl.
  - constructor; [intros [] | constructor].
  - destruct (N.eqb c sep) eqn:E.
    + constructor; [intros [] | exact IH].
    + apply N.eqb_neq in E.
      destruct (split sep s) as [|q ps]; [repeat constructor; intros [H|[]]; auto|].
      inversion IH as [|? ? Hq Hps]; subst.
      constructor; [| exact Hps].
      intros [H|H]; [apply E; exact H | exact (Hq H)].
Qed.

(** X18.  [getRunningServices] never throws and starts one child process;
    it returns the pieces of the output between line feeds that are not
    blank, in order, and nothing when the process is rejected: no line
    returned is blank or holds a line feed. *)
Theorem running_services_are_the_non_blank_lines w deviceId m :
  exists lines,
    getRunningServices w deviceId m
    = (Returned lines, started (servicesCmd deviceId) m)
    /\ Forall (fun line => trim line <> [] /\ ~ In newline line) lines
    /\ match execResult w (clock m) (servicesCmd deviceId) with
       | Fulfilled stdout =>
           exists pieces,
             join [newline] pieces = stdout
             /\ Forall (fun piece => ~ In newline piece) pieces
             /\ lines = filter notBlank pieces
       | Rejected => lines = []
       end.
Proof.
  unfold getRunningServices, tryCatch, bind, execPromise.
  destruct (execResult w (clock m) (servicesCmd deviceId)) as [stdout|].
  - unfold ret. eexists. split; [reflexivity|]. split.
    + apply Forall_forall. intros line Hl. apply filter_In in Hl.
      destruct Hl as [Hin Hnb]. split.
      * apply jeqb_neq. apply negb_true_iff. exact Hnb.
      * pose proof (split_no_sep newline stdout) as F.
        rewrite Forall_forall in F. exact (F line Hin).
    + exists (split newline stdout).
      split; [apply split_join|]. split; [apply split_no_sep | reflexivity].
  - unfold ret. exists []. repeat split. constructor.
Qed.

Example metroRunning_services :
  fst (getRunningServices metroRunning (str "R58M12345") freshMachine)
  = Returned [str "u0_a123 4012 com.app react"; str "u0_a124 4400 metro"].
Proof. vm_compute. reflexivity. Qed.

(** ** validate *)

Lemma digitsThen_spec n : forall s k,
  digitsThen n s k = true
  <-> exists ds r, s = ds ++ r /\ length ds = n /\ digits ds /\ k r = true.
Proof.
  induction n as [|n IH]; intros s k; simpl.
  - split.
    + intros H. exists [], s. repeat split; auto. constructor.
    + intros (ds & r & -> & Hl & _ & Hk).
      destruct ds; [exact Hk | discriminate].
  - destruct s as [|c s].
    + split; [discriminate|].
      intros (ds & r & E & Hl & _).
      destruct ds; [discriminate | discriminate].
    + rewrite andb_true_iff, IH. split.
      * intros (Hc & ds & r & -> & Hl & Hd & Hk).
        exists (c :: ds), r. simpl. repeat split; auto. constructor; auto.
      * intros (ds & r & E & Hl & Hd & Hk).
        destruct ds as [|c' ds]; [discriminate|].
        injection E as -> ->. inversion Hd; subst.
        split; [assumption|]. exists ds, r. repeat split; auto.
Qed.

Lemma octetThen_spec s k :
  octetThen s k = true
  <-> exists ds r, s = ds ++ r /\ octet ds /\ k r = true.
Proof.
  unfold octetThen, octet. rewrite !orb_true_iff, !digitsThen_spec. split.
  - intros [[H|H]|H]; destruct H as (ds & r & -> & Hl & Hd & Hk);
      exists ds, r; repeat split; auto; lia.
  - intros (ds & r & -> & (Hd & Hl) & Hk).
    assert (L : length ds = 3 \/ length ds = 2 \/ length ds = 1) by lia.
    destruct L as [L|[L|L]]; [left; left | left; right | right];
      exists ds, r; repeat split; auto.
Qed.

Lemma charThen_spec c s k :
  charThen c s k = true <-> exists r, s = c :: r /\ k r = true.
Proof.
  unfold charThen. destruct s as [|x s].
  - split; [discriminate | intros (r & E & _); discriminate].
  - rewrite andb_true_iff, N.eqb_eq. split.
    + intros [-> Hk]. exists s. auto.
    + intros (r & E & Hk). injection E as -> ->. auto.
Qed.

Lemma digitsPlusThen_spec s k :
  digitsPlusThen s k = true
  <-> exists ds r, s = ds ++ r /\ ds <> [] /\ digits ds /\ k r = true.
Proof.
  induction s as [|c s IH]; simpl.
  - split; [discriminate|].
    intros (ds & r & E & Hn & _). destruct ds; [congruence | discriminate].
  - rewrite andb_true_iff, orb_true_iff, IH. split.
    + intros (Hc & [(ds & r & -> & _ & Hd & Hk) | Hk]).
      * exists (c :: ds), r. repeat split; auto; [discriminate|].
        constructor; auto.
      * exists [c], s. repeat split; auto; [discriminate|].
        constructor; [auto | constructor].
    + intros (ds & r & E & Hn & Hd & Hk).
      destruct ds as [|c' ds]; [congruence|].
      injection E as -> ->. inversion Hd; subst. split; [assumption|].
      destruct ds as [|c'' ds]; [right; exact Hk|].
      left. exists (c'' :: ds), r. repeat split; auto. discriminate.
Qed.

Lemma portThen_spec s k :
  portThen s k = true
  <-> (exists p r, s = 58%N :: p ++ r /\ p <> [] /\ digits p /\ k r = true)
      \/ k s = true.
Proof.
  unfold portThen. rewrite orb_true_iff, charThen_spec. split.
  - intros [(r & -> & H) | H]; [left | right; exact H].
    apply digitsPlusThen_spec in H. destruct H as (p & r' & -> & Hn & Hd & Hk).
    exists p, r'. auto.
  - intros [(p & r & -> & Hn & Hd & Hk) | H]; [left | right; exact H].
    exists (p ++ r). split; [reflexivity|].
    apply digitsPlusThen_spec. exists p, r. auto.
Qed.

Lemma atEnd_spec s : atEnd s = true <-> s = [].
Proof. destruct s; simpl; split; congruence. Qed.

(** The matcher accepts the dotted quads with an optional port, and
    nothing else. *)
Lemma validate_spec input : validate input = true <-> dottedQuad input.
Proof.
  unfold validate, dottedQuad. split.
  - intros H.
    apply octetThen_spec in H. destruct H as (a & r1 & -> & Ha & H).
    apply charThen_spec in H. destruct H as (r2 & -> & H).
    apply octetThen_spec in H. destruct H as (b & r3 & -> & Hb & H).
    apply charThen_spec in H. destruct H as (r4 & -> & H).
    apply octetThen_spec in H. destruct H as (c & r5 & -> & Hc & H).
    apply charThen_spec in H. destruct H as (r6 & -> & H).
    apply octetThen_spec in H. destruct H as (d & r7 & -> & Hd & H).
    apply portThen_spec in H.
    exists a, b, c, d, r7. split; [reflexivity|].
    repeat (split; [assumption|]).
    destruct H as [(p & r & -> & Hn & Hp & H) | H].
    + apply atEnd_spec in H. subst r. rewrite app_nil_r.
      right. exists p. auto.
    + apply atEnd_spec in H. left. exact H.
  - intros (a & b & c & d & port & -> & Ha & Hb & Hc & Hd & Hport).
    apply octetThen_spec. eexists a, _. split; [reflexivity|]. split; [exact Ha|].
    apply charThen_spec. eexists. split; [reflexivity|].
    apply octetThen_spec. eexists b, _. split; [reflexivity|]. split; [exact Hb|].
    apply charThen_spec. eexists. split; [reflexivity|].
    apply octetThen_spec. eexists c, _. split; [reflexivity|]. split; [exact Hc|].
    apply charThen_spec. eexists. split; [reflexivity|].
    apply octetThen_spec. eexists d, _. split; [reflexivity|]. split; [exact Hd|].
    apply portThen_spec.
    destruct Hport as [-> | (p & -> & Hn & Hp)].
    + right. reflexivity.
    + left. exists p, []. rewrite app_nil_r. repeat split; auto.
Qed.

(** X19.  The [validate] of the prompt for an address accepts exactly the
    texts made of four runs of one to three digits with dots between them,
    followed by nothing or by a colon and at least one digit. *)
Theorem validate_accepts_the_dotted_quads_only input :
  validate input = true <-> dottedQuad input.
Proof. apply validate_spec. Qed.

Lemma toString_digits n : digits (toString n).
Proof.
  unfold toString, digits. generalize (Nat.to_uint n) as u.
  induction u; simpl NilEmpty.string_of_uint;
    [constructor | rewrite str_cons; constructor; [reflexivity | assumption] ..].
Qed.

Lemma to_uint_nonnil n : Nat.to_uint n <> Decimal.Nil.
Proof.
  rewrite <- (Unsigned.of_to n) at 1. rewrite Unsigned.to_of.
  apply DecimalFacts.unorm_nonnil.
Qed.

Lemma toString_nonempty n : toString n <> [].
Proof.
  unfold toString. pose proof (to_uint_nonnil n) as H.
  destruct (Nat.to_uint n); [congruence | discriminate ..].
Qed.

Lemma toString_octet n : n < 1000 -> octet (toString n).
Proof.
  intros H. split; [apply toString_digits|].
  assert (F : forallb (fun k => (1 <=? length (toString k))
                                && (length (toString k) <=? 3))
                (seq 0 1000) = true) by (vm_compute; reflexivity).
  rewrite forallb_forall in F.
  specialize (F n). rewrite andb_true_iff, !Nat.leb_le in F.
  apply F. apply in_seq. lia.
Qed.

(** X20.  [validate] bounds neither the octets by 255 nor the port: every
    dotted quad of numbers below 1000 is accepted, alone and followed by a
    colon and any number. *)
Theorem validate_does_not_bound_the_octets a b c d :
  a < 1000 -> b < 1000 -> c < 1000 -> d < 1000 ->
  validate (quad a b c d) = true
  /\ forall port, validate (quad a b c d ++ str ":" ++ toString port) = true.
Proof.
  intros Ha Hb Hc Hd. split; [| intros port]; apply validate_spec.
  - exists (toString a), (toString b), (toString c), (toString d), [].
    unfold quad. rewrite app_nil_r.
    repeat split; try apply toString_digits;
      try (apply toString_octet; assumption). left. reflexivity.
  - exists (toString a), (toString b), (toString c), (toString d),
           (str ":" ++ toString port).
    unfold quad. flatten. split; [reflexivity|].
    repeat split; try apply toString_digits;
      try (apply toString_octet; assumption).
    right. exists (toString port). repeat split.
    + apply toString_nonempty.
    + apply toString_digits.
Qed.

Lemma validate_does_not_bound_the_octets_999 :
  validate (quad 999 999 999 999) = true
  /\ forall port, validate (quad 999 999 999 999 ++ str ":" ++ toString port) = true.
Proof.
  apply (validate_does_not_bound_the_octets 999 999 999 999); lia.
Defined.

Example validate_samples :
  validate (str "192.168.1.100:5555") = true
  /\ validate (str "192.168.1.100") = true
  /\ validate (str "192.168.1.100:") = false
  /\ validate (str "192.168.1") = false
  /\ validate (str "1920.168.1.1") = false
  /\ validate (str " 192.168.1.1") = false
  /\ validate (str "192.168.1.1:55a") = false
  /\ validate (str "localhost:5555") = false.
Proof. vm_compute. repeat split. Qed.

(** ** The commands *)

Lemma checkAdbInstalled_spec w m :
  checkAdbInstalled w m
  = (Returned (match execResult w (clock m) versionCheck with
               | Fulfilled _ => true
               | Rejected => false
               end), started versionCheck m).
Proof.
  unfold checkAdbInstalled, tryCatch, bind, execPromise, versionCheck.
  destruct (execResult w (clock m) (str "adb version")); reflexivity.
Qed.

(** X21.  When [adb version] fails, [connect], [disconnect],
    [enable-wireless] and [qr] print the error on the missing bridge and do
    nothing else: no prompt, no other child process, no change of the
    store. *)
Theorem commands_stop_when_the_bridge_is_missing w user given m :
  execResult w (clock m) versionCheck = Rejected ->
  Forall (fun command : M unit =>
            command m
            = (Returned tt,
               printed (ConsoleError adbMissing) (started versionCheck m)))
    [connectCommand w user given; disconnectCommand w user given;
     enableWirelessCommand w user given; qrCommand w given].
Proof.
  intros H.
  repeat constructor;
    unfold connectCommand, disconnectCommand, enableWirelessCommand, qrCommand,
      bind; rewrite checkAdbInstalled_spec, H; reflexivity.
Qed.

Lemma commands_stop_when_the_bridge_is_missing_dead :
  Forall (fun command : M unit =>
            command freshMachine
            = (Returned tt,
               printed (ConsoleError adbMissing)
                 (started versionCheck freshMachine)))
    [connectCommand deadBridge typist None;
     disconnectCommand deadBridge typist None;
     enableWirelessCommand deadBridge typist None; qrCommand deadBridge None].
Proof.
  apply (commands_stop_when_the_bridge_is_missing deadBridge typist None
           freshMachine).
  reflexivity.
Defined.

(** [discover] stops in the same way, before the sweep. *)
Lemma discover_stops_when_the_bridge_is_missing w table sched m :
  execResult w (clock m) versionCheck = Rejected ->
  discoverCommand w table sched m
  = (Returned tt, printed (ConsoleError adbMissing) (started versionCheck m)).
Proof.
  intros H. unfold discoverCommand, bind.
  rewrite checkAdbInstalled_spec, H. reflexivity.
Qed.

(** With the bridge installed it runs the sweep and prints the table of
    the hosts found, or that there is none. *)
Lemma discover_runs_the_sweep w table sched m :
  execResult w (clock m) versionCheck <> Rejected ->
  discoverCommand w table sched m
  = (Returned tt,
     printed (ConsoleLog
                match discoverDevices w sched (started versionCheck m) with
                | [] => noneDiscoverable
                | devices => table (tableRows devices)
                end)
       (machine (discoverDevicesRun w sched (started versionCheck m)))).
Proof.
  intros H. unfold discoverCommand, bind at 1.
  rewrite checkAdbInstalled_spec.
  destruct (execResult w (clock m) versionCheck) as [out|]; [| congruence].
  cbn [negb]. cbv iota. unfold tryCatch, bind.
  destruct (discoverDevices w sched (started versionCheck m)); reflexivity.
Qed.

Example discover_at_home table :
  discoverCommand homeBridge table atTheJoin freshMachine
  = (Returned tt,
     printed (ConsoleLog
                (table [(str "192.168.1.1", str "Connected");
                        (str "192.168.1.12", str "Connected");
                        (str "192.168.1.77", str "Discoverable")]))
       (machine (discoverDevicesRun homeBridge atTheJoin
                   (started versionCheck freshMachine))))
  /\ discoverCommand deadBridge table atTheJoin freshMachine
     = (Returned tt,
        printed (ConsoleError adbMissing) (started versionCheck freshMachine)).
Proof.
  split.
  - rewrite discover_runs_the_sweep by (vm_compute; discriminate).
    replace (discoverDevices homeBridge atTheJoin (started versionCheck freshMachine))
      with [DiscoveredDevice.mk (str "192.168.1.1") connected;
            DiscoveredDevice.mk (str "192.168.1.12") connected;
            DiscoveredDevice.mk (str "192.168.1.77") discoverable]
      by (vm_compute; reflexivity).
    reflexivity.
  - apply discover_stops_when_the_bridge_is_missing. reflexivity.
Qed.

Lemma occursIn_colon s : occursIn (str ":") s <-> In 58%N s.
Proof.
  split.
  - intros (before & after & ->). apply in_or_app. right. left. reflexivity.
  - intros H. apply in_split in H. destruct H as (before & after & ->).
    exists before, after. reflexivity.
Qed.

(** An address that [validate] accepts is still one with the default
    port. *)
Lemma validate_default_port a :
  validate a = true ->
  validate (if includes a (str ":") then a else a ++ str ":5555") = true.
Proof.
  intros H. destruct (includes a (str ":")) eqn:E; [exact H|].
  apply validate_spec in H. apply validate_spec.
  destruct H as (x & y & z & t & port & -> & Hx & Hy & Hz & Ht & Hport).
  destruct Hport as [-> | (p & -> & _)].
  - exists x, y, z, t, (str ":5555"). rewrite app_nil_r. flatten.
    split; [reflexivity|]. repeat (split; [assumption|]).
    right. exists (str "5555"). split; [reflexivity|].
    split; [discriminate | repeat constructor].
  - exfalso.
    assert (X : includes (x ++ dot :: y ++ dot :: z ++ dot :: t ++ 58%N :: p)
                  (str ":") = true).
    { apply includes_spec, occursIn_colon.
      apply in_or_app; right; right.
      apply in_or_app; right; right.
      apply in_or_app; right; right.
      apply in_or_app; right; left; reflexivity. }
    congruence.
Qed.

(** X22.  With the bridge installed, [connect] starts one [adb connect],
    for the address given with [-i] or answered at the prompt: the address
    as it is when it holds a colon, followed by [:5555] when it holds
    none; an address that [validate] accepts is still accepted with the
    port; the last line reports what [connectToDevice] returned. *)
Theorem connect_command_targets_an_address_with_a_port
    w user optionsIp m address :
  execResult w (clock m) versionCheck <> Rejected ->
  chosenAddress user optionsIp m address ->
  exists target isConnected m1 m',
    connectCommand w user optionsIp m = (Returned tt, m')
    /\ (occursIn (str ":") address /\ target = address
        \/ ~ occursIn (str ":") address /\ target = address ++ str ":5555")
    /\ occursIn (str ":") target
    /\ (validate address = true -> validate target = true)
    /\ connectToDevice w target
         (printed (SpinnerStart (str "Connecting to " ++ target ++ str "..."))
            (started versionCheck m))
       = (Returned isConnected, m1)
    /\ m' = printed (connectVerdict isConnected target) m1
    /\ log m' = log m ++ [versionCheck; connectTo target].
Proof.
  intros Hadb Hchosen.
  set (target := if includes address (str ":") then address
                 else address ++ str ":5555").
  set (m0 := printed (SpinnerStart (str "Connecting to " ++ target ++ str "..."))
               (started versionCheck m)).
  destruct (connectToDevice_cases w target m0)
    as (b & m1 & E & _ & L & _).
  exists target, b, m1, (printed (connectVerdict b target) m1).
  assert (Hrun : connectCommand w user optionsIp m
                 = (Returned tt, printed (connectVerdict b target) m1)).
  { unfold connectCommand, bind at 1. rewrite checkAdbInstalled_spec.
    destruct (execResult w (clock m) versionCheck) as [out|];
      [| congruence].
    cbn [negb]. cbv iota.
    assert (Hbody : forall (c : M jstring) mm,
              c mm = (Returned address, mm) ->
              mm = started versionCheck m ->
              tryCatch
                (ipAndPort <- c ;;
                 let ipAndPort' := if includes ipAndPort (str ":") then ipAndPort
                                   else ipAndPort ++ str ":5555" in
                 spinnerStart (str "Connecting to " ++ ipAndPort' ++ str "...") ;;;
                 isConnected <- connectToDevice w ipAndPort' ;;
                 if isConnected
                 then spinnerSucceed (str "Connected to " ++ ipAndPort')
                 else spinnerFail (str "Failed to connect to " ++ ipAndPort'))%m
                (consoleError (str "Error connecting to device:")) mm
              = (Returned tt, printed (connectVerdict b target) m1)).
    { intros c mm Hc ->. unfold tryCatch, bind. rewrite Hc.
      fold target. unfold spinnerStart. fold m0. rewrite E.
      destruct b; reflexivity. }
    destruct Hchosen as [[-> Hne] | [Hopt Hans]].
    - destruct address as [|c s]; [congruence|].
      apply Hbody; reflexivity.
    - assert (Hc : forall mm, mm = started versionCheck m ->
                (conf <- getConfig ;;
                 match knownDevices conf with
                 | Some (d :: l) =>
                     prompt (picks user
                               (map (fun device =>
                                       choice (Some (KnownDevice.model device))
                                         (KnownDevice.ip device))
                                  (d :: l)))
                 | _ => prompt (enters user)
                 end)%m mm = (Returned address, mm)).
      { intros mm ->. unfold bind, getConfig, prompt.
        cbn [config started].
        unfold knownDevicesList in Hans.
        destruct (knownDevices (config m)) as [[|d l]|];
          rewrite Hans; reflexivity. }
      destruct Hopt as [-> | ->]; apply Hbody; auto. }
  split; [exact Hrun|].
  split.
  { subst target. destruct (includes address (str ":")) eqn:Einc.
    - left. split; [apply includes_spec; exact Einc | reflexivity].
    - right. split; [| reflexivity].
      intros Hocc. apply includes_spec in Hocc. congruence. }
  split.
  { subst target. destruct (includes address (str ":")) eqn:Einc.
    - apply includes_spec; exact Einc.
    - exists address, (str "5555"). reflexivity. }
  split; [apply validate_default_port|].
  split; [exact E|]. split; [reflexivity|].
  cbn [log printed]. rewrite L. subst m0. cbn [log printed started].
  rewrite <- app_assoc. reflexivity.
Qed.

Lemma connect_command_targets_an_address_with_a_port_typist :
  exists target isConnected m1 m',
    connectCommand wifiOn typist None freshMachine = (Returned tt, m')
    /\ (occursIn (str ":") (str "192.168.1.40") /\ target = str "192.168.1.40"
        \/ ~ occursIn (str ":") (str "192.168.1.40")
           /\ target = str "192.168.1.40" ++ str ":5555")
    /\ occursIn (str ":") target
    /\ (validate (str "192.168.1.40") = true -> validate target = true)
    /\ connectToDevice wifiOn target
         (printed (SpinnerStart (str "Connecting to " ++ target ++ str "..."))
            (started versionCheck freshMachine))
       = (Returned isConnected, m1)
    /\ m' = printed (connectVerdict isConnected target) m1
    /\ log m' = log freshMachine ++ [versionCheck; connectTo target].
Proof.
  apply (connect_command_targets_an_address_with_a_port wifiOn typist None
           freshMachine (str "192.168.1.40")).
  - vm_compute. intros H; discriminate H.
  - right. split; [left; reflexivity | reflexivity].
Defined.

Example typist_connects :
  log (snd (connectCommand wifiOn typist None freshMachine))
  = [str "adb version"; str "adb connect 192.168.1.40:5555"]
  /\ console (snd (connectCommand wifiOn typist None freshMachine))
     = [SpinnerStart (str "Connecting to 192.168.1.40:5555...");
        ConsoleLog (str "connected to 192.168.1.40:5555");
        SpinnerSucceed (str "Connected to 192.168.1.40:5555")].
Proof. vm_compute. split; reflexivity. Qed.

Lemma disconnectDevice_spec w ipAndPort m :
  exists disconnected m',
    disconnectDevice w ipAndPort m = (Returned disconnected, m')
    /\ log m' = log m ++ [disconnectFrom ipAndPort]
    /\ config m' = config m /\ configFile m' = configFile m
    /\ (disconnected = true
        <-> execResult w (clock m) (disconnectFrom ipAndPort) <> Rejected).
Proof.
  unfold disconnectDevice, tryCatch, bind, execPromise.
  fold (disconnectFrom ipAndPort).
  destruct (execResult w (clock m) (disconnectFrom ipAndPort)) as [stdout|].
  - unfold consoleLog, ret. eexists _, _. split; [reflexivity|].
    cbn [log config configFile printed started].
    repeat split; auto. discriminate.
  - unfold consoleError, ret. eexists _, _. split; [reflexivity|].
    cbn [log config configFile printed started].
    repeat split; auto; try discriminate; intros H; exfalso; apply H; reflexivity.
Qed.

(** X23.  With the bridge installed and no [-i], [disconnect] leaves the
    store alone and starts at most one [adb disconnect], for a listed entry
    that has the status [device], a manufacturer and a colon in its
    identifier; when no entry is flagged wireless it prints that none is
    connected and starts none. *)
Theorem disconnect_command_offers_the_wireless_devices w user m devices m1 :
  execResult w (clock m) versionCheck <> Rejected ->
  getConnectedDevices w (started versionCheck m) = (Returned devices, m1) ->
  picksAChoice user ->
  exists m',
    disconnectCommand w user None m = (Returned tt, m')
    /\ config m' = config m /\ configFile m' = configFile m
    /\ (log m' = log m1
        \/ exists d,
             In d devices
             /\ DeviceInfo.status d = str "device"
             /\ DeviceInfo.manufacturer d <> None
             /\ occursIn (str ":") (DeviceInfo.id d)
             /\ log m' = log m1 ++ [disconnectFrom (DeviceInfo.id d)])
    /\ ((forall d, In d devices -> truthy (DeviceInfo.wireless d) = false) ->
        m' = printed (ConsoleLog (str "No wireless devices connected.")) m1).
Proof.
  intros Hadb Hlist Hpick.
  destruct (getConnectedDevices_returns w (started versionCheck m))
    as (ds & m1' & E & Hc & Hf & _).
  rewrite Hlist in E. injection E as <- <-.
  simpl in Hc, Hf.
  pose proof (fun d => flagged_wireless w _ _ _ d Hlist) as Hw.
  unfold disconnectCommand, bind at 1. rewrite checkAdbInstalled_spec.
  destruct (execResult w (clock m) versionCheck) as [out|]; [| congruence].
  cbn [negb]. cbv iota.
  unfold tryCatch, bind. rewrite Hlist.
  destruct (filter (fun device => truthy (DeviceInfo.wireless device)) devices)
    as [|d0 rest] eqn:Ef.
  - unfold consoleLog, ret. eexists. split; [reflexivity|].
    cbn [log config configFile printed].
    split; [exact Hc|]. split; [exact Hf|]. split; [left; reflexivity|].
    intros _. reflexivity.
  - unfold prompt.
    destruct (picks user
                (map (fun device =>
                        choice (DeviceInfo.model device) (DeviceInfo.id device))
                   (d0 :: rest))) as [value|] eqn:Ep.
    + apply Hpick in Ep. rewrite map_map in Ep. cbn [choice snd] in Ep.
      apply in_map_iff in Ep. destruct Ep as (d & <- & Hd).
      rewrite <- Ef in Hd. apply filter_In in Hd. destruct Hd as [Hin Ht].
      unfold ret, spinnerStart.
      destruct (disconnectDevice_spec w (DeviceInfo.id d)
                  (printed (SpinnerStart (str "Disconnecting from "
                                          ++ DeviceInfo.id d ++ str "...")) m1))
        as (b & m2 & E2 & L2 & C2 & F2 & _).
      rewrite E2.
      exists (printed (disconnectVerdict b (DeviceInfo.id d)) m2).
      split; [destruct b; reflexivity|].
      cbn [log config configFile printed] in *.
      split; [congruence|]. split; [congruence|]. split.
      * right. exists d. destruct (Hw d Hin Ht) as (H1 & H2 & _ & _ & H3).
        repeat split; auto.
      * intros Hnone. rewrite (Hnone d Hin) in Ht. discriminate.
    + unfold consoleError. eexists. split; [reflexivity|].
      cbn [log config configFile printed].
      split; [exact Hc|]. split; [exact Hf|]. split; [left; reflexivity|].
      intros Hnone.
      assert (Hd0 : In d0 (filter (fun device => truthy (DeviceInfo.wireless device))
                             devices)) by (rewrite Ef; left; reflexivity).
      apply filter_In in Hd0. destruct Hd0 as [Hin Ht].
      rewrite (Hnone d0 Hin) in Ht. discriminate.
Qed.

Lemma listingAt_steady_home :
  fst (getConnectedDevices homeNetwork freshMachine)
  = Returned (listingAt (discoverDevicesRun homeNetwork atTheJoin freshMachine) 100).
Proof.
  apply (listingAt_steady homeNetwork freshMachine
           (discoverDevices homeNetwork atTheJoin freshMachine)).
  - exact homeNetwork_steady.
  - apply discoverDevices_returns.
  - lia.
Defined.

Lemma listed_devices_are_well_described_home :
  Forall wellDescribed homeListing
  /\ (forall d, In d homeListing -> truthy (DeviceInfo.wireless d) = true ->
        DeviceInfo.status d = str "device"
        /\ occursIn (str ":") (DeviceInfo.id d)
        /\ DeviceInfo.model d <> None
        /\ DeviceInfo.androidVersion d <> None
        /\ DeviceInfo.manufacturer d <> None).
Proof.
  apply (listed_devices_are_well_described homeNetwork freshMachine homeListing
           (snd (getConnectedDevices homeNetwork freshMachine))).
  vm_compute. reflexivity.
Defined.

Lemma listing_costs_one_process_per_query_home :
  exists l,
    log (snd (getConnectedDevices homeNetwork freshMachine))
    = log freshMachine ++ str "adb devices" :: l
    /\ Forall (fun c => isGetpropCmd c = true) l
    /\ length l = list_sum (map queries homeListing)
    /\ length l <= 3 * length homeListing
    /\ clock (snd (getConnectedDevices homeNetwork freshMachine))
       = S (clock freshMachine) + length l.
Proof.
  apply (listing_costs_one_process_per_query homeNetwork freshMachine
           homeListing).
  vm_compute. reflexivity.
Defined.

Lemma disconnect_command_offers_the_wireless_devices_home :
  exists m',
    disconnectCommand homeBridge firstPick None freshMachine = (Returned tt, m')
    /\ config m' = config freshMachine
    /\ configFile m' = configFile freshMachine
    /\ (log m'
        = log (snd (getConnectedDevices homeBridge
                      (started versionCheck freshMachine)))
        \/ exists d,
             In d homeListing
             /\ DeviceInfo.status d = str "device"
             /\ DeviceInfo.manufacturer d <> None
             /\ occursIn (str ":") (DeviceInfo.id d)
             /\ log m'
                = log (snd (getConnectedDevices homeBridge
                              (started versionCheck freshMachine)))
                  ++ [disconnectFrom (DeviceInfo.id d)])
    /\ ((forall d, In d homeListing -> truthy (DeviceInfo.wireless d) = false) ->
        m' = printed (ConsoleLog (str "No wireless devices connected."))
               (snd (getConnectedDevices homeBridge
                       (started versionCheck freshMachine)))).
Proof.
  apply (disconnect_command_offers_the_wireless_devices homeBridge firstPick
           freshMachine homeListing).
  - vm_compute. intros H; discriminate H.
  - vm_compute. reflexivity.
  - intros [|[name value] choices] v H;
      [discriminate H | injection H as <-; left; reflexivity].
Defined.

Example firstPick_disconnects :
  log (snd (disconnectCommand homeBridge firstPick None freshMachine))
  = [str "adb version"; str "adb devices";
     getpropCmd (str "192.168.1.12:5555") (str "ro.product.model");
     getpropCmd (str "192.168.1.12:5555") (str "ro.build.version.release");
     getpropCmd (str "192.168.1.12:5555") (str "ro.product.manufacturer");
     getpropCmd (str "R58M12345") (str "ro.product.model");
     getpropCmd (str "R58M12345") (str "ro.build.version.release");
     getpropCmd (str "R58M12345") (str "ro.product.manufacturer");
     str "adb disconnect 192.168.1.12:5555"].
Proof. vm_compute. reflexivity. Qed.

(** ** The platform version *)

Lemma readDigits_decimal u : forall acc,
  readDigits 10 (str (NilEmpty.string_of_uint u)) acc
  = match u with
    | Decimal.Nil => acc
    | _ => Some (N.of_nat (Nat.of_uint_acc u
                             (match acc with
                              | Some a => N.to_nat a
                              | None => 0
                              end)))
    end.
Proof.
  induction u; intros acc; simpl NilEmpty.string_of_uint;
    [reflexivity | rewrite str_cons; cbn [readDigits] ..];
    (match goal with
     | |- context [digitValue 10 (N_of_ascii ?c)] =>
         change (digitValue 10 (N_of_ascii c))
           with (Some (N_of_ascii c - 48)%N)
     end);
    cbv iota; rewrite IHu; cbn [Nat.of_uint_acc];
    rewrite Nat.tail_mul_spec;
    (destruct u;
     [ cbn [Nat.of_uint_acc]; f_equal; destruct acc as [a|]; simpl N_of_ascii; lia
     | f_equal; f_equal; f_equal; destruct acc as [a|]; simpl N_of_ascii; lia .. ]).
Qed.

(** The numeral of a number reads back as that number. *)
Lemma parseInt_toString n : parseInt (toString n) = Some (Z.of_nat n).
Proof.
  pose proof (toString_digits n) as D. unfold digits in D.
  pose proof (to_uint_nonnil n) as NN.
  assert (R : readDigits 10 (toString n) None = Some (N.of_nat n)).
  { unfold toString. rewrite readDigits_decimal.
    destruct (Nat.to_uint n) eqn:E; [congruence | ..];
      rewrite <- E; change (Nat.of_uint_acc (Nat.to_uint n) 0)
        with (Nat.of_uint (Nat.to_uint n)); rewrite Unsigned.of_to; reflexivity. }
  unfold parseInt.
  destruct (toString n) as [|c s] eqn:Es.
  { simpl in R. discriminate R. }
  inversion D as [|? ? Hc Hs]; subst.
  assert (Hsp : isSpace c = false).
  { unfold isDigit in Hc. apply andb_prop in Hc. destruct Hc as [H1 H2].
    apply N.leb_le in H1, H2. unfold isSpace.
    repeat match goal with
           | |- context [(?a <=? ?b)%N] =>
               let H := fresh in
               destruct (N.leb_spec a b) as [H|H]; try lia
           | |- context [(?a =? ?b)%N] =>
               let H := fresh in
               destruct (N.eqb_spec a b) as [H|H]; try lia
           end; reflexivity. }
  cbn [dropWhile]. rewrite Hsp.
  assert (Hsign : match c :: s with
                  | 45%N :: r => (true, r)
                  | 43%N :: r => (false, r)
                  | _ => (false, c :: s)
                  end = (false, c :: s)).
  { unfold isDigit in Hc. apply andb_prop in Hc. destruct Hc as [H1 H2].
    apply N.leb_le in H1, H2.
    destruct c as [|p]; [reflexivity|].
    do 6 (destruct p as [p|p|]; try reflexivity); lia. }
  rewrite Hsign.
  assert (Hradix : match c :: s with
                   | 48%N :: x :: r =>
                       if N.eqb x 120 || N.eqb x 88 then (16%N, r)
                       else (10%N, c :: s)
                   | _ => (10%N, c :: s)
                   end = (10%N, c :: s)).
  { destruct s as [|x r].
    - destruct c as [|p]; [reflexivity|].
      do 6 (destruct p as [p|p|]; try reflexivity).
    - inversion Hs as [|? ? Hx _]; subst.
      assert (Hx' : N.eqb x 120 || N.eqb x 88 = false).
      { unfold isDigit in Hx. apply andb_prop in Hx. destruct Hx as [H1 H2].
        apply N.leb_le in H1, H2.
        destruct (N.eqb_spec x 120); [lia|].
        destruct (N.eqb_spec x 88); [lia|]. reflexivity. }
      destruct c as [|p]; [reflexivity|].
      do 6 (destruct p as [p|p|]; try reflexivity).
      rewrite Hx'. reflexivity. }
  rewrite Hradix, R. rewrite nat_N_Z. reflexivity.
Qed.

Lemma split_head sep a r :
  ~ In sep a -> hd [] (split sep (a ++ sep :: r)) = a.
Proof.
  induction a as [|c a IH]; intros H; simpl.
  - rewrite N.eqb_refl. reflexivity.
  - destruct (N.eqb_spec c sep) as [E|E].
    + exfalso. apply H. left. exact E.
    + assert (H' : ~ In sep a) by (intros X; apply H; right; exact X).
      specialize (IH H').
      destruct (split sep (a ++ sep :: r)); simpl in *; congruence.
Qed.

Lemma split_whole sep a : ~ In sep a -> hd [] (split sep a) = a.
Proof.
  induction a as [|c a IH]; intros H; simpl; [reflexivity|].
  destruct (N.eqb_spec c sep) as [E|E].
  - exfalso. apply H. left. exact E.
  - assert (H' : ~ In sep a) by (intros X; apply H; right; exact X).
    specialize (IH H').
    destruct (split sep a); simpl in *; congruence.
Qed.

(** The major number of a dotted version is what [parseInt] reads. *)
Lemma major_version major rest :
  rest = [] \/ (exists r, rest = dot :: r) ->
  parseInt (hd [] (split dot (toString major ++ rest)))
  = Some (Z.of_nat major).
Proof.
  intros [-> | (r & ->)].
  - rewrite app_nil_r, split_whole by apply toString_no_dot.
    apply parseInt_toString.
  - rewrite split_head by apply toString_no_dot. apply parseInt_toString.
Qed.

(** X24.  [enableWirelessDebugging] asks the route table for the address
    of the device exactly when the major number of its platform version,
    a number alone or followed by a dot, is at least 11, and asks the
    address of the interface otherwise; the line it prints names the
    branch taken. *)
Theorem route_table_is_asked_from_android_11
    w m deviceId devices m1 device version major rest :
  getConnectedDevices w m = (Returned devices, m1) ->
  find (fun d => jeqb (DeviceInfo.id d) deviceId) devices = Some device ->
  truthy (DeviceInfo.wireless device) = false ->
  execResult w (clock m1) (versionCmd deviceId) = Fulfilled version ->
  trim version = toString major ++ rest ->
  rest = [] \/ (exists r, rest = dot :: r) ->
  exists b m' after,
    enableWirelessDebugging w deviceId m = (Returned b, m')
    /\ log m'
       = log m1 ++ versionCmd deviceId
         :: (if 11 <=? major then ipRouteCmd deviceId else ipAddrCmd deviceId)
         :: after
    /\ (after = [] \/ after = [tcpipCmd deviceId])
    /\ In (ConsoleLog
             (if 11 <=? major
              then str "Using Android 11+ wireless debugging..."
              else str "Using legacy wireless debugging for Android 10 and below..."))
          (console m').
Proof.
  intros Hdev Hfind Hwl Hver Htrim Hrest.
  unfold enableWirelessDebugging, tryCatch, bind.
  rewrite Hdev, Hfind, Hwl.
  unfold execPromise at 1. fold (versionCmd deviceId). rewrite Hver.
  rewrite Htrim, (major_version major rest Hrest).
  assert (Hb : atLeast11 (Some (Z.of_nat major)) = (11 <=? major)).
  { unfold atLeast11.
    destruct (Nat.leb_spec 11 major); [apply Z.leb_le | apply Z.leb_gt]; lia. }
  rewrite Hb.
  set (m2 := started (versionCmd deviceId) m1).
  assert (K : forall query line,
    exists b m' after,
      match switchToTcp w deviceId device query (printed line m2) with
      | (Returned a, m') => (Returned a, m')
      | (Thrown, m') =>
          (consoleError (str "Error enabling wireless debugging:") ;;; ret false)%m m'
      end = (Returned b, m')
      /\ log m' = log m1 ++ versionCmd deviceId :: query :: after
      /\ (after = [] \/ after = [tcpipCmd deviceId])
      /\ In line (console m')).
  { intros query line. subst m2.
    unfold switchToTcp, bind, execPromise.
    cbn [clock printed started].
    destruct (execResult w (S (clock m1)) query) as [wifiIp|].
    2:{ unfold consoleError, ret. exists false. eexists. exists [].
        split; [reflexivity|]. cbn [log console printed started].
        rewrite <- app_assoc. split; [reflexivity|]. split; [left; reflexivity|].
        repeat rewrite in_app_iff; cbn [In]; auto 10. }
    destruct (trim wifiIp) as [|c ip].
    { unfold consoleError, ret. exists false. eexists. exists [].
      split; [reflexivity|]. cbn [log console printed started].
      rewrite <- app_assoc. split; [reflexivity|]. split; [left; reflexivity|].
      repeat rewrite in_app_iff; cbn [In]; auto 10. }
    cbn [clock printed started].
    destruct (execResult w (S (S (clock m1))) (tcpipCmd deviceId)) as [out|].
    2:{ unfold consoleError, ret. exists false. eexists. exists [tcpipCmd deviceId].
        split; [reflexivity|]. cbn [log console printed started].
        rewrite <- !app_assoc. split; [reflexivity|]. split; [right; reflexivity|].
        repeat rewrite in_app_iff; cbn [In]; auto 10. }
    unfold consoleLog, rememberDevice, saveConfig, ret.
    cbn [clock started printed withConfig config].
    destruct (writeFailure w (S (S (S (clock m1))))) as [remains|].
    - unfold consoleError. exists false. eexists. exists [tcpipCmd deviceId].
      split; [reflexivity|].
      cbn [log console printed started withConfig withConfigFile].
      rewrite <- !app_assoc. split; [reflexivity|]. split; [right; reflexivity|].
      repeat rewrite in_app_iff; cbn [In]; auto 10.
    - exists true. eexists. exists [tcpipCmd deviceId].
      split; [reflexivity|].
      cbn [log console printed started withConfig withConfigFile].
      rewrite <- !app_assoc. split; [reflexivity|]. split; [right; reflexivity|].
      repeat rewrite in_app_iff; cbn [In]; auto 10. }
  destruct (11 <=? major); unfold consoleLog at 1; apply K.
Qed.

Lemma route_table_is_asked_from_android_11_ten :
  exists b m' after,
    enableWirelessDebugging android10 (str "R58M12345") freshMachine
    = (Returned b, m')
    /\ log m'
       = log (snd (getConnectedDevices android10 freshMachine))
         ++ versionCmd (str "R58M12345")
         :: (if 11 <=? 10 then ipRouteCmd (str "R58M12345")
             else ipAddrCmd (str "R58M12345"))
         :: after
    /\ (after = [] \/ after = [tcpipCmd (str "R58M12345")])
    /\ In (ConsoleLog
             (if 11 <=? 10
              then str "Using Android 11+ wireless debugging..."
              else str "Using legacy wireless debugging for Android 10 and below..."))
          (console m').
Proof.
  apply (route_table_is_asked_from_android_11 android10 freshMachine
           (str "R58M12345")
           [DeviceInfo.mk (str "R58M12345") (str "device") (Some (str "Pixel 3"))
              (Some (str "10")) (Some (str "Pixel 3")) (Some false)]
           (snd (getConnectedDevices android10 freshMachine))
           (DeviceInfo.mk (str "R58M12345") (str "device") (Some (str "Pixel 3"))
              (Some (str "10")) (Some (str "Pixel 3")) (Some false))
           (str "10" ++ [newline]) 10 []).
  - vm_compute. reflexivity.
  - reflexivity.
  - reflexivity.
  - vm_compute. reflexivity.
  - vm_compute. reflexivity.
  - left. reflexivity.
Defined.

Example android10_enable :
  fst (enableWirelessDebugging android10 (str "R58M12345") freshMachine)
  = Returned true
  /\ knownDevicesList
       (config (snd (enableWirelessDebugging android10 (str "R58M12345")
                       freshMachine)))
     = [KnownDevice.mk (str "R58M12345") (str "192.168.1.41:5555")
          (str "Pixel 3") (str "2024-05-01T10:00:00.000Z")].
Proof. vm_compute. split; reflexivity. Qed.
